(** * markdown_articles_tool: the image downloader, embedded and verified

    Two variants of the same orchestration logic live in the repository:

    - [images_extractor.py], the legacy single-file script, embedded in
      module [Extractor];
    - [markdown_toolset/image_downloader.py], the packaged class, embedded
      in module [Toolset].

    The file is laid out as follows.

    - [Py]: the Python primitives the two variants use (strings, the two
      regular expressions, [os.path], [pathlib], insertion-ordered
      dictionaries, exceptions);
    - [Hashlib]: MD5 and SHA-256;
    - [Loop]: a [for] loop over an enumerated list whose body may raise;
    - [Extractor], [Toolset]: the two variants;
    - [Scenario]: concrete installations, worlds and inputs;
    - [Entrypoint]: [main] of the legacy script;
    - [Cases]: more concrete worlds and inputs;
    - [Legacy], [Packaged], [Text], [LegacyStore], [Provenance]: the
      vocabulary of the statements;
    - facts about the loop and about each variant, and the claims.

    Python text ([str]) and binary data ([bytes]) are both modelled as
    [string], i.e. as byte sequences; a [str] is read as its UTF-8 encoding,
    so that [s.encode()] is the identity.  The string operations of the
    source that are embedded here ([find], [rsplit], [split], [startswith],
    [partition], the two [re.sub] calls and the [re.findall] call) only look
    at ASCII delimiters, on which bytes and code points agree; [strip]
    removes every Unicode white-space character, recognised by its UTF-8
    encoding; [lower] is applied by the source to ASCII text and to header
    names that are compared with ASCII names.  Paths are POSIX paths.  The
    [assert] statement is executed, as it is unless the interpreter runs
    with [-O].

    Effects are explicit: every interaction with the outside world (the
    network, the file system, the log) is appended to a chronological trace,
    and the outcome of an interaction is decided by an oracle that sees the
    whole trace so far.  Exceptions are values; a raising run keeps the state
    and the trace of what it did before it raised. *)

From Stdlib Require Import ZArith List Bool Ascii String Lia QArith.
From Stdlib Require Import Numbers.DecimalString.
Import ListNotations.

Close Scope Q_scope.
Local Open Scope string_scope.
Local Open Scope list_scope.

(* ================================================================== *)
(** * Python primitives *)
(* ================================================================== *)

Module Py.

(** Exceptions that the embedded code raises itself or can receive from its
    collaborators.  [KeyboardInterrupt] stands for the [BaseException]s that
    an [except Exception] clause does not catch. *)
Inductive exn : Type :=
| AssertionError (msg : string)
| IndexError
| KeyError (key : string)
| TypeError
| ValueError
| OSError (msg : string)
| FileExistsError
| FileNotFoundError
| PermissionError
| SSLError
| ConnectionError
| RequestTimeout
| KeyboardInterrupt.

(** [isinstance(e, Exception)]. *)
Definition is_Exception (e : exn) : bool :=
  match e with
  | KeyboardInterrupt => false
  | _ => true
  end.

(** [isinstance(e, requests.exceptions.SSLError)]. *)
Definition is_SSLError (e : exn) : bool :=
  match e with
  | SSLError => true
  | _ => false
  end.

(** [isinstance(e, FileExistsError)]. *)
Definition is_FileExistsError (e : exn) : bool :=
  match e with
  | FileExistsError => true
  | _ => false
  end.

(** The value of a Python expression: a result or a raised exception. *)
Inductive res (A : Type) : Type :=
| Return (a : A)
| Raise (e : exn).
Arguments Return {A} a.
Arguments Raise {A} e.

(** ** Characters *)

Definition dquote : string := String (ascii_of_nat 34) EmptyString.

Definition code (c : ascii) : nat := nat_of_ascii c.

Definition between (lo hi : nat) (c : ascii) : bool :=
  (lo <=? code c)%nat && (code c <=? hi)%nat.

(** [str.isspace] on the ASCII range: TAB, LF, VT, FF, CR, FS, GS, RS, US and
    the space; this is also what [\s] matches in a [str] pattern. *)
Definition is_space (c : ascii) : bool :=
  between 9 13 c || between 28 32 c.

(** [\w] on the ASCII range. *)
Definition is_word (c : ascii) : bool :=
  between 48 57 c || between 65 90 c || between 97 122 c || (code c =? 95)%nat.

Definition is_ascii (c : ascii) : bool := (code c <? 128)%nat.

Definition lower_char (c : ascii) : ascii :=
  if between 65 90 c then ascii_of_nat (code c + 32) else c.

(** ** Strings *)

Fixpoint str_map (f : ascii -> ascii) (s : string) : string :=
  match s with
  | EmptyString => EmptyString
  | String c s' => String (f c) (str_map f s')
  end.

Fixpoint str_filter (f : ascii -> bool) (s : string) : string :=
  match s with
  | EmptyString => EmptyString
  | String c s' => if f c then String c (str_filter f s') else str_filter f s'
  end.

Definition str_rev (s : string) : string :=
  string_of_list_ascii (rev (list_ascii_of_string s)).

(** [s.lower()] (ASCII letters). *)
Definition lower (s : string) : string := str_map lower_char s.

(** *** White space at the ends of a string

    What [str.strip] removes: the characters for which [str.isspace] holds,
    that is U+0009 to U+000D, U+001C to U+0020, U+0085, U+00A0, U+1680,
    U+2000 to U+200A, U+2028, U+2029, U+202F, U+205F and U+3000.  The first
    ten are one byte long ([is_space]); the others are recognised by the
    two or three bytes of their UTF-8 encoding. *)

(** U+0085 and U+00A0. *)
Definition is_space2 (a b : ascii) : bool :=
  (code a =? 194)%nat && ((code b =? 133)%nat || (code b =? 160)%nat).

(** U+1680; U+2000 to U+200A, U+2028, U+2029 and U+202F; U+205F; U+3000. *)
Definition is_space3 (a b c : ascii) : bool :=
  ((code a =? 225)%nat && (code b =? 154)%nat && (code c =? 128)%nat)
  || ((code a =? 226)%nat && (code b =? 128)%nat
      && (between 128 138 c || (code c =? 168)%nat || (code c =? 169)%nat
          || (code c =? 175)%nat))
  || ((code a =? 226)%nat && (code b =? 129)%nat && (code c =? 159)%nat)
  || ((code a =? 227)%nat && (code b =? 128)%nat && (code c =? 128)%nat).

(** The number of bytes of the white-space character the string starts
    with, [0] when it starts with none. *)
Definition space_width (s : string) : nat :=
  match s with
  | String a s1 =>
      if is_space a then 1
      else match s1 with
           | String b s2 =>
               if is_space2 a b then 2
               else match s2 with
                    | String c _ => if is_space3 a b c then 3 else 0
                    | EmptyString => 0
                    end
           | EmptyString => 0
           end
  | EmptyString => 0
  end.

(** The same on a string read backwards: the number of bytes of the
    white-space character the original string ends with.  In a UTF-8 string
    a lead byte starts a character, so the bytes matched are a whole
    character. *)
Definition space_width_rev (s : string) : nat :=
  match s with
  | String c s1 =>
      if is_space c then 1
      else match s1 with
           | String b s2 =>
               if is_space2 b c then 2
               else match s2 with
                    | String a _ => if is_space3 a b c then 3 else 0
                    | EmptyString => 0
                    end
           | EmptyString => 0
           end
  | EmptyString => 0
  end.

(** [s[n:]]. *)
Fixpoint str_drop (n : nat) (s : string) : string :=
  match n, s with
  | S n', String _ s' => str_drop n' s'
  | _, _ => s
  end.

(** Drops leading characters as long as [width] finds one; [fuel] bounds
    the number of rounds, and the length of the string is enough. *)
Fixpoint strip_front (width : string -> nat) (fuel : nat) (s : string)
  : string :=
  match fuel with
  | O => s
  | S fuel' =>
      match width s with
      | O => s
      | S k => strip_front width fuel' (str_drop (S k) s)
      end
  end.

(** [s.lstrip()]. *)
Definition lstrip (s : string) : string :=
  strip_front space_width (String.length s) s.

(** [s.rstrip()]. *)
Definition rstrip (s : string) : string :=
  str_rev
    (strip_front space_width_rev (String.length (str_rev s)) (str_rev s)).

(** [s.strip()]. *)
Definition strip (s : string) : string := rstrip (lstrip s).

(** [s.startswith(p)]. *)
Fixpoint startswith (s p : string) {struct p} : bool :=
  match p with
  | EmptyString => true
  | String c p' =>
      match s with
      | EmptyString => false
      | String a s' => Ascii.eqb a c && startswith s' p'
      end
  end.

(** Position of the first / last occurrence of a character. *)
Fixpoint index_of (c : ascii) (s : string) : option nat :=
  match s with
  | EmptyString => None
  | String a s' =>
      if Ascii.eqb a c then Some 0%nat
      else match index_of c s' with
           | Some i => Some (S i)
           | None => None
           end
  end.

Fixpoint rindex_of (c : ascii) (s : string) : option nat :=
  match s with
  | EmptyString => None
  | String a s' =>
      match rindex_of c s' with
      | Some i => Some (S i)
      | None => if Ascii.eqb a c then Some 0%nat else None
      end
  end.

Definition index_Z (o : option nat) : Z :=
  match o with
  | Some i => Z.of_nat i
  | None => (-1)%Z
  end.

(** [s.find(c)] and [s.rfind(c)] for a one-character needle: the index, or
    [-1] when the needle does not occur. *)
Definition str_find (s : string) (c : ascii) : Z := index_Z (index_of c s).
Definition str_rfind (s : string) (c : ascii) : Z := index_Z (rindex_of c s).

(** Truth value of an [int] used as a condition. *)
Definition truthy_int (z : Z) : bool := negb (z =? 0)%Z.

(** Truth value of a [str] used as a condition. *)
Definition truthy_str (s : string) : bool :=
  match s with
  | EmptyString => false
  | _ => true
  end.

(** [s[:i]] and [s[i:]] for [0 <= i]. *)
Definition slice_to (i : nat) (s : string) : string := substring 0 i s.
Definition slice_from (i : nat) (s : string) : string :=
  substring i (String.length s - i) s.

(** [s.rsplit(c, 1)]. *)
Definition rsplit1 (s : string) (c : ascii) : list string :=
  match rindex_of c s with
  | None => [s]
  | Some i => [slice_to i s; slice_from (S i) s]
  end.

(** [s.partition(c)[0]]. *)
Definition partition_head (s : string) (c : ascii) : string :=
  match index_of c s with
  | None => s
  | Some i => slice_to i s
  end.

(** [s.split(c)]. *)
Fixpoint split (c : ascii) (s : string) : list string :=
  match s with
  | EmptyString => [EmptyString]
  | String a s' =>
      if Ascii.eqb a c then EmptyString :: split c s'
      else match split c s' with
           | [] => [String a EmptyString]
           | w :: ws => String a w :: ws
           end
  end.

(** [sep.join(l)]. *)
Fixpoint join (sep : string) (l : list string) : string :=
  match l with
  | [] => EmptyString
  | [x] => x
  | x :: rest => x ++ sep ++ join sep rest
  end.

(** [l[i]]. *)
Definition list_index {A : Type} (l : list A) (i : nat) : res A :=
  match nth_error l i with
  | Some a => Return a
  | None => Raise IndexError
  end.

(** [str(n)] for an [int]. *)
Definition str_of_int (z : Z) : string := NilZero.string_of_int (Z.to_int z).

(** ** Regular expressions used by the source *)

(** [re.sub(r'[^\w\s-]', '', s)]. *)
Definition re_sub_non_word (s : string) : string :=
  str_filter (fun c => is_word c || is_space c || Ascii.eqb c "-") s.

(** [re.sub(r'[-\s]+', '-', s)]: every maximal run of hyphens and whitespace
    becomes one hyphen.  [in_run] tells that the previous character already
    belonged to the run being replaced. *)
Fixpoint re_sub_hyphen_runs_from (in_run : bool) (s : string) : string :=
  match s with
  | EmptyString => EmptyString
  | String c s' =>
      if Ascii.eqb c "-" || is_space c then
        if in_run then re_sub_hyphen_runs_from true s'
        else String "-" (re_sub_hyphen_runs_from true s')
      else String c (re_sub_hyphen_runs_from false s')
  end.

Definition re_sub_hyphen_runs (s : string) : string :=
  re_sub_hyphen_runs_from false s.

(** The text matched by [.+] at the start of [s]: everything up to the first
    line feed. *)
Definition dot_plus (s : string) : string := partition_head s "010".

(** [re.findall('filename=(.+)', s)], restricted to what the source uses: the
    emptiness of the list and its first element.  [None] is the empty list,
    [Some g] a list whose first element is [g].  The first match starts at
    the leftmost position where the literal is followed by a character other
    than a line feed. *)
Fixpoint re_findall_filename_first (s : string) : option string :=
  match s with
  | EmptyString => None
  | String _ s' =>
      if startswith s "filename=" then
        match dot_plus (slice_from 9 s) with
        | EmptyString => re_findall_filename_first s'
        | g => Some g
        end
      else re_findall_filename_first s'
  end.

(** ** [os.path] (POSIX flavour) *)

(** The [while] loop of [genericpath._splitext]: is there a character other
    than the dot among the [n] characters of [p] from [filenameIndex] on? *)
Fixpoint splitext_scan (p : string) (filenameIndex n : nat) : bool :=
  match n with
  | O => false
  | S k =>
      match String.get filenameIndex p with
      | Some c =>
          if Ascii.eqb c "." then splitext_scan p (S filenameIndex) k else true
      | None => true
      end
  end.

(** [os.path.splitext(p)]. *)
Definition splitext (p : string) : string * string :=
  let sepIndex := str_rfind p "/" in
  let dotIndex := str_rfind p "." in
  if (sepIndex <? dotIndex)%Z then
    let filenameIndex := Z.to_nat (sepIndex + 1) in
    let d := Z.to_nat dotIndex in
    if splitext_scan p filenameIndex (d - filenameIndex)
    then (slice_to d p, slice_from d p)
    else (p, EmptyString)
  else (p, EmptyString).

Definition endswith_slash (s : string) : bool :=
  match rindex_of "/" s with
  | Some i => (S i =? String.length s)%nat
  | None => false
  end.

(** [os.path.join(a, b)]. *)
Definition path_join (a b : string) : string :=
  if startswith b "/" then b
  else if negb (truthy_str a) || endswith_slash a then a ++ b
  else a ++ "/" ++ b.

Fixpoint all_slashes (s : string) : bool :=
  match s with
  | EmptyString => true
  | String c s' => Ascii.eqb c "/" && all_slashes s'
  end.

Fixpoint lstrip_slashes (s : string) : string :=
  match s with
  | EmptyString => EmptyString
  | String c s' => if Ascii.eqb c "/" then lstrip_slashes s' else s
  end.

Definition rstrip_slashes (s : string) : string :=
  str_rev (lstrip_slashes (str_rev s)).

(** [os.path.dirname(p)]. *)
Definition dirname (p : string) : string :=
  let i := Z.to_nat (str_rfind p "/" + 1) in
  let head := slice_to i p in
  if truthy_str head && negb (all_slashes head) then rstrip_slashes head
  else head.

(** ** [pathlib.PurePosixPath] *)

(** A pure path: its root (empty, one slash or two slashes) and its
    components. *)
Record PurePath : Type := mkPath { root : string; names : list string }.

(** [PurePosixPath.splitroot]: exactly two leading slashes are kept as a
    root of their own. *)
Definition splitroot (part : string) : string * string :=
  if startswith part "/" then
    let stripped := lstrip_slashes part in
    if (String.length part - String.length stripped =? 2)%nat
    then ("//", stripped) else ("/", stripped)
  else (EmptyString, part).

Definition is_component (x : string) : bool :=
  truthy_str x && negb (String.eqb x ".").

(** [Path(s)]. *)
Definition Path (s : string) : PurePath :=
  let '(r, rel) := splitroot s in
  mkPath r (filter is_component (split "/" rel)).

(** [p / q] for two paths. *)
Definition truediv_path (p q : PurePath) : PurePath :=
  if truthy_str (root q) then q
  else mkPath (root p) (names p ++ names q).

(** [p / s] for a path and a string. *)
Definition truediv (p : PurePath) (s : string) : PurePath :=
  truediv_path p (Path s).

(** [p.parts]. *)
Definition parts (p : PurePath) : list string :=
  if truthy_str (root p) then root p :: names p else names p.

(** [p.parent]. *)
Definition parent (p : PurePath) : PurePath :=
  match names p with
  | [] => p
  | _ => mkPath (root p) (removelast (names p))
  end.

(** [p.name]. *)
Definition name (p : PurePath) : string := last (names p) EmptyString.

(** [str(p)]. *)
Definition str_of_path (p : PurePath) : string :=
  match root p, names p with
  | EmptyString, [] => "."
  | r, ns => r ++ join "/" ns
  end.

Fixpoint list_eqb (l1 l2 : list string) : bool :=
  match l1, l2 with
  | [], [] => true
  | x :: l1', y :: l2' => String.eqb x y && list_eqb l1' l2'
  | _, _ => false
  end.

(** [p == q] for two pure POSIX paths. *)
Definition path_eqb (p q : PurePath) : bool :=
  String.eqb (root p) (root q) && list_eqb (names p) (names q).

(** ** Dynamically typed values stored in a [dict]

    The packaged variant compares a [Path] with whatever a dictionary holds;
    the outcome of [==] depends on the run-time type of both operands. *)
Inductive value : Type :=
| VStr (s : string)
| VPath (p : PurePath).

(** [a == b].  [PurePath.__eq__] returns [NotImplemented] for an operand that
    is not a pure path and so does [str.__eq__] for one that is not a [str];
    Python then falls back to identity, which is [False] for two different
    objects. *)
Definition py_eq (a b : value) : bool :=
  match a, b with
  | VStr s, VStr t => String.eqb s t
  | VPath p, VPath q => path_eqb p q
  | _, _ => false
  end.

(** ** Insertion-ordered dictionaries *)

Section Dict.
Context {K V : Type} (eqb : K -> K -> bool).

Definition dict : Type := list (K * V).

(** [d.get(k)]. *)
Fixpoint dict_get (d : dict) (k : K) : option V :=
match d with
| [] => None
| (k', v) :: d' => if eqb k' k then Some v else dict_get d' k
end.

(** [k in d.keys()]. *)
Definition dict_mem (d : dict) (k : K) : bool :=
existsb (fun kv => eqb (fst kv) k) d.

(** [d[k] = v]. *)
Fixpoint dict_set (d : dict) (k : K) (v : V) : dict :=
match d with
| [] => [(k, v)]
| (k', v') :: d' =>
if eqb k' k then (k', v) :: d' else (k', v') :: dict_set d' k v
end.

(** [d.setdefault(k, v)], for its effect on [d]. *)
Definition dict_setdefault (d : dict) (k : K) (v : V) : dict :=
if dict_mem d k then d else d ++ [(k, v)].
End Dict.

(** [x in l] for a list or a set of strings. *)
Definition str_in (x : string) (l : list string) : bool :=
  existsb (String.eqb x) l.

End Py.

(* ================================================================== *)
(** * [hashlib]: MD5 and SHA-256 on byte strings *)
(* ================================================================== *)

Module Hashlib.

Local Open Scope Z_scope.

Definition mask32 (x : Z) : Z := Z.land x 4294967295.
Definition add32 (a b : Z) : Z := mask32 (a + b).
Definition not32 (x : Z) : Z := Z.lxor x 4294967295.
Definition rotl32 (x n : Z) : Z :=
  mask32 (Z.lor (Z.shiftl x n) (Z.shiftr x (32 - n))).
Definition rotr32 (x n : Z) : Z := rotl32 x (32 - n).

Definition bytes_of_string (s : string) : list Z :=
  map (fun c => Z.of_nat (nat_of_ascii c)) (list_ascii_of_string s).

Definition string_of_bytes (l : list Z) : string :=
  string_of_list_ascii (map (fun b => ascii_of_nat (Z.to_nat b)) l).

(** The [k] low bytes of [n], least significant first. *)
Fixpoint le_bytes (k : nat) (n : Z) : list Z :=
  match k with
  | O => []
  | S k' => Z.land n 255 :: le_bytes k' (Z.shiftr n 8)
  end.

Definition be_bytes (k : nat) (n : Z) : list Z := rev (le_bytes k n).

Fixpoint le_word (bs : list Z) : Z :=
  match bs with
  | [] => 0
  | b :: r => b + 256 * le_word r
  end.

Definition be_word (bs : list Z) : Z := le_word (rev bs).

(** Cut a list into consecutive blocks of [n] elements. *)
Fixpoint chunks_fuel {A : Type} (fuel n : nat) (l : list A) : list (list A) :=
  match fuel, l with
  | _, [] => []
  | O, _ => []
  | S f, _ => firstn n l :: chunks_fuel f n (skipn n l)
  end.

Definition chunks {A : Type} (n : nat) (l : list A) : list (list A) :=
  chunks_fuel (List.length l) n l.

(** Merkle-Damgard padding shared by both functions: one [0x80] byte, zeros
    up to 56 modulo 64, then the bit length on eight bytes. *)
Definition pad (length_bytes : Z -> list Z) (msg : list Z) : list Z :=
  let len := Z.of_nat (List.length msg) in
  msg ++ [128] ++ repeat 0 (Z.to_nat ((55 - len) mod 64))
      ++ length_bytes (8 * len).

Definition hex_digit (n : Z) : ascii :=
  if n <? 10 then ascii_of_nat (Z.to_nat (48 + n))
  else ascii_of_nat (Z.to_nat (87 + n)).

Fixpoint hex_of_bytes (bs : list Z) : string :=
  match bs with
  | [] => EmptyString
  | b :: r =>
      String (hex_digit (Z.shiftr b 4))
        (String (hex_digit (Z.land b 15)) (hex_of_bytes r))
  end.

(** ** MD5 (RFC 1321) *)

Definition md5_K : list Z :=
  [3614090360; 3905402710; 606105819; 3250441966; 4118548399; 1200080426;
   2821735955; 4249261313; 1770035416; 2336552879; 4294925233; 2304563134;
   1804603682; 4254626195; 2792965006; 1236535329; 4129170786; 3225465664;
   643717713; 3921069994; 3593408605; 38016083; 3634488961; 3889429448;
   568446438; 3275163606; 4107603335; 1163531501; 2850285829; 4243563512;
   1735328473; 2368359562; 4294588738; 2272392833; 1839030562; 4259657740;
   2763975236; 1272893353; 4139469664; 3200236656; 681279174; 3936430074;
   3572445317; 76029189; 3654602809; 3873151461; 530742520; 3299628645;
   4096336452; 1126891415; 2878612391; 4237533241; 1700485571; 2399980690;
   4293915773; 2240044497; 1873313359; 4264355552; 2734768916; 1309151649;
   4149444226; 3174756917; 718787259; 3951481745].

Definition md5_S : list Z :=
  [7; 12; 17; 22; 7; 12; 17; 22; 7; 12; 17; 22; 7; 12; 17; 22;
   5; 9; 14; 20; 5; 9; 14; 20; 5; 9; 14; 20; 5; 9; 14; 20;
   4; 11; 16; 23; 4; 11; 16; 23; 4; 11; 16; 23; 4; 11; 16; 23;
   6; 10; 15; 21; 6; 10; 15; 21; 6; 10; 15; 21; 6; 10; 15; 21].

Definition md5_state : Type := (Z * Z * Z * Z)%type.

Definition md5_init : md5_state :=
  (1732584193, 4023233417, 2562383102, 271733878).

Definition md5_round (M : list Z) (st : md5_state) (i : nat) : md5_state :=
  let '(a, b, c, d) := st in
  let iz := Z.of_nat i in
  let '(F, g) :=
    if iz <? 16 then (Z.lor (Z.land b c) (Z.land (not32 b) d), iz)
    else if iz <? 32 then
      (Z.lor (Z.land d b) (Z.land (not32 d) c), (5 * iz + 1) mod 16)
    else if iz <? 48 then (Z.lxor b (Z.lxor c d), (3 * iz + 5) mod 16)
    else (Z.lxor c (Z.lor b (not32 d)), (7 * iz) mod 16) in
  let F' := add32 (add32 (add32 F a) (nth i md5_K 0)) (nth (Z.to_nat g) M 0) in
  (d, add32 b (rotl32 F' (nth i md5_S 0)), b, c).

Definition md5_block (st : md5_state) (block : list Z) : md5_state :=
  let M := map le_word (chunks 4 block) in
  let '(a, b, c, d) := st in
  let '(a', b', c', d') := fold_left (md5_round M) (seq 0 64) st in
  (add32 a a', add32 b b', add32 c c', add32 d d').

Definition md5_digest_bytes (msg : list Z) : list Z :=
  let '(a, b, c, d) :=
    fold_left md5_block (chunks 64 (pad (le_bytes 8) msg)) md5_init in
  le_bytes 4 a ++ le_bytes 4 b ++ le_bytes 4 c ++ le_bytes 4 d.

(** [hashlib.md5(s.encode()).hexdigest()]. *)
Definition md5_hexdigest (s : string) : string :=
  hex_of_bytes (md5_digest_bytes (bytes_of_string s)).

(** ** SHA-256 (FIPS 180-4) *)

Definition sha256_K : list Z :=
  [1116352408; 1899447441; 3049323471; 3921009573; 961987163; 1508970993;
   2453635748; 2870763221; 3624381080; 310598401; 607225278; 1426881987;
   1925078388; 2162078206; 2614888103; 3248222580; 3835390401; 4022224774;
   264347078; 604807628; 770255983; 1249150122; 1555081692; 1996064986;
   2554220882; 2821834349; 2952996808; 3210313671; 3336571891; 3584528711;
   113926993; 338241895; 666307205; 773529912; 1294757372; 1396182291;
   1695183700; 1986661051; 2177026350; 2456956037; 2730485921; 2820302411;
   3259730800; 3345764771; 3516065817; 3600352804; 4094571909; 275423344;
   430227734; 506948616; 659060556; 883997877; 958139571; 1322822218;
   1537002063; 1747873779; 1955562222; 2024104815; 2227730452; 2361852424;
   2428436474; 2756734187; 3204031479; 3329325298].

Definition sha256_init : list Z :=
  [1779033703; 3144134277; 1013904242; 2773480762; 1359893119; 2600822924;
   528734635; 1541459225].

(** The message schedule: [w] holds the words computed so far. *)
Definition sha256_extend (w : list Z) (i : nat) : list Z :=
  let at_ (k : nat) := nth (i - k) w 0 in
  let s0 := Z.lxor (rotr32 (at_ 15%nat) 7)
              (Z.lxor (rotr32 (at_ 15%nat) 18) (Z.shiftr (at_ 15%nat) 3)) in
  let s1 := Z.lxor (rotr32 (at_ 2%nat) 17)
              (Z.lxor (rotr32 (at_ 2%nat) 19) (Z.shiftr (at_ 2%nat) 10)) in
  w ++ [add32 (add32 (add32 (at_ 16%nat) s0) (at_ 7%nat)) s1].

Definition sha256_round (w : list Z) (st : list Z) (i : nat) : list Z :=
  match st with
  | [a; b; c; d; e; f; g; h] =>
      let S1 := Z.lxor (rotr32 e 6) (Z.lxor (rotr32 e 11) (rotr32 e 25)) in
      let ch := Z.lxor (Z.land e f) (Z.land (not32 e) g) in
      let t1 :=
        add32 (add32 (add32 (add32 h S1) ch) (nth i sha256_K 0)) (nth i w 0) in
      let S0 := Z.lxor (rotr32 a 2) (Z.lxor (rotr32 a 13) (rotr32 a 22)) in
      let maj := Z.lxor (Z.land a b) (Z.lxor (Z.land a c) (Z.land b c)) in
      let t2 := add32 S0 maj in
      [add32 t1 t2; a; b; c; add32 d t1; e; f; g]
  | _ => st
  end.

Fixpoint zip_add32 (l1 l2 : list Z) : list Z :=
  match l1, l2 with
  | x :: l1', y :: l2' => add32 x y :: zip_add32 l1' l2'
  | _, _ => []
  end.

Definition sha256_block (st : list Z) (block : list Z) : list Z :=
  let w := fold_left sha256_extend (seq 16 48) (map be_word (chunks 4 block)) in
  zip_add32 st (fold_left (sha256_round w) (seq 0 64) st).

Definition sha256_digest_bytes (msg : list Z) : list Z :=
  flat_map (be_bytes 4)
    (fold_left sha256_block (chunks 64 (pad (be_bytes 8) msg)) sha256_init).

(** [hashlib.sha256(data).digest()]. *)
Definition sha256_digest (data : string) : string :=
  string_of_bytes (sha256_digest_bytes (bytes_of_string data)).

(** [hashlib.sha256(data).hexdigest()], for reading digests. *)
Definition sha256_hexdigest (data : string) : string :=
  hex_of_bytes (sha256_digest_bytes (bytes_of_string data)).

End Hashlib.

(* ================================================================== *)
(** * The shape shared by both variants: a [for] loop that may raise *)
(* ================================================================== *)

Module Loop.

(** What one pass through a loop body leaves behind: the state for the next
    pass ([continue] and falling off the end of the body are the same), or an
    exception together with the state reached when it was raised. *)
Inductive outcome (St : Type) : Type :=
| Next (st : St)
| Raised (e : Py.exn) (st : St).
Arguments Next {St} st.
Arguments Raised {St} e st.

(** [for num, x in enumerate(xs): body], started at index [num]. *)
Fixpoint for_enumerate {St : Type} (body : nat -> string -> St -> outcome St)
    (num : nat) (xs : list string) (st : St) : outcome St :=
  match xs with
  | [] => Next st
  | x :: rest =>
      match body num x st with
      | Next st' => for_enumerate body (S num) rest st'
      | Raised e st' => Raised e st'
      end
  end.

(** The state an outcome carries. *)
Definition outcome_state {St : Type} (o : outcome St) : St :=
  match o with
  | Next st => st
  | Raised _ st => st
  end.

End Loop.

(* ================================================================== *)
(** * [images_extractor.py] *)
(* ================================================================== *)

Module Extractor.

Import Py Loop.

(** A [requests.Response], as far as the script reads it. *)
Record Response : Type := mkResponse {
  url : string;
  status_code : Z;
  headers : list (string * string);
  content : string
}.

(** [headers.get(key)] on the case-insensitive dictionary of [requests]. *)
Fixpoint headers_get (h : list (string * string)) (key : string)
  : option string :=
  match h with
  | [] => None
  | (k, v) :: h' =>
      if String.eqb (lower k) (lower key) then Some v else headers_get h' key
  end.

(** [headers[key]]. *)
Definition headers_getitem (h : list (string * string)) (key : string)
  : res string :=
  match headers_get h key with
  | Some v => Return v
  | None => Raise (KeyError key)
  end.

(** The two standard-library tables the script consults.  They are data of
    the Python installation, so they are parameters here:
    - [nfkd_ascii s] is
      [unicodedata.normalize('NFKD', s).encode('ascii', 'ignore')];
    - [guess_extension t] is [mimetypes.guess_extension(t)] after the script
      has executed [del types_map['.jpe']]. *)
Record Lib : Type := mkLib {
  nfkd_ascii : string -> string;
  guess_extension : string -> option string
}.

(** [f'{x}'] for an optional string. *)
Definition format_optional (x : option string) : string :=
  match x with
  | Some s => s
  | None => "None"
  end.

Definition slugify (lib : Lib) (value : string) : string :=
  let value := nfkd_ascii lib value in
  let value := lower (strip (re_sub_non_word value)) in
  let value := re_sub_hyphen_runs value in
  value.

Definition get_filename_from_url (lib : Lib) (req : Response)
  : res (option string) :=
  let found : res (option string) :=
    if truthy_int (str_find (url req) "/") then
      match list_index (rsplit1 (url req) "/") 1 with
      | Return result => Return (Some result)
      | Raise e => Raise e
      end
    else
      match headers_get (headers req) "content-disposition" with
      | None => Return None
      | Some cd =>
          match re_findall_filename_first cd with
          | None => Return None
          | Some file_name0 => Return (Some file_name0)
          end
      end in
  match found with
  | Raise e => Raise e
  | Return None => Return None
  | Return (Some result) =>
      let '(f_name, f_ext) := splitext result in
      if negb (truthy_str f_ext) then
        match headers_getitem (headers req) "content-type" with
        | Raise e => Raise e
        | Return ct =>
            Return (Some (slugify lib f_name
                          ++ format_optional
                               (guess_extension lib
                                  (strip (partition_head ct ";"))))%string)
        end
      else
        Return (Some (slugify lib f_name ++ "." ++ slugify lib f_ext)%string)
  end.

(** What the script prints. *)
Inductive message : Type :=
| MsgInSkipList (n : nat) (img_url : string)
| MsgIncorrectUrl (n : nat) (img_url : string)
| MsgDownloading (n img_count : nat) (img_url : string)
| MsgCantDownload (n : nat) (e : exn)
| MsgIncorrectCertificate
| MsgWillBeWritten (img_path : string).

(** What the script does to the outside world, in the order it does it. *)
Inductive event : Type :=
| EMakedirs (path : string)
| EPrint (m : message)
| EGet (image_url : string) (verify : bool) (timeout : Q)
| EOpenWrite (img_path : string) (data : string).

(** The outside world.  Each oracle receives the events that precede the
    call it answers.
    - [os_makedirs p]: the exception [os.makedirs(p)] raises, if any;
    - [requests_get tr u verify t]:
      [requests.get(u, allow_redirects=True, verify=verify, timeout=t)];
    - [open_write tr p data]: the exception raised by opening [p] for
      binary writing and writing [data], if any. *)
Record World : Type := mkWorld {
  os_makedirs : string -> option exn;
  requests_get : list event -> string -> bool -> Q -> res Response;
  open_write : list event -> string -> string -> option exn
}.

(** The fields of an [ImageDownloader] instance. *)
Record ImageDownloader : Type := mkImageDownloader {
  _img_dir_name : string;
  _img_public_path : string;
  _article_file_path : string;
  _skip_list : list string;
  _images_dir : string;
  _skip_all_errors : bool;
  _downloading_timeout : Q;
  _deduplication : bool
}.

Definition allowed_url_prefixes : list string := ["http"; "ftp"].

(** [ImageDownloader.__init__]; an argument left out takes the default of
    the signature ([default_*] below). *)
Definition init (article_path : string) (skip_list : option (list string))
    (skip_all_errors : bool) (img_dir_name img_public_path : string)
    (downloading_timeout : Q) (deduplication : bool) : ImageDownloader :=
  {| _img_dir_name := img_dir_name;
     _img_public_path := img_public_path;
     _article_file_path := article_path;
     _skip_list := match skip_list with Some l => l | None => [] end;
     _images_dir := path_join (dirname article_path) img_dir_name;
     _skip_all_errors := skip_all_errors;
     _downloading_timeout := downloading_timeout;
     _deduplication := deduplication |}.

Definition default_img_dir_name : string := "images".
Definition default_img_public_path : string := EmptyString.
Definition default_downloading_timeout : Q := (-1)%Q.

(** The local variables of [download_images] that outlive one pass of its
    loop, and the trace. *)
Record state : Type := mkState {
  replacement_mapping : list (string * string);
  hash_to_path_mapping : list (string * option string);
  trace : list event
}.

Definition emit (e : event) (st : state) : state :=
  {| replacement_mapping := replacement_mapping st;
     hash_to_path_mapping := hash_to_path_mapping st;
     trace := trace st ++ [e] |}.

Definition set_replacement_mapping (m : list (string * string)) (st : state)
  : state :=
  {| replacement_mapping := m;
     hash_to_path_mapping := hash_to_path_mapping st;
     trace := trace st |}.

Definition set_hash_to_path_mapping (h : list (string * option string))
    (st : state) : state :=
  {| replacement_mapping := replacement_mapping st;
     hash_to_path_mapping := h;
     trace := trace st |}.

(** [str(img_response)]. *)
Definition str_of_response (r : Response) : string :=
  "<Response [" ++ str_of_int (status_code r) ++ "]>".

(** The status check that ends [_download_image]. *)
Definition check_status (img_response : Response) (st : state)
  : res Response * state :=
  if negb (status_code img_response =? 200)%Z
  then (Raise (OSError (str_of_response img_response)), st)
  else (Return img_response, st).

Definition _download_image (self : ImageDownloader) (w : World)
    (image_url : string) (st : state) : res Response * state :=
  let t := _downloading_timeout self in
  let st1 := emit (EGet image_url true t) st in
  match requests_get w (trace st) image_url true t with
  | Return img_response => check_status img_response st1
  | Raise e =>
      if is_SSLError e then
        let st2 := emit (EPrint MsgIncorrectCertificate) st1 in
        let st3 := emit (EGet image_url false t) st2 in
        match requests_get w (trace st2) image_url false t with
        | Return img_response => check_status img_response st3
        | Raise e' => (Raise e', st3)
        end
      else (Raise e, st1)
  end.

Definition _write_image (w : World) (img_path data : string) (st : state)
  : outcome state :=
  let st1 := emit (EPrint (MsgWillBeWritten img_path)) st in
  let st2 := emit (EOpenWrite img_path data) st1 in
  match open_write w (trace st1) img_path data with
  | Some e => Raised e st2
  | None => Next st2
  end.

Definition _is_allowed_url_prefix (url : string) : bool :=
  existsb (fun prefix => startswith url prefix) allowed_url_prefixes.

(** [img_public_path or img_dir_name]. *)
Definition public_or_dir (self : ImageDownloader) : string :=
  if truthy_str (_img_public_path self) then _img_public_path self
  else _img_dir_name self.

(** The [for] loop of [_correct_paths] over [replacement_mapping.items()]. *)
Fixpoint _correct_paths_items (self : ImageDownloader)
    (items : list (string * string))
    (document_img_path img_url img_filename : string) : string * string :=
  match items with
  | [] => (img_filename, document_img_path)
  | (url, path) :: rest =>
      if String.eqb document_img_path path && negb (String.eqb img_url url)
      then
        let img_filename :=
          (Hashlib.md5_hexdigest img_url ++ "_" ++ img_filename)%string in
        let document_img_path := path_join (public_or_dir self) img_filename in
        (img_filename, document_img_path)
      else
        _correct_paths_items self rest document_img_path img_url img_filename
  end.

Definition _correct_paths (self : ImageDownloader)
    (replacement_mapping : list (string * string))
    (document_img_path img_url img_filename : string) : string * string :=
  _correct_paths_items self replacement_mapping document_img_path img_url
    img_filename.

(** The end of the loop body, from the computation of the document path to
    the write.  [os.path.join] raises [TypeError] when the file name is
    [None]. *)
Definition store_image (self : ImageDownloader) (w : World)
    (img_url : string) (img_filename : option string)
    (image_content : string) (st : state) : outcome state :=
  match img_filename with
  | None => Raised TypeError st
  | Some img_filename =>
      let document_img_path := path_join (public_or_dir self) img_filename in
      let '(img_filename, document_img_path) :=
        _correct_paths self (replacement_mapping st) document_img_path img_url
          img_filename in
      let real_img_path := path_join (_images_dir self) img_filename in
      let st :=
        set_replacement_mapping
          (dict_setdefault String.eqb (replacement_mapping st) img_url
             document_img_path) st in
      _write_image w real_img_path image_content st
  end.

(** The [if deduplication:] block and what follows it. *)
Definition deduplicate_and_store (self : ImageDownloader) (w : World)
    (img_url : string) (img_filename : option string)
    (image_content : string) (st : state) : outcome state :=
  if _deduplication self then
    let new_content_hash := Hashlib.sha256_digest image_content in
    match dict_get String.eqb (hash_to_path_mapping st) new_content_hash with
    | Some (Some existed_file_name) =>
        let img_filename := existed_file_name in
        let document_img_path := path_join (public_or_dir self) img_filename in
        Next (set_replacement_mapping
                (dict_setdefault String.eqb (replacement_mapping st) img_url
                   document_img_path) st)
    | _ =>
        let st :=
          set_hash_to_path_mapping
            (dict_set String.eqb (hash_to_path_mapping st) new_content_hash
               img_filename) st in
        store_image self w img_url img_filename image_content st
    end
  else store_image self w img_url img_filename image_content st.

Definition assertion_message (img_url : string) : string :=
  "BUG: already downloaded image " ++ dquote ++ img_url ++ dquote ++ "...".

(** The body of the loop of [download_images]. *)
Definition iteration (lib : Lib) (self : ImageDownloader) (w : World)
    (img_count img_num : nat) (img_url : string) (st : state)
  : outcome state :=
  if dict_mem String.eqb (replacement_mapping st) img_url then
    Raised (AssertionError (assertion_message img_url)) st
  else if str_in img_url (_skip_list self) then
    Next (emit (EPrint (MsgInSkipList (S img_num) img_url)) st)
  else if negb (_is_allowed_url_prefix img_url) then
    Next (emit (EPrint (MsgIncorrectUrl (S img_num) img_url)) st)
  else
    let st := emit (EPrint (MsgDownloading (S img_num) img_count img_url)) st in
    match _download_image self w img_url st with
    | (Raise e, st) =>
        if is_Exception e then
          if _skip_all_errors self then
            Next (emit (EPrint (MsgCantDownload (S img_num) e)) st)
          else Raised e st
        else Raised e st
    | (Return img_response, st) =>
        match get_filename_from_url lib img_response with
        | Raise e => Raised e st
        | Return img_filename =>
            let image_content := content img_response in
            deduplicate_and_store self w img_url img_filename image_content st
        end
    end.

Definition initial_state (self : ImageDownloader) : state :=
  {| replacement_mapping := [];
     hash_to_path_mapping := [];
     trace := [EMakedirs (_images_dir self)] |}.

(** [download_images]: [Next st] is a normal return, of the dictionary
    [replacement_mapping st]. *)
Definition download_images (lib : Lib) (self : ImageDownloader) (w : World)
    (images : list string) : outcome state :=
  let img_count := List.length images in
  let run :=
    for_enumerate (iteration lib self w img_count) 0 images
      (initial_state self) in
  match os_makedirs w (_images_dir self) with
  | None => run
  | Some e =>
      if is_FileExistsError e then run else Raised e (initial_state self)
  end.

(** The dictionary a run returns, if it returns. *)
Definition returned (o : outcome state) : option (list (string * string)) :=
  match o with
  | Next st => Some (replacement_mapping st)
  | Raised _ _ => None
  end.

End Extractor.

(* ================================================================== *)
(** * [markdown_toolset/image_downloader.py] *)
(* ================================================================== *)

Module Toolset.

Import Py Loop.

(** A response of the transport layer, as in the legacy script. *)
Definition Response : Type := Extractor.Response.

(** [t > 0] for a number given as a rational. *)
Definition Qpositive (t : Q) : bool := (0 <? Qnum t)%Z.

Inductive level : Type := DEBUG | INFO | WARNING.

(** What the class logs. *)
Inductive message : Type :=
| MsgInSkipList (n : nat) (image_url : string)
| MsgIncorrectUrl (n : nat) (image_url : string)
| MsgTryingBaseUrl (article_base_url : string)
| MsgDownloadingSkipped
| MsgDownloading (n img_count : nat) (image_url : string)
| MsgCantGetImage (n : nat) (e : exn)
| MsgWillBeWritten (image_path : PurePath).

(** What the class does to the outside world, in the order it does it. *)
Inductive event : Type :=
| EMkdir (path : PurePath)
| ELog (lvl : level) (m : message)
| EDownloadFromUrl (image_url : string) (timeout : option Q)
| EOpenRead (image_path : PurePath)
| EOpenWrite (image_path : PurePath) (data : string).

(** The functions imported from [www_tools], a module of the repository whose
    source is not at hand; they are parameters.
    [download_from_url] performs the network call and receives the events
    that precede it. *)
Record WwwTools : Type := mkWwwTools {
  is_url : string -> bool;
  get_filename_from_url : Response -> res (option string);
  download_from_url : list event -> string -> option Q -> res Response
}.

(** The file system.
    - [mkdir p]: the exception [p.mkdir(parents=True)] raises, if any;
    - [open_read tr p]: opening [p] for binary reading and reading it;
    - [open_write tr p data]: the exception raised by opening [p] for
      binary writing and writing [data], if any. *)
Record World : Type := mkWorld {
  mkdir : PurePath -> option exn;
  open_read : list event -> PurePath -> res string;
  open_write : list event -> PurePath -> string -> option exn
}.

(** A [Deduplicator] object: some private state and the method
    [deduplicate(image_url, image_filename, image_content,
    replacement_mapping)].  The class is declared in
    [deduplicators/deduplicator.py], whose source is not at hand.
    The method returns a pair and may mutate both its object and the
    dictionary it is handed, so the model returns the new private state and
    the new dictionary as well. *)
Inductive Deduplicator : Type :=
| MkDeduplicator (D : Type) (d : D)
    (deduplicate :
       D -> string -> option string -> string -> list (string * value) ->
       res (bool * option string * D * list (string * value))).

Definition call_deduplicate (dd : Deduplicator) (image_url : string)
    (image_filename : option string) (image_content : string)
    (replacement_mapping : list (string * value))
  : res (bool * option string * Deduplicator * list (string * value)) :=
  match dd with
  | MkDeduplicator D d f =>
      match f d image_url image_filename image_content replacement_mapping with
      | Return (result, image_filename, d', m') =>
          Return (result, image_filename, MkDeduplicator D d' f, m')
      | Raise e => Raise e
      end
  end.

(** The fields of an [ImageDownloader] instance, the deduplicator apart: it
    is a mutable object and lives in the run state. *)
Record ImageDownloader : Type := mkImageDownloader {
  _img_dir_name : PurePath;
  _img_public_path : option PurePath;
  _article_file_path : PurePath;
  _article_base_url : string;
  _skip_list : list string;
  _images_dir : PurePath;
  _skip_all_errors : bool;
  _downloading_timeout : option Q;
  _process_local_images : bool
}.

(** [ImageDownloader.__init__], the [deduplicator] argument apart. *)
Definition init (article_path : PurePath) (article_base_url : string)
    (skip_list : option (list string)) (skip_all_errors : bool)
    (img_dir_name : PurePath) (img_public_path : option PurePath)
    (downloading_timeout : Q) (process_local_images : bool)
  : ImageDownloader :=
  {| _img_dir_name := img_dir_name;
     _img_public_path := img_public_path;
     _article_file_path := article_path;
     _article_base_url := article_base_url;
     _skip_list := match skip_list with Some l => l | None => [] end;
     _images_dir := truediv_path (parent article_path) img_dir_name;
     _skip_all_errors := skip_all_errors;
     _downloading_timeout :=
       if Qpositive downloading_timeout then Some downloading_timeout
       else None;
     _process_local_images := process_local_images |}.

Definition default_img_dir_name : PurePath := Path "images".
Definition default_downloading_timeout : Q := (-1)%Q.

(** The dictionary under construction, the deduplicator object and the
    trace. *)
Record state : Type := mkState {
  replacement_mapping : list (string * value);
  _deduplicator : option Deduplicator;
  trace : list event
}.

Definition emit (e : event) (st : state) : state :=
  {| replacement_mapping := replacement_mapping st;
     _deduplicator := _deduplicator st;
     trace := (trace st ++ [e])%list |}.

Definition set_replacement_mapping (m : list (string * value)) (st : state)
  : state :=
  {| replacement_mapping := m;
     _deduplicator := _deduplicator st;
     trace := trace st |}.

Definition set_deduplicator (dd : Deduplicator) (st : state) : state :=
  {| replacement_mapping := replacement_mapping st;
     _deduplicator := Some dd;
     trace := trace st |}.

Definition _get_document_img_path (self : ImageDownloader)
    (image_filename : string) : PurePath :=
  truediv
    (match _img_public_path self with
     | Some p => p
     | None => _img_dir_name self
     end)
    image_filename.

Definition _get_remote_image (tools : WwwTools) (self : ImageDownloader)
    (image_url : string) (img_num img_count : nat) (st : state)
  : res (option string * string) * state :=
  let st1 :=
    emit (ELog INFO (MsgDownloading (S img_num) img_count image_url)) st in
  let st2 :=
    emit (EDownloadFromUrl image_url (_downloading_timeout self)) st1 in
  match download_from_url tools (trace st1) image_url
          (_downloading_timeout self) with
  | Raise e => (Raise e, st2)
  | Return img_response =>
      match get_filename_from_url tools img_response with
      | Raise e => (Raise e, st2)
      | Return filename =>
          (Return (filename, Extractor.content img_response), st2)
      end
  end.

Definition _get_local_image (w : World) (image_path : PurePath) (st : state)
  : res (option string * string) * state :=
  let st1 := emit (EOpenRead image_path) st in
  match open_read w (trace st) image_path with
  | Raise e => (Raise e, st1)
  | Return image_content =>
      (Return (Some (name image_path), image_content), st1)
  end.

Definition _write_image (w : World) (image_path : PurePath) (data : string)
    (st : state) : outcome state :=
  let st1 := emit (ELog INFO (MsgWillBeWritten image_path)) st in
  let st2 := emit (EOpenWrite image_path data) st1 in
  match open_write w (trace st1) image_path data with
  | Some e => Raised e st2
  | None => Next st2
  end.

(** The [for] loop of [_correct_paths] over [replacement_mapping.items()].
    [document_img_path] is a path object, [path] is whatever the dictionary
    holds. *)
Fixpoint _correct_paths_items (self : ImageDownloader)
    (items : list (string * value)) (document_img_path : PurePath)
    (img_url image_filename : string) : string * PurePath :=
  match items with
  | [] => (image_filename, document_img_path)
  | (url, path) :: rest =>
      if py_eq (VPath document_img_path) path && negb (String.eqb img_url url)
      then
        let image_filename :=
          (Hashlib.md5_hexdigest img_url ++ "_" ++ image_filename)%string in
        let document_img_path := _get_document_img_path self image_filename in
        (image_filename, document_img_path)
      else
        _correct_paths_items self rest document_img_path img_url image_filename
  end.

Definition _correct_paths (self : ImageDownloader)
    (replacement_mapping : list (string * value))
    (document_img_path : PurePath) (img_url image_filename : string)
  : string * PurePath :=
  _correct_paths_items self replacement_mapping document_img_path img_url
    image_filename.

(** The end of the loop body, from [_get_document_img_path] to the write.
    [path / None] raises [TypeError]. *)
Definition store_image (self : ImageDownloader) (w : World)
    (image_url : string) (image_filename : option string)
    (image_content : string) (st : state) : outcome state :=
  match image_filename with
  | None => Raised TypeError st
  | Some image_filename =>
      let document_img_path := _get_document_img_path self image_filename in
      let '(image_filename, document_img_path) :=
        _correct_paths self (replacement_mapping st) document_img_path
          image_url image_filename in
      let real_image_path := truediv (_images_dir self) image_filename in
      let st :=
        set_replacement_mapping
          (dict_setdefault String.eqb (replacement_mapping st) image_url
             (VStr (join "/" (parts document_img_path)))) st in
      _write_image w real_image_path image_content st
  end.

(** The [if self._deduplicator is not None:] block and what follows it. *)
Definition deduplicate_and_store (self : ImageDownloader) (w : World)
    (image_url : string) (image_filename : option string)
    (image_content : string) (st : state) : outcome state :=
  match _deduplicator st with
  | Some dd =>
      match call_deduplicate dd image_url image_filename image_content
              (replacement_mapping st) with
      | Raise e => Raised e st
      | Return (result, image_filename, dd', m') =>
          let st := set_deduplicator dd' (set_replacement_mapping m' st) in
          if negb result then Next st
          else store_image self w image_url image_filename image_content st
      end
  | None => store_image self w image_url image_filename image_content st
  end.

(** The expression guarded by the [try] statement.  [image_path_is_url] is
    the flag computed from the reference as it stood in the list;
    [image_url] is the possibly rewritten reference. *)
Definition get_image (tools : WwwTools) (self : ImageDownloader)
    (w : World) (images_count image_num : nat) (image_path_is_url : bool)
    (image_url : string) (st : state)
  : res (option string * string) * state :=
  if image_path_is_url
  then _get_remote_image tools self image_url image_num images_count st
  else _get_local_image w (Path image_url) st.

(** The [try] statement of the loop body and what follows it. *)
Definition get_and_store (tools : WwwTools) (self : ImageDownloader)
    (w : World) (images_count image_num : nat) (image_path_is_url : bool)
    (image_url : string) (st : state) : outcome state :=
  match
    get_image tools self w images_count image_num image_path_is_url image_url
      st
  with
  | (Raise e, st) =>
      if is_Exception e then
        if _skip_all_errors self then
          Next (emit (ELog WARNING (MsgCantGetImage (S image_num) e)) st)
        else Raised e st
      else Raised e st
  | (Return (image_filename, image_content), st) =>
      deduplicate_and_store self w image_url image_filename image_content st
  end.

Definition assertion_message (image_url : string) : string :=
  "BUG: already downloaded image " ++ dquote ++ image_url ++ dquote ++ "...".

(** The body of the loop of [download_images]. *)
Definition iteration (tools : WwwTools) (self : ImageDownloader) (w : World)
    (images_count image_num : nat) (image_url : string) (st : state)
  : outcome state :=
  if dict_mem String.eqb (replacement_mapping st) image_url then
    Raised (AssertionError (assertion_message image_url)) st
  else if str_in image_url (_skip_list self) then
    Next (emit (ELog DEBUG (MsgInSkipList (S image_num) image_url)) st)
  else
    let image_path_is_url := is_url tools image_url in
    if negb image_path_is_url && negb (_process_local_images self) then
      let st :=
        emit (ELog WARNING (MsgIncorrectUrl (S image_num) image_url)) st in
      if truthy_str (_article_base_url self) then
        let st :=
          emit (ELog DEBUG (MsgTryingBaseUrl (_article_base_url self))) st in
        let image_url := (_article_base_url self ++ "/" ++ image_url)%string in
        get_and_store tools self w images_count image_num image_path_is_url
          image_url st
      else Next (emit (ELog INFO MsgDownloadingSkipped) st)
    else
      get_and_store tools self w images_count image_num image_path_is_url
        image_url st.

Definition initial_state (self : ImageDownloader)
    (deduplicator : option Deduplicator) : state :=
  {| replacement_mapping := [];
     _deduplicator := deduplicator;
     trace := [EMkdir (_images_dir self)] |}.

(** [download_images]: [Next st] is a normal return, of the dictionary
    [replacement_mapping st]. *)
Definition download_images (tools : WwwTools) (self : ImageDownloader)
    (deduplicator : option Deduplicator) (w : World) (images : list string)
  : outcome state :=
  let images_count := List.length images in
  let run :=
    for_enumerate (iteration tools self w images_count) 0 images
      (initial_state self deduplicator) in
  match mkdir w (_images_dir self) with
  | None => run
  | Some e =>
      if is_FileExistsError e then run
      else Raised e (initial_state self deduplicator)
  end.

(** The dictionary a run returns, if it returns. *)
Definition returned (o : outcome state) : option (list (string * value)) :=
  match o with
  | Next st => Some (replacement_mapping st)
  | Raised _ _ => None
  end.

End Toolset.

(* ================================================================== *)
(** * Concrete installations, worlds and inputs *)
(* ================================================================== *)

Module Scenario.

Import Py Loop.

(** A standard-library installation: on ASCII text NFKD normalisation is the
    identity and [encode('ascii', 'ignore')] drops every other byte; the MIME
    table is cut down to the image types used below. *)
Definition lib : Extractor.Lib :=
  {| Extractor.nfkd_ascii := str_filter is_ascii;
     Extractor.guess_extension := fun t =>
       if String.eqb t "image/png" then Some ".png"
       else if String.eqb t "image/jpeg" then Some ".jpg"
       else if String.eqb t "image/gif" then Some ".gif"
       else None |}.

Definition png (url content : string) : Extractor.Response :=
  {| Extractor.url := url;
     Extractor.status_code := 200;
     Extractor.headers := [("Content-Type", "image/png")];
     Extractor.content := content |}.

(** A small web: two servers publish different pictures under the same file
    name, a mirror publishes a copy of the second one under another name,
    and one address answers 404. *)
Definition web : list (string * Extractor.Response) :=
  [ ("http://a.com/x.png", png "http://a.com/x.png" "picture A");
    ("http://b.com/x.png", png "http://b.com/x.png" "picture B");
    ("http://mirror.org/copy.png",
     png "http://mirror.org/copy.png" "picture B");
    ("http://a.com/gone.png",
     {| Extractor.url := "http://a.com/gone.png";
        Extractor.status_code := 404;
        Extractor.headers := [];
        Extractor.content := EmptyString |}) ].

(** The world of the legacy script: the web above served whatever the
    history, an address outside it refuses the connection, and every
    directory creation and write succeeds. *)
Definition legacy_world : Extractor.World :=
  {| Extractor.os_makedirs := fun _ => None;
     Extractor.requests_get := fun _ u _ _ =>
       match dict_get String.eqb web u with
       | Some r => Return r
       | None => Raise ConnectionError
       end;
     Extractor.open_write := fun _ _ _ => None |}.

(** The same world with a disk that refuses every write. *)
Definition legacy_world_full_disk : Extractor.World :=
  {| Extractor.os_makedirs := fun _ => None;
     Extractor.requests_get := Extractor.requests_get legacy_world;
     Extractor.open_write := fun _ _ _ =>
       Some (OSError "No space left on device") |}.

(** [ImageDownloader(article_path='article.md', ...)] of the legacy script
    with the defaults of its signature. *)
Definition legacy_downloader (skip_all_errors deduplication : bool)
  : Extractor.ImageDownloader :=
  Extractor.init "article.md" None skip_all_errors
    Extractor.default_img_dir_name Extractor.default_img_public_path
    Extractor.default_downloading_timeout deduplication.

(** Modelled from the spec: [www_tools.is_url] is not among the sources at
    hand; the spec classifies a reference as remote when it has a recognized
    URL scheme. *)
Definition is_url (url : string) : bool :=
  startswith url "http://" || startswith url "https://"
  || startswith url "ftp://".

(** Modelled from the spec: [www_tools.download_from_url] is not among the
    sources at hand; the spec has the fetcher return the response and treat
    any non-success status as a failure. *)
Definition download_from_url {E : Type} (_ : list E) (u : string)
    (_ : option Q) : res Extractor.Response :=
  match dict_get String.eqb web u with
  | Some r =>
      if (Extractor.status_code r =? 200)%Z then Return r
      else Raise (OSError (Extractor.str_of_response r))
  | None => Raise ConnectionError
  end.

(** The collaborators of the packaged class: the two functions above, and
    for [get_filename_from_url] the function of that name of the legacy
    script. *)
Definition tools : Toolset.WwwTools :=
  {| Toolset.is_url := is_url;
     Toolset.get_filename_from_url := Extractor.get_filename_from_url lib;
     Toolset.download_from_url := download_from_url |}.

(** Modelled from the spec: the deduplicator
    ([deduplicators/deduplicator.py] is not among the sources at hand).  The
    spec gives its contract as

      deduplicate(reference, proposed_filename, content_bytes,
      existing_mapping) -> (reuse, filename)

    with a digest of the content as key: a digest seen earlier in the run
    yields [(true, filename previously assigned to that digest)]; otherwise
    the digest is registered with the proposed file name and the result is
    [(false, proposed_filename)].  The private state is the digest table;
    the dictionary handed in is left alone. *)
Definition spec_deduplicate (table : list (string * option string))
    (reference : string) (proposed_filename : option string)
    (content_bytes : string) (existing_mapping : list (string * value))
  : res (bool * option string * list (string * option string)
         * list (string * value)) :=
  let digest := Hashlib.sha256_digest content_bytes in
  match dict_get String.eqb table digest with
  | Some filename => Return (true, filename, table, existing_mapping)
  | None =>
      Return (false, proposed_filename,
              dict_set String.eqb table digest proposed_filename,
              existing_mapping)
  end.

Definition spec_deduplicator : Toolset.Deduplicator :=
  Toolset.MkDeduplicator (list (string * option string)) [] spec_deduplicate.

(** A file system with no readable local file, on which every directory
    creation and write succeeds. *)
Definition toolset_world : Toolset.World :=
  {| Toolset.mkdir := fun _ => None;
     Toolset.open_read := fun _ _ => Raise FileNotFoundError;
     Toolset.open_write := fun _ _ _ => None |}.

Definition toolset_world_full_disk : Toolset.World :=
  {| Toolset.mkdir := fun _ => None;
     Toolset.open_read := fun _ _ => Raise FileNotFoundError;
     Toolset.open_write := fun _ _ _ =>
       Some (OSError "No space left on device") |}.

(** [ImageDownloader(article_path=Path('article.md'), ...)] of the packaged
    class with the defaults of its signature. *)
Definition toolset_downloader (article_base_url : string)
    (skip_all_errors process_local_images : bool) : Toolset.ImageDownloader :=
  Toolset.init (Path "article.md") article_base_url None skip_all_errors
    Toolset.default_img_dir_name None Toolset.default_downloading_timeout
    process_local_images.

End Scenario.

(* ================================================================== *)
(** * [images_extractor.py]: the entry point *)
(* ================================================================== *)

Module Entrypoint.

Import Py Loop.

(** The parsed command line, as [main] reads it. *)
Record Arguments : Type := mkArguments {
  article_file_path : string;
  skip_list : option string;
  skip_all_incorrect : bool;
  images_dirname : string;
  images_publicpath : string;
  downloading_timeout : Q;
  dedup_with_hash : bool
}.

(** What [main] prints. *)
Inductive message : Type :=
| MsgProcessingStarted
| MsgReadingSkipList (path : string)
| MsgProcessingFinished.

(** What [main] relies on.
    - [expanduser p] is [os.path.expanduser(p)];
    - [readlines p] opens [p] for reading as text and returns
      [readlines()], the lines with their line ends;
    - [transformer_run article_path downloader] is
      [ArticleTransformer(article_path, downloader).run()], the exception
      it raises if any; the class belongs to a package of the repository
      whose source is not at hand. *)
Record Env : Type := mkEnv {
  expanduser : string -> string;
  readlines : string -> res (list string);
  transformer_run : string -> Extractor.ImageDownloader -> option exn
}.

(** The [if isinstance(skip_list, str):] block of [main]: the value of
    [skip_list] after it, and what was printed. *)
Definition read_skip_list (env : Env) (skip_list : option string)
  : res (option (list string)) * list message :=
  match skip_list with
  | None => (Return None, [])
  | Some skip_list =>
      if startswith skip_list "@" then
        let skip_list := slice_from 1 skip_list in
        match readlines env (expanduser env skip_list) with
        | Raise e => (Raise e, [MsgReadingSkipList skip_list])
        | Return lines =>
            (Return (Some (map strip lines)), [MsgReadingSkipList skip_list])
        end
      else (Return (Some (map strip (split "," skip_list))), [])
  end.

(** The [ImageDownloader] that [main] builds. *)
Definition downloader (env : Env) (arguments : Arguments)
    (skip_list : option (list string)) : Extractor.ImageDownloader :=
  Extractor.init (expanduser env (article_file_path arguments)) skip_list
    (skip_all_incorrect arguments) (images_dirname arguments)
    (images_publicpath arguments) (downloading_timeout arguments)
    (dedup_with_hash arguments).

(** [main]: the exception it ends with, if any, and what it printed. *)
Definition main (env : Env) (arguments : Arguments)
  : option exn * list message :=
  let article_path := expanduser env (article_file_path arguments) in
  match read_skip_list env (skip_list arguments) with
  | (Raise e, printed) => (Some e, MsgProcessingStarted :: printed)
  | (Return skip_list, printed) =>
      match transformer_run env article_path
              (downloader env arguments skip_list) with
      | Some e => (Some e, MsgProcessingStarted :: printed)
      | None =>
          (None,
           (MsgProcessingStarted :: printed) ++ [MsgProcessingFinished])
      end
  end.

End Entrypoint.

(* ================================================================== *)
(** * More concrete worlds and inputs *)
(* ================================================================== *)

Module Cases.

Import Py Loop.

Definition line_feed : string := String (ascii_of_nat 10) EmptyString.

(** An environment of [main]: the home directory is [/home/me], one skip
    list is kept in a file, and the transformer does nothing. *)
Definition env : Entrypoint.Env :=
  {| Entrypoint.expanduser := fun p =>
       if startswith p "~/" then ("/home/me" ++ slice_from 1 p)%string else p;
     Entrypoint.readlines := fun p =>
       if String.eqb p "/home/me/skip.txt"
       then Return [("http://a.com/x.png" ++ line_feed)%string;
                    ("  http://b.com/x.png " ++ line_feed)%string]
       else Raise FileNotFoundError;
     Entrypoint.transformer_run := fun _ _ => None |}.

(** A file system that holds one local picture. *)
Definition world_with_local_picture : Toolset.World :=
  {| Toolset.mkdir := fun _ => Some FileExistsError;
     Toolset.open_read := fun _ p =>
       if path_eqb p (Path "pictures/cat.png") then Return "picture of a cat"
       else Raise FileNotFoundError;
     Toolset.open_write := fun _ _ _ => None |}.

(** A transport that answers every request with bytes and no header at
    all. *)
Definition world_without_headers : Extractor.World :=
  {| Extractor.os_makedirs := fun _ => None;
     Extractor.requests_get := fun _ u _ _ =>
       Return {| Extractor.url := u;
                 Extractor.status_code := 200;
                 Extractor.headers := [];
                 Extractor.content := "bytes of a picture" |};
     Extractor.open_write := fun _ _ _ => None |}.

(** The legacy class with a timeout chosen by the caller. *)
Definition legacy_downloader_with_timeout (downloading_timeout : Q)
    (skip_all_errors deduplication : bool) : Extractor.ImageDownloader :=
  Extractor.init "article.md" None skip_all_errors
    Extractor.default_img_dir_name Extractor.default_img_public_path
    downloading_timeout deduplication.

(** The web of [Scenario] behind a transport that, like [requests], refuses
    a timeout that is not positive with a [ValueError]. *)
Definition legacy_world_strict : Extractor.World :=
  {| Extractor.os_makedirs := fun _ => None;
     Extractor.requests_get := fun tr u verify t =>
       if Qle_bool t 0 then Raise ValueError
       else Extractor.requests_get Scenario.legacy_world tr u verify t;
     Extractor.open_write := fun _ _ _ => None |}.

(** A file system in which every path can be read. *)
Definition world_reading_everything : Toolset.World :=
  {| Toolset.mkdir := fun _ => None;
     Toolset.open_read := fun _ _ => Return "picture of a cat";
     Toolset.open_write := fun _ _ _ => None |}.

(** U+00A0, the no-break space, as text. *)
Definition no_break_space : string :=
  String (ascii_of_nat 194) (String (ascii_of_nat 160) EmptyString).

End Cases.

(* ================================================================== *)
(** * Vocabulary of the statements *)
(* ================================================================== *)

Module Legacy.

Import Py Loop Extractor.

(** [os.makedirs] either succeeds or finds the directory in place. *)
Definition makedirs_ok (w : World) (self : ImageDownloader) : bool :=
  match os_makedirs w (_images_dir self) with
  | None => true
  | Some e => is_FileExistsError e
  end.

(** The loop of [download_images] on a list of [img_count] references, from
    the reference number [img_num] on. *)
Definition run (lib : Lib) (self : ImageDownloader) (w : World)
    (img_count img_num : nat) (images : list string) (st : state)
  : outcome state :=
  for_enumerate (iteration lib self w img_count) img_num images st.

Definition is_write (ev : event) : bool :=
  match ev with
  | EOpenWrite _ _ => true
  | _ => false
  end.

(** Every write recorded in the trace was accepted by the file system. *)
Definition writes_ok (w : World) (tr : list event) : Prop :=
  forall tr1 p d tr2,
    tr = tr1 ++ EOpenWrite p d :: tr2 -> open_write w tr1 p d = None.

(** The writes of a trace, in order. *)
Definition writes (tr : list event) : list (string * string) :=
  flat_map (fun ev => match ev with
                      | EOpenWrite p d => [(p, d)]
                      | _ => []
                      end) tr.

End Legacy.

Module Packaged.

Import Py Loop Toolset.

(** [mkdir] either succeeds or finds the directory in place. *)
Definition mkdir_ok (w : World) (self : ImageDownloader) : bool :=
  match mkdir w (_images_dir self) with
  | None => true
  | Some e => is_FileExistsError e
  end.

(** The loop of [download_images] on a list of [images_count] references,
    from the reference number [image_num] on. *)
Definition run (tools : WwwTools) (self : ImageDownloader) (w : World)
    (images_count image_num : nat) (images : list string) (st : state)
  : outcome state :=
  for_enumerate (iteration tools self w images_count) image_num images st.

(** The reference passes the assertion, the skip list and the
    classification: the loop body gets to its [try] statement. *)
Definition reaches_try (tools : WwwTools) (self : ImageDownloader)
    (image_url : string) (st : state) : bool :=
  negb (dict_mem String.eqb (replacement_mapping st) image_url)
  && negb (str_in image_url (_skip_list self))
  && (is_url tools image_url || _process_local_images self
      || truthy_str (_article_base_url self)).

(** The reference is rewritten with the base URL. *)
Definition rewritten (tools : WwwTools) (self : ImageDownloader)
    (image_url : string) : bool :=
  negb (is_url tools image_url) && negb (_process_local_images self).

(** The value of [image_url] when the [try] statement is entered. *)
Definition url_at_try (tools : WwwTools) (self : ImageDownloader)
    (image_url : string) : string :=
  if rewritten tools self image_url
  then _article_base_url self ++ "/" ++ image_url
  else image_url.

(** The state when the [try] statement is entered. *)
Definition state_at_try (tools : WwwTools) (self : ImageDownloader)
    (image_num : nat) (image_url : string) (st : state) : state :=
  if rewritten tools self image_url
  then emit (ELog DEBUG (MsgTryingBaseUrl (_article_base_url self)))
         (emit (ELog WARNING (MsgIncorrectUrl (S image_num) image_url)) st)
  else st.

(** The events of the expression guarded by [try]: a remote reference is
    announced and downloaded, a local one is opened for reading. *)
Definition get_image_events (self : ImageDownloader)
    (images_count image_num : nat) (image_path_is_url : bool)
    (image_url : string) : list event :=
  if image_path_is_url
  then [ELog INFO (MsgDownloading (S image_num) images_count image_url);
        EDownloadFromUrl image_url (_downloading_timeout self)]
  else [EOpenRead (Path image_url)].

Definition is_write (ev : event) : bool :=
  match ev with
  | EOpenWrite _ _ => true
  | _ => false
  end.

Definition is_download (ev : event) : bool :=
  match ev with
  | EDownloadFromUrl _ _ => true
  | _ => false
  end.

(** Every write recorded in the trace was accepted by the file system. *)
Definition writes_ok (w : World) (tr : list event) : Prop :=
  forall tr1 p d tr2,
    tr = tr1 ++ EOpenWrite p d :: tr2 -> open_write w tr1 p d = None.

(** The writes of a trace, in order. *)
Definition writes (tr : list event) : list (PurePath * string) :=
  flat_map (fun ev => match ev with
                      | EOpenWrite p d => [(p, d)]
                      | _ => []
                      end) tr.

(** The dictionary holds only strings. *)
Definition str_valued (m : list (string * value)) : Prop :=
  Forall (fun kv => exists s, snd kv = VStr s) m.

End Packaged.

(* ================================================================== *)
(** * More vocabulary *)
(* ================================================================== *)

Module Text.

Import Py.

(** Every character of the string passes the test. *)
Fixpoint str_forallb (f : ascii -> bool) (s : string) : bool :=
  match s with
  | EmptyString => true
  | String c s' => f c && str_forallb f s'
  end.

(** A lower-case letter, a digit, the underscore or the hyphen. *)
Definition slug_char (c : ascii) : bool :=
  between 48 57 c || between 97 122 c || (code c =? 95)%nat
  || Ascii.eqb c "-".

(** No two hyphens in a row. *)
Fixpoint no_double_hyphen (s : string) : bool :=
  match s with
  | EmptyString => true
  | String a s' =>
      match s' with
      | EmptyString => true
      | String b _ =>
          negb (Ascii.eqb a "-" && Ascii.eqb b "-") && no_double_hyphen s'
      end
  end.

(** The string holds no slash. *)
Definition no_slash (s : string) : Prop := index_of "/" s = None.

End Text.

Module LegacyStore.

Import Py Extractor.

(** The hash table after the [if deduplication:] block has let the file
    through. *)
Definition table_after (self : ImageDownloader) (new_content_hash : string)
    (img_filename : option string) (st : state)
  : list (string * option string) :=
  if _deduplication self then
    dict_set String.eqb (hash_to_path_mapping st) new_content_hash
      img_filename
  else hash_to_path_mapping st.

End LegacyStore.

Module Provenance.

Import Py Toolset.

(** The bytes [d] are the content of a response that [download_from_url]
    returned for [u], at a download recorded in [tr]. *)
Definition downloaded (tools : WwwTools) (self : ImageDownloader)
    (tr : list event) (u d : string) : Prop :=
  exists tr1 tr2 resp,
    tr = tr1 ++ EDownloadFromUrl u (_downloading_timeout self) :: tr2
    /\ download_from_url tools tr1 u (_downloading_timeout self)
       = Return resp
    /\ d = Extractor.content resp.

(** The bytes [d] were returned by a read, recorded in [tr], of the file
    that the reference [x] names: the reference itself under
    [process_local_images], and otherwise the base URL, a slash and the
    reference. *)
Definition read_for (w : World) (self : ImageDownloader) (tr : list event)
    (x d : string) : Prop :=
  exists tr1 tr2 q,
    tr = tr1 ++ EOpenRead q :: tr2
    /\ open_read w tr1 q = Return d
    /\ ((_process_local_images self = true /\ q = Path x)
        \/ (_process_local_images self = false
            /\ truthy_str (_article_base_url self) = true
            /\ q = Path (_article_base_url self ++ "/" ++ x))).

End Provenance.

(* ================================================================== *)
(** * Facts about the loop *)
(* ================================================================== *)

(** Inversion of an equation between constructors, consumed. *)
Ltac inv H := inversion H; subst; clear H.

Section LoopFacts.
Import Py Loop.
Context {St : Type} (body : nat -> string -> St -> outcome St).

Lemma for_enumerate_app (l1 l2 : list string) :
  forall (n : nat) (st : St),
    for_enumerate body n (l1 ++ l2) st =
    match for_enumerate body n l1 st with
    | Next st' => for_enumerate body (n + List.length l1) l2 st'
    | Raised e st' => Raised e st'
    end.
Proof.
  induction l1 as [|x l1 IH]; intros n st; simpl.
  - now rewrite Nat.add_0_r.
  - destruct (body n x st) as [st'|e st']; [|reflexivity].
    rewrite IH. now rewrite Nat.add_succ_r.
Qed.

(** A property of states that every pass keeps, with a property of the
    raised outcomes, holds of the whole loop. *)
Lemma for_enumerate_outcome (P : St -> Prop) (R : exn -> St -> Prop) :
  (forall n x st, P st ->
      match body n x st with
      | Next st' => P st'
      | Raised e st' => R e st'
      end) ->
  forall xs n st, P st ->
    match for_enumerate body n xs st with
    | Next st' => P st'
    | Raised e st' => R e st'
    end.
Proof.
  intros Hbody xs; induction xs as [|x xs IH]; intros n st HP; simpl.
  - exact HP.
  - specialize (Hbody n x st HP).
    destruct (body n x st) as [st'|e st']; [now apply IH | exact Hbody].
Qed.

Lemma for_enumerate_invariant (P : St -> Prop) :
  (forall n x st st', P st -> body n x st = Next st' -> P st') ->
  forall xs n st st', P st -> for_enumerate body n xs st = Next st' -> P st'.
Proof.
  intros Hbody xs n st st' HP Hrun.
  assert (H : match for_enumerate body n xs st with
              | Next st1 => P st1
              | Raised _ _ => True
              end).
  { apply (for_enumerate_outcome P (fun _ _ => True)); [|exact HP].
    intros k x s Hs. destruct (body k x s) eqn:E; [|exact I].
    eapply Hbody; eauto. }
  now rewrite Hrun in H.
Qed.

(** The loop up to and including one reference. *)
Lemma for_enumerate_middle (pre post : list string) (x : string)
    (st st1 : St) :
  for_enumerate body 0 pre st = Next st1 ->
  for_enumerate body 0 (pre ++ x :: post) st =
  match body (List.length pre) x st1 with
  | Next st2 => for_enumerate body (S (List.length pre)) post st2
  | Raised e st2 => Raised e st2
  end.
Proof.
  intros H. rewrite for_enumerate_app, H. reflexivity.
Qed.
End LoopFacts.

(** Splitting a list that ends with a known element around one of its
    elements. *)
Lemma snoc_eq_middle {A : Type} (tr tr1 tr2 : list A) (e x : A) :
  tr ++ [e] = tr1 ++ x :: tr2 ->
  (tr2 = [] /\ tr = tr1 /\ e = x) \/
  (exists tr2', tr2 = tr2' ++ [e] /\ tr = tr1 ++ x :: tr2').
Proof.
  intros H. induction tr2 as [|y tr2' _] using rev_ind.
  - left. apply app_inj_tail in H. destruct H as [-> ->]. auto.
  - right. exists tr2'. rewrite app_comm_cons, app_assoc in H.
    apply app_inj_tail in H. destruct H as [-> ->]. auto.
Qed.

(* ================================================================== *)
(** * Facts about the legacy script *)
(* ================================================================== *)

Section LegacyFacts.
Import Py Loop Extractor Legacy.
Variables (lib : Lib) (self : ImageDownloader) (w : World).

Lemma legacy_writes_ok_snoc_other (tr : list event) (e : event) :
  writes_ok w tr -> is_write e = false -> writes_ok w (tr ++ [e]).
Proof.
  intros Hok He tr1 p d tr2 Heq.
  apply snoc_eq_middle in Heq.
  destruct Heq as [(_ & _ & ->)|(tr2' & _ & ->)]; [discriminate|].
  eapply Hok; reflexivity.
Qed.

Lemma legacy_writes_ok_snoc_write (tr : list event) (p d : string) :
  writes_ok w tr -> open_write w tr p d = None ->
  writes_ok w (tr ++ [EOpenWrite p d]).
Proof.
  intros Hok Hw tr1 p' d' tr2 Heq.
  apply snoc_eq_middle in Heq.
  destruct Heq as [(_ & -> & Hev)|(tr2' & _ & ->)].
  - now inversion Hev; subst.
  - eapply Hok; reflexivity.
Qed.

(** [_download_image] touches neither dictionary; it calls the transport
    first, and writes nothing. *)
Lemma legacy_download_image_state (image_url : string) (st : state) :
  forall r st', _download_image self w image_url st = (r, st') ->
    replacement_mapping st' = replacement_mapping st /\
    hash_to_path_mapping st' = hash_to_path_mapping st /\
    exists rest,
      trace st' =
        trace st ++ EGet image_url true (_downloading_timeout self) :: rest
      /\ Forall (fun ev => is_write ev = false) rest.
Proof.
  intros r st'. unfold _download_image, check_status.
  destruct (requests_get w (trace st) image_url true _) as [resp|e].
  - destruct (negb _); intros H; inv H; simpl;
      (repeat split; exists []; split; [reflexivity|constructor]).
  - destruct (is_SSLError e).
    + destruct (requests_get w _ image_url false _) as [resp|e'].
      * destruct (negb _); intros H; inv H; simpl;
          (repeat split; eexists; split;
           [rewrite <- !app_assoc; reflexivity|repeat constructor]).
      * intros H; inv H; simpl.
        repeat split; eexists; split;
           [rewrite <- !app_assoc; reflexivity|repeat constructor].
    + intros H; inv H; simpl.
      repeat split; exists []; split; [reflexivity|constructor].
Qed.

Lemma legacy_writes_ok_app_others (tr rest : list event) :
  writes_ok w tr -> Forall (fun ev => is_write ev = false) rest ->
  writes_ok w (tr ++ rest).
Proof.
  intros Hok Hrest. revert tr Hok.
  induction Hrest as [|ev rest Hev _ IH]; intros tr Hok.
  - now rewrite app_nil_r.
  - replace (tr ++ ev :: rest) with ((tr ++ [ev]) ++ rest)
      by (now rewrite <- app_assoc).
    apply IH. now apply legacy_writes_ok_snoc_other.
Qed.

(** What [_write_image] leaves behind. *)
Lemma legacy_write_image_outcome (img_path data : string) (st : state) :
  writes_ok w (trace st) ->
  match _write_image w img_path data st with
  | Next st' =>
      writes_ok w (trace st')
      /\ replacement_mapping st' = replacement_mapping st
      /\ hash_to_path_mapping st' = hash_to_path_mapping st
  | Raised e st' =>
      exists tr p d,
        trace st' = tr ++ [EOpenWrite p d]
        /\ open_write w tr p d = Some e /\ writes_ok w tr
  end.
Proof.
  intros Hok. unfold _write_image.
  destruct (open_write w _ img_path data) as [e|] eqn:Hw; simpl in *.
  - eexists _, _, _. split; [reflexivity|]. split; [exact Hw|].
    now apply legacy_writes_ok_snoc_other.
  - split; [|split; reflexivity].
    apply legacy_writes_ok_snoc_write; [|exact Hw].
    now apply legacy_writes_ok_snoc_other.
Qed.

(** The write-related outcome of one pass: either every recorded write
    succeeded, or the pass raised the very exception of its last, refused
    write. *)
Lemma legacy_iteration_writes (img_count img_num : nat) (img_url : string)
    (st : state) :
  writes_ok w (trace st) ->
  match iteration lib self w img_count img_num img_url st with
  | Next st' => writes_ok w (trace st')
  | Raised e st' =>
      writes_ok w (trace st') \/
      exists tr p d,
        trace st' = tr ++ [EOpenWrite p d]
        /\ open_write w tr p d = Some e /\ writes_ok w tr
  end.
Proof.
  intros Hok. unfold iteration.
  destruct (dict_mem _ _ _); [now left|].
  destruct (str_in _ _); [now apply legacy_writes_ok_snoc_other|].
  destruct (negb _); [now apply legacy_writes_ok_snoc_other|].
  destruct (_download_image _ _ _ _) as [r st1] eqn:Hd.
  apply legacy_download_image_state in Hd.
  destruct Hd as (_ & _ & rest & Htr & Hrest).
  assert (Hok1 : writes_ok w (trace st1)).
  { rewrite Htr. simpl. rewrite <- app_assoc.
    apply legacy_writes_ok_app_others; [exact Hok|].
    repeat constructor. exact Hrest. }
  destruct r as [resp|e].
  - destruct (get_filename_from_url lib resp) as [fn|e]; [|now left].
    assert (Hstore : forall st2, writes_ok w (trace st2) ->
              match store_image self w img_url fn (content resp) st2 with
              | Next st' => writes_ok w (trace st')
              | Raised e st' =>
                  writes_ok w (trace st') \/
                  exists tr p d,
                    trace st' = tr ++ [EOpenWrite p d]
                    /\ open_write w tr p d = Some e /\ writes_ok w tr
              end).
    { intros st2 Hok2. unfold store_image.
      destruct fn as [fn|]; [|now left].
      destruct (_correct_paths _ _ _ _ _) as [fn' doc].
      match goal with
      | |- context [_write_image w ?p ?d ?s] =>
          pose proof (legacy_write_image_outcome p d s Hok2) as Hw;
          destruct (_write_image w p d s)
      end.
      - apply Hw.
      - now right. }
    unfold deduplicate_and_store.
    destruct (_deduplication self); [|now apply Hstore].
    destruct (dict_get _ _ _) as [[existed|]|];
      [exact Hok1|now apply Hstore|now apply Hstore].
  - destruct (is_Exception e); [|now left].
    destruct (_skip_all_errors self); [|now left].
    now apply legacy_writes_ok_snoc_other.
Qed.
End LegacyFacts.

Section LegacyRunFacts.
Import Py Loop Extractor Legacy.
Variables (lib : Lib) (self : ImageDownloader) (w : World).

Lemma dict_mem_app_one (m : list (string * string)) (k k' v : string) :
  dict_mem String.eqb (m ++ [(k, v)]) k' =
  dict_mem String.eqb m k' || String.eqb k k'.
Proof.
  unfold dict_mem. rewrite existsb_app. simpl. now rewrite orb_false_r.
Qed.

Lemma dict_setdefault_fresh (m : list (string * string)) (k v : string) :
  dict_mem String.eqb m k = false ->
  dict_setdefault String.eqb m k v = m ++ [(k, v)].
Proof.
  intros H. unfold dict_setdefault. now rewrite H.
Qed.

(** One pass either leaves the dictionary alone or appends one entry, for
    the reference it was given; the latter only for a reference that has
    an allowed prefix and is not in the skip list. *)
Lemma legacy_iteration_mapping (img_count img_num : nat) (img_url : string)
    (st st' : state) :
  iteration lib self w img_count img_num img_url st = Next st' ->
  replacement_mapping st' = replacement_mapping st \/
  (_is_allowed_url_prefix img_url = true
   /\ str_in img_url (_skip_list self) = false
   /\ dict_mem String.eqb (replacement_mapping st) img_url = false
   /\ exists p,
        replacement_mapping st' = replacement_mapping st ++ [(img_url, p)]).
Proof.
  unfold iteration.
  destruct (dict_mem _ _ _) eqn:Hmem; [discriminate|].
  destruct (str_in _ _) eqn:Hskip;
    [intros H; inversion H; now left|].
  destruct (_is_allowed_url_prefix img_url) eqn:Hallowed; simpl;
    [|intros H; inversion H; now left].
  destruct (_download_image _ _ _ _) as [r st1] eqn:Hd.
  apply legacy_download_image_state in Hd. destruct Hd as (Hm1 & _ & _).
  simpl in Hm1.
  destruct r as [resp|e].
  - destruct (get_filename_from_url lib resp) as [fn|e]; [|discriminate].
    assert (Hstore : forall st2,
              replacement_mapping st2 = replacement_mapping st ->
              store_image self w img_url fn (content resp) st2 = Next st' ->
              exists p,
                replacement_mapping st' =
                replacement_mapping st ++ [(img_url, p)]).
    { intros st2 Hm2. unfold store_image.
      destruct fn as [fn|]; [|discriminate].
      destruct (_correct_paths _ _ _ _ _) as [fn' doc].
      unfold _write_image.
      destruct (open_write _ _ _ _); [discriminate|].
      intros H; inv H. simpl.
      rewrite Hm2, dict_setdefault_fresh by exact Hmem. now exists doc. }
    unfold deduplicate_and_store.
    destruct (_deduplication self).
    + destruct (dict_get _ _ _) as [[existed|]|].
      * intros H; inv H. simpl.
        rewrite Hm1, dict_setdefault_fresh by exact Hmem.
        right. repeat split. eexists. reflexivity.
      * intros H. apply Hstore in H; [|exact Hm1]. right. auto.
      * intros H. apply Hstore in H; [|exact Hm1]. right. auto.
    + intros H. apply Hstore in H; [|exact Hm1]. right. auto.
  - destruct (is_Exception e); [|discriminate].
    destruct (_skip_all_errors self); [|discriminate].
    intros H; inv H. left. exact Hm1.
Qed.

(** A key of the dictionary stays a key. *)
Lemma legacy_iteration_keeps_keys (img_count img_num : nat) (img_url k : string)
    (st st' : state) :
  iteration lib self w img_count img_num img_url st = Next st' ->
  dict_mem String.eqb (replacement_mapping st) k = true ->
  dict_mem String.eqb (replacement_mapping st') k = true.
Proof.
  intros H Hk. apply legacy_iteration_mapping in H.
  destruct H as [->|(_ & _ & _ & p & ->)]; [exact Hk|].
  rewrite dict_mem_app_one, Hk. reflexivity.
Qed.


(** Every key of the dictionary has an allowed prefix and is outside the
    skip list. *)
Lemma legacy_run_keys_allowed (img_count : nat) (images : list string) :
  forall (img_num : nat) (st st' : state),
    run lib self w img_count img_num images st = Next st' ->
    Forall (fun kv => _is_allowed_url_prefix (fst kv) = true
                      /\ str_in (fst kv) (_skip_list self) = false)
      (replacement_mapping st) ->
    Forall (fun kv => _is_allowed_url_prefix (fst kv) = true
                      /\ str_in (fst kv) (_skip_list self) = false)
      (replacement_mapping st').
Proof.
  intros img_num st st' Hrun Hk. unfold run in Hrun.
  revert Hk Hrun.
  apply (for_enumerate_invariant (iteration lib self w img_count)
           (fun s => Forall _ (replacement_mapping s))).
  intros n x s s' Hs Hit. apply legacy_iteration_mapping in Hit.
  destruct Hit as [->|(Ha & Hsk & _ & p & ->)]; [exact Hs|].
  apply Forall_app. split; [exact Hs|]. now repeat constructor.
Qed.

Lemma dict_mem_false_of_Forall (P : string -> Prop)
    (m : list (string * string)) (k : string) :
  Forall (fun kv => P (fst kv)) m -> ~ P k ->
  dict_mem String.eqb m k = false.
Proof.
  intros HF Hk. unfold dict_mem.
  induction HF as [|[k' v] m Hkv _ IH]; [reflexivity|].
  simpl in *. rewrite IH, orb_false_r.
  destruct (String.eqb_spec k' k); [subst; contradiction|reflexivity].
Qed.

(** [download_images] is the loop once the directory is there. *)
Lemma legacy_download_images_run (images : list string) :
  makedirs_ok w self = true ->
  download_images lib self w images =
  run lib self w (List.length images) 0 images (initial_state self).
Proof.
  unfold makedirs_ok, download_images, run.
  destruct (os_makedirs w _) as [e|]; [|reflexivity].
  now intros ->.
Qed.

(** Whatever [os.makedirs] does, a returning run went through the loop. *)
Lemma legacy_download_images_Next (images : list string) (st : state) :
  download_images lib self w images = Next st ->
  run lib self w (List.length images) 0 images (initial_state self) = Next st.
Proof.
  unfold download_images, run.
  destruct (os_makedirs w _) as [e|]; [|auto].
  destruct (is_FileExistsError e); [auto|discriminate].
Qed.
End LegacyRunFacts.

Section LegacyTraceFacts.
Import Py Loop Extractor Legacy.
Variables (lib : Lib) (self : ImageDownloader) (w : World).

(** After the download, a pass only adds to the trace. *)
Lemma legacy_deduplicate_and_store_trace (img_url : string)
    (img_filename : option string) (image_content : string) (st : state) :
  exists evs,
    trace (outcome_state
             (deduplicate_and_store self w img_url img_filename
                image_content st)) = trace st ++ evs.
Proof.
  assert (Hstore : forall st2,
            exists evs,
              trace (outcome_state
                       (store_image self w img_url img_filename
                          image_content st2)) = trace st2 ++ evs).
  { intros st2. unfold store_image.
    destruct img_filename as [fn|]; [|exists []; simpl; now rewrite app_nil_r].
    destruct (_correct_paths _ _ _ _ _) as [fn' doc].
    unfold _write_image.
    destruct (open_write _ _ _ _); simpl; rewrite <- app_assoc;
      eexists; reflexivity. }
  unfold deduplicate_and_store.
  destruct (_deduplication self); [|apply Hstore].
  destruct (dict_get _ _ _) as [[existed|]|].
  - exists []. simpl. now rewrite app_nil_r.
  - match goal with |- context [store_image _ _ _ _ _ ?s] =>
      destruct (Hstore s) as [evs Hevs] end.
    exists evs. exact Hevs.
  - match goal with |- context [store_image _ _ _ _ _ ?s] =>
      destruct (Hstore s) as [evs Hevs] end.
    exists evs. exact Hevs.
Qed.

(** A reference that passes the three checks is announced and then handed
    to the transport. *)
Lemma legacy_iteration_fetches (img_count img_num : nat) (img_url : string)
    (st : state) :
  dict_mem String.eqb (replacement_mapping st) img_url = false ->
  str_in img_url (_skip_list self) = false ->
  _is_allowed_url_prefix img_url = true ->
  exists rest,
    trace (outcome_state
             (iteration lib self w img_count img_num img_url st)) =
    trace st
    ++ [EPrint (MsgDownloading (S img_num) img_count img_url);
        EGet img_url true (_downloading_timeout self)]
    ++ rest.
Proof.
  intros Hmem Hskip Hallowed. unfold iteration.
  rewrite Hmem, Hskip, Hallowed. simpl.
  destruct (_download_image _ _ _ _) as [r st1] eqn:Hd.
  apply legacy_download_image_state in Hd.
  destruct Hd as (_ & _ & rest & Htr & _). simpl in Htr.
  rewrite <- app_assoc in Htr. simpl in Htr.
  destruct r as [resp|e].
  - destruct (get_filename_from_url lib resp) as [fn|e].
    + destruct (legacy_deduplicate_and_store_trace img_url fn (content resp)
                  st1) as [evs Hevs].
      rewrite Hevs, Htr. exists (rest ++ evs).
      rewrite <- app_assoc. reflexivity.
    + simpl. rewrite Htr. now exists rest.
  - destruct (is_Exception e); [|simpl; rewrite Htr; now exists rest].
    destruct (_skip_all_errors self); simpl; rewrite Htr.
    + eexists. rewrite <- app_assoc. simpl. reflexivity.
    + now exists rest.
Qed.
End LegacyTraceFacts.

(* ================================================================== *)
(** * The claims settled on the legacy script *)
(* ================================================================== *)

(** C10.  In the legacy script a reference is remote exactly when its string
    starts with [http] or [ftp].  A reference with any other prefix that
    reaches the check is reported as incorrect and the pass ends there; no
    such reference is ever a key of the returned dictionary.  A string that
    merely begins with those letters, such as the local path
    [ftproot/a.png], passes the check and is handed to the transport. *)
Theorem C10_remote_iff_http_or_ftp_prefix :
  forall (lib : Extractor.Lib) (self : Extractor.ImageDownloader)
         (w : Extractor.World) (images : list string),
    (forall url,
        Extractor._is_allowed_url_prefix url = true <->
        (Py.startswith url "http" = true \/ Py.startswith url "ftp" = true))
    /\ (forall img_num img_url st,
          Py.dict_mem String.eqb (Extractor.replacement_mapping st) img_url
          = false ->
          Py.str_in img_url (Extractor._skip_list self) = false ->
          Extractor._is_allowed_url_prefix img_url = false ->
          Extractor.iteration lib self w (List.length images) img_num img_url
            st
          = Loop.Next
              (Extractor.emit
                 (Extractor.EPrint
                    (Extractor.MsgIncorrectUrl (S img_num) img_url)) st))
    /\ (forall st img_url,
          Extractor.download_images lib self w images = Loop.Next st ->
          Extractor._is_allowed_url_prefix img_url = false ->
          Py.dict_mem String.eqb (Extractor.replacement_mapping st) img_url
          = false)
    /\ (forall img_num img_url st,
          Py.dict_mem String.eqb (Extractor.replacement_mapping st) img_url
          = false ->
          Py.str_in img_url (Extractor._skip_list self) = false ->
          Extractor._is_allowed_url_prefix img_url = true ->
          exists rest,
            Extractor.trace
              (Loop.outcome_state
                 (Extractor.iteration lib self w (List.length images) img_num
                    img_url st))
            = Extractor.trace st
              ++ [Extractor.EPrint
                    (Extractor.MsgDownloading (S img_num)
                       (List.length images) img_url);
                  Extractor.EGet img_url true
                    (Extractor._downloading_timeout self)]
              ++ rest)
    /\ Extractor._is_allowed_url_prefix "ftproot/a.png" = true.
Proof.
  intros lib self w images. repeat split.
  - unfold Extractor._is_allowed_url_prefix, Extractor.allowed_url_prefixes.
    simpl. rewrite orb_false_r. intros H.
    apply orb_true_iff in H. exact H.
  - intros H. unfold Extractor._is_allowed_url_prefix,
      Extractor.allowed_url_prefixes. simpl. rewrite orb_false_r.
    apply orb_true_iff. exact H.
  - intros img_num img_url st Hmem Hskip Hallowed.
    unfold Extractor.iteration. now rewrite Hmem, Hskip, Hallowed.
  - intros st img_url Hrun Hallowed.
    apply legacy_download_images_Next in Hrun.
    apply legacy_run_keys_allowed in Hrun; [|constructor].
    apply (dict_mem_false_of_Forall
             (fun k => Extractor._is_allowed_url_prefix k = true)).
    + eapply Forall_impl; [|exact Hrun]. now intros kv [Ha _].
    + rewrite Hallowed. discriminate.
  - intros img_num img_url st Hmem Hskip Hallowed.
    now apply legacy_iteration_fetches.
Qed.

Section LegacyDeduplication.
Import Py Loop Extractor Legacy.
Variables (self : ImageDownloader) (w : World).

(** [_correct_paths] renames when another reference already holds the
    document path. *)
Lemma legacy_correct_paths_collision (m : list (string * string))
    (document_img_path img_url img_filename : string) :
  (exists url, In (url, document_img_path) m /\ url <> img_url) ->
  _correct_paths self m document_img_path img_url img_filename
  = ((Hashlib.md5_hexdigest img_url ++ "_" ++ img_filename)%string,
     path_join (public_or_dir self)
       (Hashlib.md5_hexdigest img_url ++ "_" ++ img_filename)).
Proof.
  intros (url & Hin & Hne). unfold _correct_paths.
  induction m as [|[u p] m IH]; [contradiction|].
  simpl. destruct (String.eqb_spec document_img_path p) as [->|Hp].
  - destruct (String.eqb_spec img_url u) as [->|Hu]; [|reflexivity].
    simpl. apply IH. destruct Hin as [Heq|Hin]; [|exact Hin].
    inv Heq. contradiction.
  - simpl. apply IH. destruct Hin as [Heq|Hin]; [|exact Hin].
    inv Heq. contradiction.
Qed.

(** [_correct_paths] keeps the name when no other reference holds the
    document path. *)
Lemma legacy_correct_paths_no_collision (m : list (string * string))
    (document_img_path img_url img_filename : string) :
  (forall url, In (url, document_img_path) m -> url = img_url) ->
  _correct_paths self m document_img_path img_url img_filename
  = (img_filename, document_img_path).
Proof.
  intros H. unfold _correct_paths.
  induction m as [|[u p] m IH]; [reflexivity|].
  simpl. destruct (String.eqb_spec document_img_path p) as [->|Hp].
  - rewrite (H u (or_introl eq_refl)), String.eqb_refl. simpl.
    apply IH. intros url Hin. apply H. now right.
  - simpl. apply IH. intros url Hin. apply H. now right.
Qed.

(** Deduplication, first occurrence of a content: the name entered in the
    digest table is the name the pass was given, before [_correct_paths]
    has had its say. *)
Lemma legacy_dedup_registers_uncorrected_name (img_url img_filename : string)
    (image_content : string) (st : state) :
  _deduplication self = true ->
  dict_get String.eqb (hash_to_path_mapping st)
    (Hashlib.sha256_digest image_content) = None ->
  deduplicate_and_store self w img_url (Some img_filename) image_content st
  = store_image self w img_url (Some img_filename) image_content
      (set_hash_to_path_mapping
         (dict_set String.eqb (hash_to_path_mapping st)
            (Hashlib.sha256_digest image_content) (Some img_filename)) st).
Proof.
  intros Hd Hget. unfold deduplicate_and_store. now rewrite Hd, Hget.
Qed.

(** Deduplication, later occurrence of a content: the reference is recorded
    under the name found in the digest table, and nothing is written. *)
Lemma legacy_dedup_reuses_registered_name (img_url : string)
    (img_filename : option string) (existed_file_name image_content : string)
    (st : state) :
  _deduplication self = true ->
  dict_get String.eqb (hash_to_path_mapping st)
    (Hashlib.sha256_digest image_content) = Some (Some existed_file_name) ->
  deduplicate_and_store self w img_url img_filename image_content st
  = Next (set_replacement_mapping
            (dict_setdefault String.eqb (replacement_mapping st) img_url
               (path_join (public_or_dir self) existed_file_name)) st).
Proof.
  intros Hd Hget. unfold deduplicate_and_store. now rewrite Hd, Hget.
Qed.
End LegacyDeduplication.

(** The legacy script on the two servers that publish different pictures
    under the name [x.png], without deduplication: the second picture is
    stored under the hash of its reference followed by the name. *)
Lemma legacy_same_name_is_renamed :
  Extractor.returned
    (Extractor.download_images Scenario.lib
       (Scenario.legacy_downloader false false) Scenario.legacy_world
       ["http://a.com/x.png"; "http://b.com/x.png"])
  = Some [("http://a.com/x.png", "images/x.png");
          ("http://b.com/x.png",
           ("images/" ++ Hashlib.md5_hexdigest "http://b.com/x.png" ++ "_x.png")
             %string)]
  /\ Legacy.writes
       (Extractor.trace
          (Loop.outcome_state
             (Extractor.download_images Scenario.lib
                (Scenario.legacy_downloader false false) Scenario.legacy_world
                ["http://a.com/x.png"; "http://b.com/x.png"])))
     = [("images/x.png", "picture A");
        (("images/" ++ Hashlib.md5_hexdigest "http://b.com/x.png" ++ "_x.png")
           %string,
         "picture B")].
Proof.
  split; vm_compute; reflexivity.
Qed.

(** C2.  The legacy script with deduplication and a timeout of five
    seconds, on three references: a picture, a different picture under the
    same file name, and a copy of the second picture; the transport is one
    that refuses a timeout that is not positive.  The run returns.  The
    second picture is renamed by [_correct_paths], but the digest table has
    kept its name from before the renaming, so the copy is recorded under
    the document path of the first picture: the two references with
    identical content get different document paths, and the copy points at
    a file that holds other content.  Each content is written once. *)
Theorem C2_duplicate_of_renamed_picture_points_elsewhere :
  Extractor.download_images Scenario.lib
    (Cases.legacy_downloader_with_timeout 5 false true)
    Cases.legacy_world_strict
    ["http://a.com/x.png"; "http://b.com/x.png";
     "http://mirror.org/copy.png"]
  = Loop.Next
      {| Extractor.replacement_mapping :=
           [("http://a.com/x.png", "images/x.png");
            ("http://b.com/x.png",
             "images/5ed3e12035efe5c75f34f7c17a21bb14_x.png");
            ("http://mirror.org/copy.png", "images/x.png")];
         Extractor.hash_to_path_mapping :=
           [(Hashlib.sha256_digest "picture A", Some "x.png");
            (Hashlib.sha256_digest "picture B", Some "x.png")];
         Extractor.trace :=
           [Extractor.EMakedirs "images";
            Extractor.EPrint
              (Extractor.MsgDownloading 1 3 "http://a.com/x.png");
            Extractor.EGet "http://a.com/x.png" true 5%Q;
            Extractor.EPrint (Extractor.MsgWillBeWritten "images/x.png");
            Extractor.EOpenWrite "images/x.png" "picture A";
            Extractor.EPrint
              (Extractor.MsgDownloading 2 3 "http://b.com/x.png");
            Extractor.EGet "http://b.com/x.png" true 5%Q;
            Extractor.EPrint
              (Extractor.MsgWillBeWritten
                 "images/5ed3e12035efe5c75f34f7c17a21bb14_x.png");
            Extractor.EOpenWrite
              "images/5ed3e12035efe5c75f34f7c17a21bb14_x.png" "picture B";
            Extractor.EPrint
              (Extractor.MsgDownloading 3 3 "http://mirror.org/copy.png");
            Extractor.EGet "http://mirror.org/copy.png" true 5%Q] |}
  /\ Extractor.returned
       (Extractor.download_images Scenario.lib
          (Cases.legacy_downloader_with_timeout 5 false true)
          Cases.legacy_world_strict
          ["http://a.com/x.png"; "http://b.com/x.png";
           "http://mirror.org/copy.png"])
     = Some [("http://a.com/x.png", "images/x.png");
             ("http://b.com/x.png",
              "images/5ed3e12035efe5c75f34f7c17a21bb14_x.png");
             ("http://mirror.org/copy.png", "images/x.png")]
  /\ Legacy.writes
       (Extractor.trace
          (Loop.outcome_state
             (Extractor.download_images Scenario.lib
                (Cases.legacy_downloader_with_timeout 5 false true)
                Cases.legacy_world_strict
                ["http://a.com/x.png"; "http://b.com/x.png";
                 "http://mirror.org/copy.png"])))
     = [("images/x.png", "picture A");
        ("images/5ed3e12035efe5c75f34f7c17a21bb14_x.png", "picture B")]
  /\ Extractor.requests_get Cases.legacy_world_strict []
       "http://b.com/x.png" true 5%Q
     = Py.Return (Scenario.png "http://b.com/x.png" "picture B")
  /\ Extractor.requests_get Cases.legacy_world_strict []
       "http://mirror.org/copy.png" true 5%Q
     = Py.Return (Scenario.png "http://mirror.org/copy.png" "picture B")
  /\ Extractor.requests_get Cases.legacy_world_strict []
       "http://a.com/x.png" true Extractor.default_downloading_timeout
     = Py.Raise Py.ValueError.
Proof.
  repeat split; vm_compute; reflexivity.
Qed.

(** C7.  The legacy script hands the configured timeout to the transport as
    it is, whatever its sign: the first thing [_download_image] does is a
    call of [requests.get] that carries the number given to the constructor.
    With the default of the signature that number is [-1]. *)
Theorem C7_legacy_timeout_reaches_transport_unchanged :
  forall (article_path : string) (skip_list : option (list string))
         (skip_all_errors : bool) (img_dir_name img_public_path : string)
         (downloading_timeout : Q) (deduplication : bool)
         (w : Extractor.World) (image_url : string) (st : Extractor.state),
    exists rest,
      Extractor.trace
        (snd (Extractor._download_image
                (Extractor.init article_path skip_list skip_all_errors
                   img_dir_name img_public_path downloading_timeout
                   deduplication) w image_url st))
      = Extractor.trace st
        ++ Extractor.EGet image_url true downloading_timeout :: rest.
Proof.
  intros article_path skip_list skip_all_errors img_dir_name img_public_path
    downloading_timeout deduplication w image_url st.
  destruct (Extractor._download_image _ w image_url st) as [r st'] eqn:Hd.
  apply legacy_download_image_state in Hd.
  destruct Hd as (_ & _ & rest & Htr & _).
  exists rest. exact Htr.
Qed.

(** The packaged class turns a timeout that is not positive into [None],
    the value by which the transport understands an unbounded wait, and
    keeps a positive one. *)
Lemma packaged_timeout_normalised :
  forall (article_path : Py.PurePath) (article_base_url : string)
         (skip_list : option (list string)) (skip_all_errors : bool)
         (img_dir_name : Py.PurePath) (img_public_path : option Py.PurePath)
         (downloading_timeout : Q) (process_local_images : bool),
    ((0 < downloading_timeout)%Q ->
       Toolset._downloading_timeout
         (Toolset.init article_path article_base_url skip_list skip_all_errors
            img_dir_name img_public_path downloading_timeout
            process_local_images) = Some downloading_timeout)
    /\ ((downloading_timeout <= 0)%Q ->
          Toolset._downloading_timeout
            (Toolset.init article_path article_base_url skip_list
               skip_all_errors img_dir_name img_public_path
               downloading_timeout process_local_images) = None).
Proof.
  intros. unfold Toolset.init, Toolset.Qpositive. simpl.
  destruct downloading_timeout as [n d]. unfold Qlt, Qle. simpl.
  rewrite !Z.mul_1_r.
  split; intros H.
  - apply Z.ltb_lt in H. now rewrite H.
  - destruct (Z.ltb_spec 0 n); [lia|reflexivity].
Qed.

(** A pass of the packaged class over a remote reference hands the
    normalised timeout to [download_from_url]. *)
Lemma packaged_timeout_reaches_download :
  forall (tools : Toolset.WwwTools) (self : Toolset.ImageDownloader)
         (image_url : string) (img_num img_count : nat) (st : Toolset.state),
    Toolset.trace
      (snd (Toolset._get_remote_image tools self image_url img_num img_count
              st))
    = Toolset.trace st
      ++ [Toolset.ELog Toolset.INFO
            (Toolset.MsgDownloading (S img_num) img_count image_url);
          Toolset.EDownloadFromUrl image_url
            (Toolset._downloading_timeout self)].
Proof.
  intros. unfold Toolset._get_remote_image.
  destruct (Toolset.download_from_url _ _ _ _) as [resp|e].
  - destruct (Toolset.get_filename_from_url tools resp); simpl;
      now rewrite <- app_assoc.
  - simpl. now rewrite <- app_assoc.
Qed.

(** C8.  [get_filename_from_url] looks at the [content-disposition] header
    only when the URL starts with a slash ([find] returns [0], the one index
    that counts as false).  For any other URL, also one whose last segment
    is empty, the result is a function of the URL and the [content-type]
    header alone. *)
Theorem C8_content_disposition_ignored_unless_url_starts_with_slash :
  forall (lib : Extractor.Lib) (req req' : Extractor.Response),
    Extractor.url req = Extractor.url req' ->
    Py.str_find (Extractor.url req) "/" <> 0%Z ->
    Extractor.headers_get (Extractor.headers req) "content-type"
    = Extractor.headers_get (Extractor.headers req') "content-type" ->
    Extractor.get_filename_from_url lib req
    = Extractor.get_filename_from_url lib req'.
Proof.
  intros lib req req' Hurl Hfind Hct.
  unfold Extractor.get_filename_from_url, Extractor.headers_getitem.
  rewrite <- Hurl, <- Hct.
  assert (Ht : Py.truthy_int (Py.str_find (Extractor.url req) "/") = true).
  { unfold Py.truthy_int. apply negb_true_iff. now apply Z.eqb_neq. }
  now rewrite Ht.
Qed.

(** The theorem at work on a URL that ends with a slash: the file name
    offered by the server is not used, the name is the bare extension
    guessed from the content type. *)
Lemma C8_content_disposition_ignored_witness :
  Extractor.get_filename_from_url Scenario.lib
    {| Extractor.url := "http://a.com/";
       Extractor.status_code := 200;
       Extractor.headers :=
         [("Content-Type", "image/png");
          ("Content-Disposition", "attachment; filename=pic.png")];
       Extractor.content := "picture" |}
  = Extractor.get_filename_from_url Scenario.lib
      {| Extractor.url := "http://a.com/";
         Extractor.status_code := 200;
         Extractor.headers := [("Content-Type", "image/png")];
         Extractor.content := "picture" |}
  /\ Extractor.get_filename_from_url Scenario.lib
       {| Extractor.url := "http://a.com/";
          Extractor.status_code := 200;
          Extractor.headers := [("Content-Type", "image/png")];
          Extractor.content := "picture" |}
     = Py.Return (Some ".png").
Proof.
  split.
  - apply C8_content_disposition_ignored_unless_url_starts_with_slash.
    + reflexivity.
    + discriminate.
    + reflexivity.
  - vm_compute. reflexivity.
Defined.

(** A URL that holds no slash at all does not fall back to the header
    either: indexing the result of [rsplit] raises. *)
Lemma filename_from_url_without_slash :
  forall (lib : Extractor.Lib) (req : Extractor.Response),
    Py.index_of "/" (Extractor.url req) = None ->
    Extractor.get_filename_from_url lib req = Py.Raise Py.IndexError.
Proof.
  intros lib req Hnone. unfold Extractor.get_filename_from_url.
  unfold Py.str_find, Py.rsplit1. rewrite Hnone. simpl.
  assert (Hr : Py.rindex_of "/" (Extractor.url req) = None).
  { revert Hnone. generalize (Extractor.url req) as s.
    induction s as [|a s IH]; [reflexivity|]. simpl.
    destruct (Ascii.eqb a "/"); [discriminate|].
    destruct (Py.index_of "/" s); [discriminate|].
    intros _. now rewrite IH. }
  now rewrite Hr.
Qed.

(** The one case in which the header decides: a URL that starts with a
    slash.  Without the header, or without a file name in it, the result is
    [None]. *)
Lemma filename_from_url_leading_slash :
  forall (lib : Extractor.Lib) (req : Extractor.Response),
    Py.startswith (Extractor.url req) "/" = true ->
    (Extractor.headers_get (Extractor.headers req) "content-disposition"
     = None ->
     Extractor.get_filename_from_url lib req = Py.Return None)
    /\ (forall cd,
          Extractor.headers_get (Extractor.headers req) "content-disposition"
          = Some cd ->
          Py.re_findall_filename_first cd = None ->
          Extractor.get_filename_from_url lib req = Py.Return None).
Proof.
  intros lib req Hstart.
  assert (Hfind : Py.truthy_int (Py.str_find (Extractor.url req) "/") = false).
  { destruct (Extractor.url req) as [|a s]; [discriminate|].
    unfold Py.str_find. simpl in *.
    destruct (Ascii.eqb a "/"); [reflexivity|discriminate]. }
  unfold Extractor.get_filename_from_url. rewrite Hfind.
  split.
  - now intros ->.
  - intros cd -> Hnone. now rewrite Hnone.
Qed.

(** C4 on the legacy script: a failing download is reported and passed over
    when [skip_all_errors] is set, and ends the run otherwise. *)
Lemma legacy_fetch_failure_policy :
  forall (lib : Extractor.Lib) (self : Extractor.ImageDownloader)
         (w : Extractor.World) (pre post : list string) (img_url : string)
         (st st1 : Extractor.state) (e : Py.exn),
    Legacy.makedirs_ok w self = true ->
    Legacy.run lib self w (List.length (pre ++ img_url :: post)) 0 pre
      (Extractor.initial_state self) = Loop.Next st ->
    Py.dict_mem String.eqb (Extractor.replacement_mapping st) img_url = false ->
    Py.str_in img_url (Extractor._skip_list self) = false ->
    Extractor._is_allowed_url_prefix img_url = true ->
    Extractor._download_image self w img_url
      (Extractor.emit
         (Extractor.EPrint
            (Extractor.MsgDownloading (S (List.length pre))
               (List.length (pre ++ img_url :: post)) img_url)) st)
    = (Py.Raise e, st1) ->
    Py.is_Exception e = true ->
    (Extractor._skip_all_errors self = true ->
       Extractor.replacement_mapping st1 = Extractor.replacement_mapping st
       /\ Extractor.download_images lib self w (pre ++ img_url :: post)
          = Legacy.run lib self w (List.length (pre ++ img_url :: post))
              (S (List.length pre)) post
              (Extractor.emit
                 (Extractor.EPrint
                    (Extractor.MsgCantDownload (S (List.length pre)) e)) st1))
    /\ (Extractor._skip_all_errors self = false ->
          Extractor.download_images lib self w (pre ++ img_url :: post)
          = Loop.Raised e st1).
Proof.
  intros lib self w pre post img_url st st1 e
    Hdir Hpre Hmem Hskip Hallowed Hget Hexn.
  rewrite legacy_download_images_run by exact Hdir.
  unfold Legacy.run in *.
  rewrite (for_enumerate_middle _ pre post img_url _ st Hpre).
  unfold Extractor.iteration. rewrite Hmem, Hskip, Hallowed. cbn [negb].
  rewrite Hget, Hexn.
  apply legacy_download_image_state in Hget. destruct Hget as (Hm & _ & _).
  split; intros Hflag; rewrite Hflag; [|reflexivity].
  split; [exact Hm|reflexivity].
Qed.

(** C9 on the legacy script: a refused write is the last thing a run does,
    and the run ends with its exception. *)
Lemma legacy_write_failure_aborts :
  forall (lib : Extractor.Lib) (self : Extractor.ImageDownloader)
         (w : Extractor.World) (images : list string)
         (tr1 tr2 : list Extractor.event) (p d : string) (e : Py.exn),
    Extractor.trace
      (Loop.outcome_state (Extractor.download_images lib self w images))
    = tr1 ++ Extractor.EOpenWrite p d :: tr2 ->
    Extractor.open_write w tr1 p d = Some e ->
    tr2 = []
    /\ exists st,
         Extractor.download_images lib self w images = Loop.Raised e st.
Proof.
  intros lib self w images tr1 tr2 p d e Htr Hw.
  assert (Hinit : Legacy.writes_ok w
                    (Extractor.trace (Extractor.initial_state self))).
  { intros t1 p' d' t2 Heq. simpl in Heq.
    destruct t1 as [|x [|y t1]]; discriminate. }
  assert (Hrun :
    match Legacy.run lib self w (List.length images) 0 images
            (Extractor.initial_state self) with
    | Loop.Next st' => Legacy.writes_ok w (Extractor.trace st')
    | Loop.Raised e' st' =>
        Legacy.writes_ok w (Extractor.trace st') \/
        exists tr p' d',
          Extractor.trace st' = tr ++ [Extractor.EOpenWrite p' d']
          /\ Extractor.open_write w tr p' d' = Some e'
          /\ Legacy.writes_ok w tr
    end).
  { unfold Legacy.run.
    apply (for_enumerate_outcome _
             (fun s => Legacy.writes_ok w (Extractor.trace s))
             (fun e' s =>
                Legacy.writes_ok w (Extractor.trace s) \/
                exists tr p' d',
                  Extractor.trace s = tr ++ [Extractor.EOpenWrite p' d']
                  /\ Extractor.open_write w tr p' d' = Some e'
                  /\ Legacy.writes_ok w tr)); [|exact Hinit].
    intros n x s Hs. now apply legacy_iteration_writes. }
  assert (Hout :
    match Extractor.download_images lib self w images with
    | Loop.Next st' => Legacy.writes_ok w (Extractor.trace st')
    | Loop.Raised e' st' =>
        Legacy.writes_ok w (Extractor.trace st') \/
        exists tr p' d',
          Extractor.trace st' = tr ++ [Extractor.EOpenWrite p' d']
          /\ Extractor.open_write w tr p' d' = Some e'
          /\ Legacy.writes_ok w tr
    end).
  { unfold Extractor.download_images. unfold Legacy.run in Hrun.
    destruct (Extractor.os_makedirs w _) as [e0|]; [|exact Hrun].
    destruct (Py.is_FileExistsError e0); [exact Hrun|now left]. }
  destruct (Extractor.download_images lib self w images)
    as [st|e' st]; simpl in Htr.
  - specialize (Hout _ _ _ _ Htr). congruence.
  - destruct Hout as [Hok|(tr & p' & d' & Hlast & Hw' & Hok)].
    + specialize (Hok _ _ _ _ Htr). congruence.
    + rewrite Hlast in Htr. apply snoc_eq_middle in Htr.
      destruct Htr as [(-> & -> & Hev)|(t2 & _ & ->)].
      * inversion Hev; subst. split; [reflexivity|].
        exists st. congruence.
      * specialize (Hok _ _ _ _ eq_refl). congruence.
Qed.

(** The hexadecimal digest of MD5 starts with a digit or a letter, never
    with a slash. *)
Lemma md5_hexdigest_not_absolute :
  forall s : string, Py.startswith (Hashlib.md5_hexdigest s) "/" = false.
Proof.
  intros s. unfold Hashlib.md5_hexdigest, Hashlib.md5_digest_bytes.
  destruct (fold_left Hashlib.md5_block _ Hashlib.md5_init) as [[[a b] c] d].
  cbn [Hashlib.le_bytes app Hashlib.hex_of_bytes Py.startswith].
  rewrite andb_true_r.
  set (n := Z.shiftr (Z.land a 255) 4).
  assert (Hn : (0 <= n < 16)%Z).
  { unfold n. change 255%Z with (Z.ones 8).
    rewrite Z.land_ones by lia. rewrite Z.shiftr_div_pow2 by lia.
    pose proof (Z.mod_pos_bound a (2 ^ 8) eq_refl) as Hm.
    change (2 ^ 8)%Z with 256%Z in *. change (2 ^ 4)%Z with 16%Z.
    split; [apply Z.div_pos; lia|].
    apply Z.div_lt_upper_bound; lia. }
  assert (Hall : forallb
                   (fun k => negb (Ascii.eqb
                                     (Hashlib.hex_digit (Z.of_nat k)) "/"))
                   (seq 0 16) = true) by reflexivity.
  rewrite forallb_forall in Hall.
  specialize (Hall (Z.to_nat n)). rewrite Z2Nat.id in Hall by lia.
  apply negb_true_iff, Hall, in_seq. lia.
Qed.

Lemma str_length_append (s1 s2 : string) :
  String.length (s1 ++ s2) = String.length s1 + String.length s2.
Proof.
  induction s1 as [|c s1 IH]; simpl; [reflexivity|now rewrite IH].
Qed.

Lemma str_append_assoc (s1 s2 s3 : string) :
  ((s1 ++ s2) ++ s3 = s1 ++ s2 ++ s3)%string.
Proof.
  induction s1 as [|c s1 IH]; simpl; [reflexivity|now rewrite IH].
Qed.

Lemma length_path_join (a b : string) :
  Py.startswith b "/" = false ->
  exists prefix, Py.path_join a b = (prefix ++ b)%string
                 /\ forall b', Py.startswith b' "/" = false ->
                               Py.path_join a b' = (prefix ++ b')%string.
Proof.
  intros Hb. unfold Py.path_join. rewrite Hb.
  destruct (negb (Py.truthy_str a) || Py.endswith_slash a) eqn:E.
  - exists a. split; [reflexivity|]. intros b' ->. reflexivity.
  - exists (a ++ "/")%string. split.
    + now rewrite str_append_assoc.
    + intros b' ->. now rewrite str_append_assoc.
Qed.

(** The collision law on the legacy script.  When the document path wanted
    for a new reference is already held by another reference, the new one is
    recorded and written under the hash of its own reference string, an
    underscore and the original file name, and its document path differs
    from the one that was wanted. *)
Lemma legacy_collision_law :
  forall (self : Extractor.ImageDownloader) (w : Extractor.World)
         (img_url other img_filename image_content : string)
         (st : Extractor.state),
    In (other, Py.path_join (Extractor.public_or_dir self) img_filename)
       (Extractor.replacement_mapping st) ->
    other <> img_url ->
    Py.dict_mem String.eqb (Extractor.replacement_mapping st) img_url = false ->
    Extractor.replacement_mapping
      (Loop.outcome_state
         (Extractor.store_image self w img_url (Some img_filename)
            image_content st))
    = Extractor.replacement_mapping st
      ++ [(img_url,
           Py.path_join (Extractor.public_or_dir self)
             (Hashlib.md5_hexdigest img_url ++ "_" ++ img_filename))]
    /\ Legacy.writes
         (Extractor.trace
            (Loop.outcome_state
               (Extractor.store_image self w img_url (Some img_filename)
                  image_content st)))
       = Legacy.writes (Extractor.trace st)
         ++ [(Py.path_join (Extractor._images_dir self)
                (Hashlib.md5_hexdigest img_url ++ "_" ++ img_filename),
              image_content)]
    /\ Py.path_join (Extractor.public_or_dir self)
         (Hashlib.md5_hexdigest img_url ++ "_" ++ img_filename)
       <> Py.path_join (Extractor.public_or_dir self) img_filename.
Proof.
  intros self w img_url other img_filename image_content st Hin Hne Hmem.
  unfold Extractor.store_image.
  rewrite legacy_correct_paths_collision by (exists other; auto).
  unfold Extractor._write_image.
  repeat split.
  - destruct (Extractor.open_write _ _ _ _); simpl;
      now rewrite dict_setdefault_fresh.
  - destruct (Extractor.open_write _ _ _ _); simpl;
      unfold Legacy.writes; rewrite !flat_map_app; simpl;
      now rewrite app_nil_r.
  - set (h := Hashlib.md5_hexdigest img_url).
    assert (Hh : Py.startswith (h ++ "_" ++ img_filename) "/" = false).
    { pose proof (md5_hexdigest_not_absolute img_url) as H0. fold h in H0.
      destruct h as [|c h']; [reflexivity|]. simpl in *. exact H0. }
    intros Heq.
    destruct (Py.startswith img_filename "/") eqn:Hf.
    + unfold Py.path_join in Heq. rewrite Hh, Hf in Heq.
      apply (f_equal String.length) in Heq.
      destruct (negb _ || _) in Heq;
        repeat rewrite str_length_append in Heq; simpl in Heq; lia.
    + destruct (length_path_join (Extractor.public_or_dir self) _ Hf)
        as (prefix & Hp & Hall).
      rewrite Hp, (Hall _ Hh) in Heq.
      apply (f_equal String.length) in Heq.
      repeat rewrite str_length_append in Heq. simpl in Heq. lia.
Qed.

(* ================================================================== *)
(** * Facts about the packaged class *)
(* ================================================================== *)

Section PackagedFacts.
Import Py Loop Toolset Packaged.
Variables (tools : WwwTools) (self : ImageDownloader) (w : World).

Lemma packaged_writes_ok_snoc_other (tr : list event) (e : event) :
  writes_ok w tr -> is_write e = false -> writes_ok w (tr ++ [e]).
Proof.
  intros Hok He tr1 p d tr2 Heq.
  apply snoc_eq_middle in Heq.
  destruct Heq as [(_ & _ & ->)|(tr2' & _ & ->)]; [discriminate|].
  eapply Hok; reflexivity.
Qed.

Lemma packaged_writes_ok_snoc_write (tr : list event) (p : PurePath)
    (d : string) :
  writes_ok w tr -> open_write w tr p d = None ->
  writes_ok w (tr ++ [EOpenWrite p d]).
Proof.
  intros Hok Hw tr1 p' d' tr2 Heq.
  apply snoc_eq_middle in Heq.
  destruct Heq as [(_ & -> & Hev)|(tr2' & _ & ->)].
  - now inversion Hev; subst.
  - eapply Hok; reflexivity.
Qed.

Lemma packaged_writes_ok_app_others (tr rest : list event) :
  writes_ok w tr -> Forall (fun ev => is_write ev = false) rest ->
  writes_ok w (tr ++ rest).
Proof.
  intros Hok Hrest. revert tr Hok.
  induction Hrest as [|ev rest Hev _ IH]; intros tr Hok.
  - now rewrite app_nil_r.
  - replace (tr ++ ev :: rest) with ((tr ++ [ev]) ++ rest)
      by (now rewrite <- app_assoc).
    apply IH. now apply packaged_writes_ok_snoc_other.
Qed.

(** [get_image] touches neither the dictionary nor the deduplicator. *)
Lemma packaged_get_image_state (images_count image_num : nat)
    (image_path_is_url : bool) (image_url : string) (st : state) :
  forall r st',
    get_image tools self w images_count image_num image_path_is_url
      image_url st = (r, st') ->
    replacement_mapping st' = replacement_mapping st
    /\ _deduplicator st' = _deduplicator st
    /\ trace st' =
       trace st
       ++ get_image_events self images_count image_num image_path_is_url
            image_url.
Proof.
  intros r st'. unfold get_image, get_image_events.
  destruct image_path_is_url.
  - unfold _get_remote_image.
    destruct (download_from_url _ _ _ _) as [resp|e].
    + destruct (get_filename_from_url tools resp) as [fn|e];
        intros H; inv H; simpl;
        rewrite <- app_assoc; auto.
    + intros H; inv H; simpl.
      rewrite <- app_assoc; auto.
  - unfold _get_local_image.
    destruct (open_read _ _ _) as [c|e];
      intros H; inv H; simpl; auto.
Qed.

(** A reference that gets to the [try] statement is handled by
    [get_and_store], with the flag computed from the reference as listed
    and the reference as rewritten. *)
Lemma packaged_iteration_reaches_try (images_count image_num : nat)
    (image_url : string) (st : state) :
  reaches_try tools self image_url st = true ->
  iteration tools self w images_count image_num image_url st =
  get_and_store tools self w images_count image_num
    (is_url tools image_url) (url_at_try tools self image_url)
    (state_at_try tools self image_num image_url st).
Proof.
  unfold reaches_try, iteration, url_at_try, state_at_try, rewritten.
  intros H. apply andb_true_iff in H. destruct H as [H Hcls].
  apply andb_true_iff in H. destruct H as [Hmem Hskip].
  apply negb_true_iff in Hmem. apply negb_true_iff in Hskip.
  rewrite Hmem, Hskip.
  destruct (negb (is_url tools image_url) && negb (_process_local_images self))
    eqn:Hrw; [|reflexivity].
  apply andb_true_iff in Hrw. destruct Hrw as [Hu Hl].
  apply negb_true_iff in Hu. apply negb_true_iff in Hl.
  rewrite Hu, Hl in Hcls. simpl in Hcls. now rewrite Hcls.
Qed.

(** What [_write_image] leaves behind. *)
Lemma packaged_write_image_outcome (image_path : PurePath) (data : string)
    (st : state) :
  writes_ok w (trace st) ->
  match _write_image w image_path data st with
  | Next st' => writes_ok w (trace st')
  | Raised e st' =>
      exists tr p d,
        trace st' = tr ++ [EOpenWrite p d]
        /\ open_write w tr p d = Some e /\ writes_ok w tr
  end.
Proof.
  intros Hok. unfold _write_image.
  destruct (open_write w _ image_path data) as [e|] eqn:Hw; simpl in *.
  - eexists _, _, _. split; [reflexivity|]. split; [exact Hw|].
    now apply packaged_writes_ok_snoc_other.
  - apply packaged_writes_ok_snoc_write; [|exact Hw].
    now apply packaged_writes_ok_snoc_other.
Qed.

Lemma packaged_store_image_writes (image_url : string)
    (image_filename : option string) (image_content : string) (st : state) :
  writes_ok w (trace st) ->
  match store_image self w image_url image_filename image_content st with
  | Next st' => writes_ok w (trace st')
  | Raised e st' =>
      writes_ok w (trace st') \/
      exists tr p d,
        trace st' = tr ++ [EOpenWrite p d]
        /\ open_write w tr p d = Some e /\ writes_ok w tr
  end.
Proof.
  intros Hok. unfold store_image.
  destruct image_filename as [fn|]; [|now left].
  destruct (_correct_paths _ _ _ _ _) as [fn' doc].
  match goal with
  | |- context [_write_image w ?p ?d ?s] =>
      pose proof (packaged_write_image_outcome p d s Hok) as Hw;
      destruct (_write_image w p d s)
  end.
  - exact Hw.
  - now right.
Qed.

Lemma packaged_deduplicate_and_store_writes (image_url : string)
    (image_filename : option string) (image_content : string) (st : state) :
  writes_ok w (trace st) ->
  match deduplicate_and_store self w image_url image_filename image_content
          st with
  | Next st' => writes_ok w (trace st')
  | Raised e st' =>
      writes_ok w (trace st') \/
      exists tr p d,
        trace st' = tr ++ [EOpenWrite p d]
        /\ open_write w tr p d = Some e /\ writes_ok w tr
  end.
Proof.
  intros Hok. unfold deduplicate_and_store.
  destruct (_deduplicator st) as [dd|];
    [|now apply packaged_store_image_writes].
  destruct (call_deduplicate _ _ _ _ _) as [[[[result fn] dd'] m']|e];
    [|now left].
  destruct (negb result); [exact Hok|].
  now apply packaged_store_image_writes.
Qed.

Lemma packaged_get_and_store_writes (images_count image_num : nat)
    (image_path_is_url : bool) (image_url : string) (st : state) :
  writes_ok w (trace st) ->
  match get_and_store tools self w images_count image_num image_path_is_url
          image_url st with
  | Next st' => writes_ok w (trace st')
  | Raised e st' =>
      writes_ok w (trace st') \/
      exists tr p d,
        trace st' = tr ++ [EOpenWrite p d]
        /\ open_write w tr p d = Some e /\ writes_ok w tr
  end.
Proof.
  intros Hok. unfold get_and_store.
  destruct (get_image _ _ _ _ _ _ _ _) as [r st1] eqn:Hg.
  apply packaged_get_image_state in Hg. destruct Hg as (_ & _ & Htr).
  assert (Hok1 : writes_ok w (trace st1)).
  { rewrite Htr. apply packaged_writes_ok_app_others; [exact Hok|].
    unfold get_image_events.
    destruct image_path_is_url; repeat constructor. }
  destruct r as [[fn c]|e].
  - now apply packaged_deduplicate_and_store_writes.
  - destruct (is_Exception e); [|now left].
    destruct (_skip_all_errors self); [|now left].
    now apply packaged_writes_ok_snoc_other.
Qed.

(** The write-related outcome of one pass: either every recorded write
    succeeded, or the pass raised the very exception of its last, refused
    write. *)
Lemma packaged_iteration_writes (images_count image_num : nat)
    (image_url : string) (st : state) :
  writes_ok w (trace st) ->
  match iteration tools self w images_count image_num image_url st with
  | Next st' => writes_ok w (trace st')
  | Raised e st' =>
      writes_ok w (trace st') \/
      exists tr p d,
        trace st' = tr ++ [EOpenWrite p d]
        /\ open_write w tr p d = Some e /\ writes_ok w tr
  end.
Proof.
  intros Hok. unfold iteration.
  destruct (dict_mem _ _ _); [now left|].
  destruct (str_in _ _); [now apply packaged_writes_ok_snoc_other|].
  destruct (negb (is_url tools image_url) && _).
  - destruct (truthy_str _).
    + apply packaged_get_and_store_writes.
      now repeat apply packaged_writes_ok_snoc_other.
    + now repeat apply packaged_writes_ok_snoc_other.
  - now apply packaged_get_and_store_writes.
Qed.

(** [download_images] is the loop once the directory is there. *)
Lemma packaged_download_images_run (deduplicator : option Deduplicator)
    (images : list string) :
  mkdir_ok w self = true ->
  download_images tools self deduplicator w images =
  run tools self w (List.length images) 0 images
    (initial_state self deduplicator).
Proof.
  unfold mkdir_ok, download_images, run.
  destruct (mkdir w _) as [e|]; [|reflexivity].
  now intros ->.
Qed.
End PackagedFacts.

Section PackagedRunFacts.
Import Py Loop Toolset Packaged.
Variables (tools : WwwTools) (self : ImageDownloader) (w : World).

(** On a dictionary of strings the comparison of [_correct_paths] is never
    true: a path object is not equal to a string. *)
Lemma packaged_correct_paths_items_str_valued (m : list (string * value))
    (document_img_path : PurePath) (img_url image_filename : string) :
  str_valued m ->
  _correct_paths_items self m document_img_path img_url image_filename
  = (image_filename, document_img_path).
Proof.
  intros Hm. induction Hm as [|[url path] m [s Hs] _ IH]; [reflexivity|].
  simpl in *. subst path. simpl. exact IH.
Qed.

Lemma packaged_str_valued_setdefault (m : list (string * value))
    (k s : string) :
  str_valued m -> str_valued (dict_setdefault String.eqb m k (VStr s)).
Proof.
  intros Hm. unfold dict_setdefault.
  destruct (dict_mem _ _ _); [exact Hm|].
  apply Forall_app. split; [exact Hm|].
  repeat constructor. now exists s.
Qed.

(** Without a deduplicator the dictionary only ever receives strings. *)
Lemma packaged_iteration_str_valued (images_count image_num : nat)
    (image_url : string) (st st' : state) :
  _deduplicator st = None /\ str_valued (replacement_mapping st) ->
  iteration tools self w images_count image_num image_url st = Next st' ->
  _deduplicator st' = None /\ str_valued (replacement_mapping st').
Proof.
  intros [Hdd Hm].
  assert (Hgs : forall flag url s,
            _deduplicator s = None /\ str_valued (replacement_mapping s) ->
            get_and_store tools self w images_count image_num flag url s
            = Next st' ->
            _deduplicator st' = None /\ str_valued (replacement_mapping st')).
  { intros flag url s [Hd Hs]. unfold get_and_store.
    destruct (get_image _ _ _ _ _ _ _ _) as [r s1] eqn:Hg.
    apply packaged_get_image_state in Hg. destruct Hg as (Hm1 & Hd1 & _).
    destruct r as [[fn c]|e].
    - unfold deduplicate_and_store. rewrite Hd1, Hd. unfold store_image.
      destruct fn as [fn|]; [|discriminate].
      destruct (_correct_paths _ _ _ _ _) as [fn' doc].
      unfold _write_image. destruct (open_write _ _ _ _); [discriminate|].
      intros H; inv H. simpl.
      split; [congruence|]. apply packaged_str_valued_setdefault.
      now rewrite Hm1.
    - destruct (is_Exception e); [|discriminate].
      destruct (_skip_all_errors self); [|discriminate].
      intros H; inv H. simpl.
      split; congruence. }
  unfold iteration.
  destruct (dict_mem _ _ _); [discriminate|].
  destruct (str_in _ _); [intros H; inversion H; subst; now split|].
  destruct (negb (is_url tools image_url) && _).
  - destruct (truthy_str _).
    + apply Hgs. now split.
    + intros H; inversion H; subst; now split.
  - apply Hgs. now split.
Qed.

Lemma packaged_run_str_valued (images_count : nat) (images : list string) :
  forall (image_num : nat) (st st' : state),
    _deduplicator st = None /\ str_valued (replacement_mapping st) ->
    run tools self w images_count image_num images st = Next st' ->
    _deduplicator st' = None /\ str_valued (replacement_mapping st').
Proof.
  intros image_num st st' H Hrun. unfold run in Hrun. revert H Hrun.
  apply (for_enumerate_invariant (iteration tools self w images_count)
           (fun s => _deduplicator s = None
                     /\ str_valued (replacement_mapping s))).
  intros n x s s' Hs Hit. eapply packaged_iteration_str_valued; eauto.
Qed.

(** After the [try] statement a pass only adds to the trace, and what it
    adds holds no download. *)
Lemma packaged_deduplicate_and_store_trace (image_url : string)
    (image_filename : option string) (image_content : string) (st : state) :
  exists evs,
    trace (outcome_state
             (deduplicate_and_store self w image_url image_filename
                image_content st)) = trace st ++ evs
    /\ Forall (fun ev => is_download ev = false) evs.
Proof.
  assert (Hstore : forall fn st2,
            exists evs,
              trace (outcome_state
                       (store_image self w image_url fn image_content st2))
              = trace st2 ++ evs
              /\ Forall (fun ev => is_download ev = false) evs).
  { intros fn st2. unfold store_image.
    destruct fn as [fn|];
      [|exists []; simpl; rewrite app_nil_r; split; [reflexivity|constructor]].
    destruct (_correct_paths _ _ _ _ _) as [fn' doc].
    unfold _write_image.
    destruct (open_write _ _ _ _); simpl; rewrite <- app_assoc;
      (eexists; split; [reflexivity|repeat constructor]). }
  unfold deduplicate_and_store.
  destruct (_deduplicator st) as [dd|]; [|apply Hstore].
  destruct (call_deduplicate _ _ _ _ _) as [[[[result fn] dd'] m']|e].
  - destruct (negb result).
    + exists []. simpl. rewrite app_nil_r. split; [reflexivity|constructor].
    + match goal with |- context [store_image _ _ _ ?f _ ?s] =>
        destruct (Hstore f s) as [evs Hevs] end.
      exists evs. exact Hevs.
  - exists []. simpl. rewrite app_nil_r. split; [reflexivity|constructor].
Qed.
End PackagedRunFacts.

(* ================================================================== *)
(** * The claims settled on the packaged class *)
(* ================================================================== *)

(** C4.  A reference gets to the [try] statement and obtaining its content
    (the download, the derivation of the file name, or the local read)
    raises an exception [e].  With [skip_all_errors] set, a warning carrying
    [e] is logged, the dictionary is left as it was, and the run goes on
    with the next reference.  Without it, the run ends there with [e] and
    returns no dictionary. *)
Theorem C4_fetch_failure_policy :
  forall (tools : Toolset.WwwTools) (self : Toolset.ImageDownloader)
         (w : Toolset.World) (deduplicator : option Toolset.Deduplicator)
         (pre post : list string) (image_url : string)
         (st st1 : Toolset.state) (e : Py.exn),
    Packaged.mkdir_ok w self = true ->
    Packaged.run tools self w (List.length (pre ++ image_url :: post)) 0 pre
      (Toolset.initial_state self deduplicator) = Loop.Next st ->
    Packaged.reaches_try tools self image_url st = true ->
    Toolset.get_image tools self w (List.length (pre ++ image_url :: post))
      (List.length pre) (Toolset.is_url tools image_url)
      (Packaged.url_at_try tools self image_url)
      (Packaged.state_at_try tools self (List.length pre) image_url st)
    = (Py.Raise e, st1) ->
    Py.is_Exception e = true ->
    (Toolset._skip_all_errors self = true ->
       Toolset.replacement_mapping
         (Toolset.emit
            (Toolset.ELog Toolset.WARNING
               (Toolset.MsgCantGetImage (S (List.length pre)) e)) st1)
       = Toolset.replacement_mapping st
       /\ Toolset.download_images tools self deduplicator w
            (pre ++ image_url :: post)
          = Packaged.run tools self w
              (List.length (pre ++ image_url :: post)) (S (List.length pre))
              post
              (Toolset.emit
                 (Toolset.ELog Toolset.WARNING
                    (Toolset.MsgCantGetImage (S (List.length pre)) e)) st1))
    /\ (Toolset._skip_all_errors self = false ->
          Toolset.download_images tools self deduplicator w
            (pre ++ image_url :: post) = Loop.Raised e st1
          /\ Toolset.returned
               (Toolset.download_images tools self deduplicator w
                  (pre ++ image_url :: post)) = None).
Proof.
  intros tools self w deduplicator pre post image_url st st1 e
    Hdir Hpre Htry Hget Hexn.
  rewrite packaged_download_images_run by exact Hdir.
  unfold Packaged.run in *.
  rewrite (for_enumerate_middle _ pre post image_url _ st Hpre).
  rewrite packaged_iteration_reaches_try by exact Htry.
  unfold Toolset.get_and_store. rewrite Hget, Hexn.
  apply packaged_get_image_state in Hget. destruct Hget as (Hm & _ & _).
  split; intros Hflag; rewrite Hflag.
  - split; [|reflexivity]. simpl. rewrite Hm.
    unfold Packaged.state_at_try.
    now destruct (Packaged.rewritten tools self image_url).
  - split; reflexivity.
Qed.

(** The theorem at work on three references of which the second answers
    404: with [skip_all_errors] the other two are recorded, without it the
    run returns nothing. *)
Lemma C4_fetch_failure_policy_witness :
  Toolset.returned
    (Toolset.download_images Scenario.tools
       (Scenario.toolset_downloader EmptyString true false) None
       Scenario.toolset_world
       ["http://a.com/x.png"; "http://a.com/gone.png";
        "http://mirror.org/copy.png"])
  = Some [("http://a.com/x.png", Py.VStr "images/x.png");
          ("http://mirror.org/copy.png", Py.VStr "images/copy.png")]
  /\ Toolset.returned
       (Toolset.download_images Scenario.tools
          (Scenario.toolset_downloader EmptyString false false) None
          Scenario.toolset_world
          ["http://a.com/x.png"; "http://a.com/gone.png";
           "http://mirror.org/copy.png"])
     = None.
Proof.
  split.
  - edestruct (C4_fetch_failure_policy Scenario.tools
                 (Scenario.toolset_downloader EmptyString true false)
                 Scenario.toolset_world None
                 ["http://a.com/x.png"] ["http://mirror.org/copy.png"]
                 "http://a.com/gone.png") as [Hskip _];
      [ reflexivity | vm_compute; reflexivity | vm_compute; reflexivity
      | vm_compute; reflexivity | reflexivity | ].
    destruct (Hskip eq_refl) as [_ Hrun].
    simpl app in Hrun. rewrite Hrun. vm_compute. reflexivity.
  - edestruct (C4_fetch_failure_policy Scenario.tools
                 (Scenario.toolset_downloader EmptyString false false)
                 Scenario.toolset_world None
                 ["http://a.com/x.png"] ["http://mirror.org/copy.png"]
                 "http://a.com/gone.png") as [_ Hraise];
      [ reflexivity | vm_compute; reflexivity | vm_compute; reflexivity
      | vm_compute; reflexivity | reflexivity | ].
    exact (proj2 (Hraise eq_refl)).
Defined.

(** C9.  If the trace of a run holds a write that the file system refused
    with [e], that write is the last thing the run did and the run ended
    with [e]: no dictionary is returned.  Nothing in the statement depends
    on [skip_all_errors]. *)
Theorem C9_write_failure_aborts :
  forall (tools : Toolset.WwwTools) (self : Toolset.ImageDownloader)
         (w : Toolset.World) (deduplicator : option Toolset.Deduplicator)
         (images : list string) (tr1 tr2 : list Toolset.event)
         (p : Py.PurePath) (d : string) (e : Py.exn),
    Toolset.trace
      (Loop.outcome_state
         (Toolset.download_images tools self deduplicator w images))
    = tr1 ++ Toolset.EOpenWrite p d :: tr2 ->
    Toolset.open_write w tr1 p d = Some e ->
    tr2 = []
    /\ (exists st,
          Toolset.download_images tools self deduplicator w images
          = Loop.Raised e st)
    /\ Toolset.returned
         (Toolset.download_images tools self deduplicator w images) = None.
Proof.
  intros tools self w deduplicator images tr1 tr2 p d e Htr Hw.
  assert (Hinit : Packaged.writes_ok w
                    (Toolset.trace (Toolset.initial_state self deduplicator))).
  { intros t1 p' d' t2 Heq. simpl in Heq.
    destruct t1 as [|x [|y t1]]; discriminate. }
  assert (Hrun :
    match Packaged.run tools self w (List.length images) 0 images
            (Toolset.initial_state self deduplicator) with
    | Loop.Next st' => Packaged.writes_ok w (Toolset.trace st')
    | Loop.Raised e' st' =>
        Packaged.writes_ok w (Toolset.trace st') \/
        exists tr p' d',
          Toolset.trace st' = tr ++ [Toolset.EOpenWrite p' d']
          /\ Toolset.open_write w tr p' d' = Some e'
          /\ Packaged.writes_ok w tr
    end).
  { unfold Packaged.run.
    apply (for_enumerate_outcome _
             (fun s => Packaged.writes_ok w (Toolset.trace s))
             (fun e' s =>
                Packaged.writes_ok w (Toolset.trace s) \/
                exists tr p' d',
                  Toolset.trace s = tr ++ [Toolset.EOpenWrite p' d']
                  /\ Toolset.open_write w tr p' d' = Some e'
                  /\ Packaged.writes_ok w tr)); [|exact Hinit].
    intros n x s Hs. now apply packaged_iteration_writes. }
  assert (Hout :
    match Toolset.download_images tools self deduplicator w images with
    | Loop.Next st' => Packaged.writes_ok w (Toolset.trace st')
    | Loop.Raised e' st' =>
        Packaged.writes_ok w (Toolset.trace st') \/
        exists tr p' d',
          Toolset.trace st' = tr ++ [Toolset.EOpenWrite p' d']
          /\ Toolset.open_write w tr p' d' = Some e'
          /\ Packaged.writes_ok w tr
    end).
  { unfold Toolset.download_images. unfold Packaged.run in Hrun.
    destruct (Toolset.mkdir w _) as [e0|]; [|exact Hrun].
    destruct (Py.is_FileExistsError e0); [exact Hrun|now left]. }
  destruct (Toolset.download_images tools self deduplicator w images)
    as [st|e' st]; simpl in Htr.
  - specialize (Hout _ _ _ _ Htr). congruence.
  - destruct Hout as [Hok|(tr & p' & d' & Hlast & Hw' & Hok)].
    + specialize (Hok _ _ _ _ Htr). congruence.
    + rewrite Hlast in Htr. apply snoc_eq_middle in Htr.
      destruct Htr as [(-> & -> & Hev)|(t2 & _ & ->)].
      * inversion Hev; subst.
        split; [reflexivity|]. split; [|reflexivity].
        exists st. congruence.
      * specialize (Hok _ _ _ _ eq_refl). congruence.
Qed.

(** The theorem at work on a disk that refuses every write, with
    [skip_all_errors] set: the run ends with the error of the write. *)
Lemma C9_write_failure_aborts_witness :
  exists st,
    Toolset.download_images Scenario.tools
      (Scenario.toolset_downloader EmptyString true false) None
      Scenario.toolset_world_full_disk ["http://a.com/x.png"]
    = Loop.Raised (Py.OSError "No space left on device") st.
Proof.
  destruct (C9_write_failure_aborts Scenario.tools
              (Scenario.toolset_downloader EmptyString true false)
              Scenario.toolset_world_full_disk None ["http://a.com/x.png"]
              [Toolset.EMkdir (Py.Path "images");
               Toolset.ELog Toolset.INFO
                 (Toolset.MsgDownloading 1 1 "http://a.com/x.png");
               Toolset.EDownloadFromUrl "http://a.com/x.png" None;
               Toolset.ELog Toolset.INFO
                 (Toolset.MsgWillBeWritten (Py.Path "images/x.png"))]
              [] (Py.Path "images/x.png") "picture A"
              (Py.OSError "No space left on device"))
    as (_ & Hraised & _).
  - vm_compute. reflexivity.
  - reflexivity.
  - exact Hraised.
Defined.

(** C5.  A reference that is not a URL, with local images not processed,
    gets past the assertion and the skip list.  Without a base URL the pass
    logs the warning and the notice that the download is skipped, and ends.
    With a base URL the reference is rewritten to [base_url + "/" +
    reference], but the flag that chooses between download and local read
    was computed before the rewriting: the pass opens the rewritten
    reference as a local file, and no download takes place in it. *)
Theorem C5_base_url_reference_is_read_locally :
  forall (tools : Toolset.WwwTools) (self : Toolset.ImageDownloader)
         (w : Toolset.World) (images_count image_num : nat)
         (image_url : string) (st : Toolset.state),
    Py.dict_mem String.eqb (Toolset.replacement_mapping st) image_url = false ->
    Py.str_in image_url (Toolset._skip_list self) = false ->
    Toolset.is_url tools image_url = false ->
    Toolset._process_local_images self = false ->
    (Py.truthy_str (Toolset._article_base_url self) = true ->
       exists rest,
         Toolset.trace
           (Loop.outcome_state
              (Toolset.iteration tools self w images_count image_num
                 image_url st))
         = Toolset.trace st
           ++ [Toolset.ELog Toolset.WARNING
                 (Toolset.MsgIncorrectUrl (S image_num) image_url);
               Toolset.ELog Toolset.DEBUG
                 (Toolset.MsgTryingBaseUrl (Toolset._article_base_url self));
               Toolset.EOpenRead
                 (Py.Path (Toolset._article_base_url self ++ "/" ++ image_url))]
           ++ rest
         /\ Forall (fun ev => Packaged.is_download ev = false) rest)
    /\ (Py.truthy_str (Toolset._article_base_url self) = false ->
          Toolset.iteration tools self w images_count image_num image_url st
          = Loop.Next
              (Toolset.emit (Toolset.ELog Toolset.INFO
                               Toolset.MsgDownloadingSkipped)
                 (Toolset.emit
                    (Toolset.ELog Toolset.WARNING
                       (Toolset.MsgIncorrectUrl (S image_num) image_url))
                    st))).
Proof.
  intros tools self w images_count image_num image_url st
    Hmem Hskip Hurl Hlocal.
  unfold Toolset.iteration. rewrite Hmem, Hskip, Hurl, Hlocal.
  cbn [negb andb].
  split; intros Hbase; rewrite Hbase; [|reflexivity].
  set (url' := (Toolset._article_base_url self ++ "/" ++ image_url)%string).
  unfold Toolset.get_and_store.
  destruct (Toolset.get_image _ _ _ _ _ _ _ _) as [r st1] eqn:Hget.
  apply packaged_get_image_state in Hget. destruct Hget as (_ & _ & Htr).
  cbn [Packaged.get_image_events Toolset.trace Toolset.emit] in Htr.
  rewrite <- !app_assoc in Htr. cbn [app] in Htr.
  destruct r as [[fn c]|e].
  - destruct (packaged_deduplicate_and_store_trace self w url' fn c st1)
      as (evs & Hevs & Hnone).
    exists evs. split; [|exact Hnone].
    rewrite Hevs, Htr, <- app_assoc. reflexivity.
  - destruct (Py.is_Exception e).
    + destruct (Toolset._skip_all_errors self); simpl.
      * eexists. rewrite Htr, <- app_assoc. simpl.
        split; [reflexivity|repeat constructor].
      * exists []. rewrite Htr. split; [reflexivity|constructor].
    + exists []. simpl. rewrite Htr. split; [reflexivity|constructor].
Qed.

(** The theorem at work: with the base URL [http://site.org] the relative
    reference [img/a.png] is looked for on the local disk, under a path made
    of the pieces of the URL. *)
Lemma C5_base_url_reference_is_read_locally_witness :
  exists rest,
    Toolset.trace
      (Loop.outcome_state
         (Toolset.iteration Scenario.tools
            (Scenario.toolset_downloader "http://site.org" false false)
            Scenario.toolset_world 1 0 "img/a.png"
            (Toolset.initial_state
               (Scenario.toolset_downloader "http://site.org" false false)
               None)))
    = [Toolset.EMkdir (Py.Path "images");
       Toolset.ELog Toolset.WARNING (Toolset.MsgIncorrectUrl 1 "img/a.png");
       Toolset.ELog Toolset.DEBUG (Toolset.MsgTryingBaseUrl "http://site.org");
       Toolset.EOpenRead
         (Py.mkPath EmptyString ["http:"; "site.org"; "img"; "a.png"])]
      ++ rest
    /\ Forall (fun ev => Packaged.is_download ev = false) rest.
Proof.
  destruct (C5_base_url_reference_is_read_locally Scenario.tools
              (Scenario.toolset_downloader "http://site.org" false false)
              Scenario.toolset_world 1 0 "img/a.png"
              (Toolset.initial_state
                 (Scenario.toolset_downloader "http://site.org" false false)
                 None))
    as [Hbase _]; try reflexivity.
  destruct (Hbase eq_refl) as (rest & Htr & Hnone).
  exists rest. split; [exact Htr|exact Hnone].
Defined.

(** C3.  In a run of the packaged class without a deduplicator,
    [_correct_paths] hands back the file name and the document path it was
    given, whatever the dictionary built so far holds: the dictionary holds
    strings, the document path is a path object, and the two never compare
    equal.  The file name is never prefixed with the hash of the
    reference. *)
Theorem C3_packaged_correct_paths_never_renames :
  forall (tools : Toolset.WwwTools) (self : Toolset.ImageDownloader)
         (w : Toolset.World) (images_count : nat) (pre : list string)
         (st : Toolset.state) (document_img_path : Py.PurePath)
         (img_url image_filename : string),
    Packaged.run tools self w images_count 0 pre
      (Toolset.initial_state self None) = Loop.Next st ->
    Toolset._correct_paths self (Toolset.replacement_mapping st)
      document_img_path img_url image_filename
    = (image_filename, document_img_path).
Proof.
  intros tools self w images_count pre st document_img_path img_url
    image_filename Hrun.
  apply packaged_run_str_valued in Hrun; [|split; [reflexivity|constructor]].
  unfold Toolset._correct_paths.
  now apply packaged_correct_paths_items_str_valued.
Qed.

(** The theorem at work: [x.png] of the first server is recorded, and
    [x.png] of the second one is not renamed. *)
Lemma C3_packaged_correct_paths_never_renames_witness :
  exists st,
    Py.dict_get String.eqb (Toolset.replacement_mapping st)
      "http://a.com/x.png" = Some (Py.VStr "images/x.png")
    /\ Toolset._correct_paths
         (Scenario.toolset_downloader EmptyString false false)
         (Toolset.replacement_mapping st) (Py.Path "images/x.png")
         "http://b.com/x.png" "x.png"
       = ("x.png", Py.Path "images/x.png").
Proof.
  eexists. split.
  2: { eapply (C3_packaged_correct_paths_never_renames Scenario.tools
                 (Scenario.toolset_downloader EmptyString false false)
                 Scenario.toolset_world 2 ["http://a.com/x.png"]).
       vm_compute. reflexivity. }
  vm_compute. reflexivity.
Defined.

(** A pass over a remote reference whose download and write succeed, in a
    run without deduplicator: the reference is recorded under the document
    path made of its file name alone, and its content is written under that
    file name. *)
Lemma packaged_remote_pass :
  forall (tools : Toolset.WwwTools) (self : Toolset.ImageDownloader)
         (w : Toolset.World) (images_count image_num : nat) (u : string)
         (r : Toolset.Response) (fn : string) (st : Toolset.state),
    Py.dict_mem String.eqb (Toolset.replacement_mapping st) u = false ->
    Py.str_in u (Toolset._skip_list self) = false ->
    Toolset.is_url tools u = true ->
    (forall tr t, Toolset.download_from_url tools tr u t = Py.Return r) ->
    Toolset.get_filename_from_url tools r = Py.Return (Some fn) ->
    Toolset._deduplicator st = None ->
    Packaged.str_valued (Toolset.replacement_mapping st) ->
    (forall tr p d, Toolset.open_write w tr p d = None) ->
    Toolset.iteration tools self w images_count image_num u st
    = Loop.Next
        {| Toolset.replacement_mapping :=
             Toolset.replacement_mapping st
             ++ [(u, Py.VStr
                       (Py.join "/"
                          (Py.parts
                             (Toolset._get_document_img_path self fn))))];
           Toolset._deduplicator := None;
           Toolset.trace :=
             Toolset.trace st
             ++ [Toolset.ELog Toolset.INFO
                   (Toolset.MsgDownloading (S image_num) images_count u);
                 Toolset.EDownloadFromUrl u (Toolset._downloading_timeout self);
                 Toolset.ELog Toolset.INFO
                   (Toolset.MsgWillBeWritten
                      (Py.truediv (Toolset._images_dir self) fn));
                 Toolset.EOpenWrite
                   (Py.truediv (Toolset._images_dir self) fn)
                   (Extractor.content r)] |}.
Proof.
  intros tools self w images_count image_num u r fn st
    Hmem Hskip Hurl Hd Hf Hdd Hm Hw.
  unfold Toolset.iteration. rewrite Hmem, Hskip, Hurl. cbn [negb andb].
  unfold Toolset.get_and_store, Toolset.get_image, Toolset._get_remote_image.
  rewrite Hd, Hf.
  unfold Toolset.deduplicate_and_store.
  cbn [Toolset._deduplicator Toolset.emit]. rewrite Hdd.
  unfold Toolset.store_image, Toolset._correct_paths.
  cbn [Toolset.replacement_mapping Toolset.emit].
  rewrite packaged_correct_paths_items_str_valued by exact Hm.
  unfold Toolset._write_image. rewrite Hw.
  unfold Py.dict_setdefault. rewrite Hmem.
  unfold Toolset.set_replacement_mapping, Toolset.emit.
  cbn [Toolset.replacement_mapping Toolset._deduplicator Toolset.trace].
  rewrite Hdd, <- !app_assoc. reflexivity.
Qed.

(** C1.  Two different remote references whose downloads succeed and derive
    the same file name are recorded, by a packaged downloader without
    deduplicator and with an empty skip list, under one and the same
    document path, and both contents are written to one and the same
    file. *)
Theorem C1_same_file_name_same_document_path :
  forall (tools : Toolset.WwwTools) (self : Toolset.ImageDownloader)
         (w : Toolset.World) (u1 u2 : string)
         (r1 r2 : Toolset.Response) (fn : string),
    Packaged.mkdir_ok w self = true ->
    Toolset._skip_list self = [] ->
    u1 <> u2 ->
    Toolset.is_url tools u1 = true ->
    Toolset.is_url tools u2 = true ->
    (forall tr t, Toolset.download_from_url tools tr u1 t = Py.Return r1) ->
    (forall tr t, Toolset.download_from_url tools tr u2 t = Py.Return r2) ->
    Toolset.get_filename_from_url tools r1 = Py.Return (Some fn) ->
    Toolset.get_filename_from_url tools r2 = Py.Return (Some fn) ->
    (forall tr p d, Toolset.open_write w tr p d = None) ->
    Toolset.returned (Toolset.download_images tools self None w [u1; u2])
    = Some
        [(u1, Py.VStr (Py.join "/"
                         (Py.parts (Toolset._get_document_img_path self fn))));
         (u2, Py.VStr (Py.join "/"
                         (Py.parts (Toolset._get_document_img_path self fn))))]
    /\ Packaged.writes
         (Toolset.trace
            (Loop.outcome_state
               (Toolset.download_images tools self None w [u1; u2])))
       = [(Py.truediv (Toolset._images_dir self) fn, Extractor.content r1);
          (Py.truediv (Toolset._images_dir self) fn, Extractor.content r2)].
Proof.
  intros tools self w u1 u2 r1 r2 fn Hdir Hskip Hne Hu1 Hu2 Hd1 Hd2 Hf1 Hf2 Hw.
  rewrite packaged_download_images_run by exact Hdir.
  assert (Hneq : String.eqb u1 u2 = false) by now apply String.eqb_neq.
  unfold Packaged.run. cbn [Loop.for_enumerate].
  rewrite (packaged_remote_pass tools self w _ _ u1 r1 fn);
    try assumption; try reflexivity;
    [|now rewrite Hskip|constructor].
  rewrite (packaged_remote_pass tools self w _ _ u2 r2 fn);
    try assumption; try reflexivity.
  - split; [reflexivity|].
    cbn [Loop.outcome_state Toolset.trace Toolset.initial_state].
    unfold Packaged.writes. rewrite !flat_map_app. reflexivity.
  - cbn [Toolset.replacement_mapping Toolset.initial_state app Py.dict_mem
           existsb fst]. now rewrite Hneq.
  - now rewrite Hskip.
  - repeat constructor. eexists. reflexivity.
Qed.

(** The theorem at work on the two servers that publish different pictures
    under the name [x.png]. *)
Lemma C1_same_file_name_same_document_path_witness :
  Toolset.returned
    (Toolset.download_images Scenario.tools
       (Scenario.toolset_downloader EmptyString false false) None
       Scenario.toolset_world ["http://a.com/x.png"; "http://b.com/x.png"])
  = Some [("http://a.com/x.png", Py.VStr "images/x.png");
          ("http://b.com/x.png", Py.VStr "images/x.png")]
  /\ Packaged.writes
       (Toolset.trace
          (Loop.outcome_state
             (Toolset.download_images Scenario.tools
                (Scenario.toolset_downloader EmptyString false false) None
                Scenario.toolset_world
                ["http://a.com/x.png"; "http://b.com/x.png"])))
     = [(Py.Path "images/x.png", "picture A");
        (Py.Path "images/x.png", "picture B")].
Proof.
  apply (C1_same_file_name_same_document_path Scenario.tools
           (Scenario.toolset_downloader EmptyString false false)
           Scenario.toolset_world "http://a.com/x.png" "http://b.com/x.png"
           (Scenario.png "http://a.com/x.png" "picture A")
           (Scenario.png "http://b.com/x.png" "picture B") "x.png");
    try reflexivity.
  discriminate.
Defined.

(** C6 on the packaged class: a reference that is a key of the dictionary
    when its turn comes ends the run with the assertion failure, in the
    state it found. *)
Lemma packaged_recorded_reference_aborts :
  forall (tools : Toolset.WwwTools) (self : Toolset.ImageDownloader)
         (w : Toolset.World) (deduplicator : option Toolset.Deduplicator)
         (pre post : list string) (image_url : string) (st : Toolset.state),
    Packaged.mkdir_ok w self = true ->
    Packaged.run tools self w (List.length (pre ++ image_url :: post)) 0 pre
      (Toolset.initial_state self deduplicator) = Loop.Next st ->
    Py.dict_mem String.eqb (Toolset.replacement_mapping st) image_url = true ->
    Toolset.download_images tools self deduplicator w
      (pre ++ image_url :: post)
    = Loop.Raised
        (Py.AssertionError (Toolset.assertion_message image_url)) st.
Proof.
  intros tools self w deduplicator pre post image_url st Hdir Hpre Hmem.
  rewrite packaged_download_images_run by exact Hdir.
  unfold Packaged.run in *.
  rewrite (for_enumerate_middle _ pre post image_url _ st Hpre).
  unfold Toolset.iteration. now rewrite Hmem.
Qed.

(** The packaged class with a deduplicator that follows the contract the
    spec gives for it.  The caller leaves the pass when the first component
    of the result is false, which under that contract is the first
    occurrence of a content: the first of two references with identical
    bytes is neither recorded nor written, and the second one is recorded
    and written under the name proposed for the first. *)
Lemma packaged_spec_deduplicator_drops_first_occurrence :
  Toolset.returned
    (Toolset.download_images Scenario.tools
       (Scenario.toolset_downloader EmptyString false false)
       (Some Scenario.spec_deduplicator) Scenario.toolset_world
       ["http://b.com/x.png"; "http://mirror.org/copy.png"])
  = Some [("http://mirror.org/copy.png", Py.VStr "images/x.png")]
  /\ Packaged.writes
       (Toolset.trace
          (Loop.outcome_state
             (Toolset.download_images Scenario.tools
                (Scenario.toolset_downloader EmptyString false false)
                (Some Scenario.spec_deduplicator) Scenario.toolset_world
                ["http://b.com/x.png"; "http://mirror.org/copy.png"])))
     = [(Py.Path "images/x.png", "picture B")].
Proof.
  split; vm_compute; reflexivity.
Qed.

(* ================================================================== *)
(** * The assertion at the head of the loop, on both variants *)
(* ================================================================== *)




(** The packaged class records a reference that it rewrote with the base
    URL under the rewritten string.  The reference as listed is then not a
    key, and a second occurrence of it passes the assertion: it is read and
    written again, and the run returns. *)
Lemma packaged_rewritten_duplicate_is_not_caught :
  Toolset.returned
    (Toolset.download_images Scenario.tools
       (Scenario.toolset_downloader "http://base" false false) None
       Cases.world_reading_everything ["img/a.png"; "img/a.png"])
  = Some [("http://base/img/a.png", Py.VStr "images/a.png")]
  /\ Packaged.writes
       (Toolset.trace
          (Loop.outcome_state
             (Toolset.download_images Scenario.tools
                (Scenario.toolset_downloader "http://base" false false) None
                Cases.world_reading_everything ["img/a.png"; "img/a.png"])))
     = [(Py.Path "images/a.png", "picture of a cat");
        (Py.Path "images/a.png", "picture of a cat")].
Proof.
  split; vm_compute; reflexivity.
Qed.

(* ================================================================== *)
(** * Facts about white space at the ends of a string *)
(* ================================================================== *)

Section StripFacts.
Import Py.

Lemma string_of_list_app (l1 l2 : list ascii) :
  string_of_list_ascii (l1 ++ l2)
  = (string_of_list_ascii l1 ++ string_of_list_ascii l2)%string.
Proof.
  induction l1 as [|a l1 IH]; simpl; [reflexivity|now rewrite IH].
Qed.

Lemma list_of_string_app (s1 s2 : string) :
  list_ascii_of_string (s1 ++ s2)
  = list_ascii_of_string s1 ++ list_ascii_of_string s2.
Proof.
  induction s1 as [|a s1 IH]; simpl; [reflexivity|now rewrite IH].
Qed.

Lemma str_rev_involutive (s : string) : str_rev (str_rev s) = s.
Proof.
  unfold str_rev.
  now rewrite list_ascii_of_string_of_list_ascii, rev_involutive,
    string_of_list_ascii_of_string.
Qed.

Lemma str_rev_app (s1 s2 : string) :
  str_rev (s1 ++ s2) = (str_rev s2 ++ str_rev s1)%string.
Proof.
  unfold str_rev.
  now rewrite list_of_string_app, rev_app_distr, string_of_list_app.
Qed.

Lemma str_drop_suffix (n : nat) (s : string) :
  exists p, s = (p ++ str_drop n s)%string.
Proof.
  revert s. induction n as [|n IH]; intros s.
  - exists EmptyString. now destruct s.
  - destruct s as [|a s]; [now exists EmptyString|].
    destruct (IH s) as (p & Hp). exists (String a p). simpl. now rewrite <- Hp.
Qed.

Lemma str_drop_shorter (n : nat) (a : ascii) (s : string) :
  String.length (str_drop (S n) (String a s)) <= String.length s.
Proof.
  simpl. revert s. induction n as [|n IH]; intros s; [now destruct s|].
  destruct s as [|b s]; simpl; [lia|].
  specialize (IH s). simpl in IH. lia.
Qed.

Section Front.
Variable width : string -> nat.
Hypothesis width_nil : width EmptyString = 0.

(** What [strip_front] returns is the end of what it was given. *)
Lemma strip_front_suffix (fuel : nat) (s : string) :
  exists p, s = (p ++ strip_front width fuel s)%string.
Proof.
  revert s. induction fuel as [|fuel IH]; intros s; cbn [strip_front].
  - now exists EmptyString.
  - destruct (width s) as [|k]; [now exists EmptyString|].
    destruct (str_drop_suffix (S k) s) as (p1 & Hp1).
    destruct (IH (str_drop (S k) s)) as (p2 & Hp2).
    exists (p1 ++ p2)%string.
    rewrite str_append_assoc, <- Hp2. exact Hp1.
Qed.

(** With fuel for every byte, what it returns starts with no white
    space. *)
Lemma strip_front_width (fuel : nat) (s : string) :
  String.length s <= fuel -> width (strip_front width fuel s) = 0.
Proof.
  revert s. induction fuel as [|fuel IH]; intros s Hlen; cbn [strip_front].
  - destruct s; [exact width_nil|simpl in Hlen; lia].
  - destruct (width s) as [|k] eqn:Hw; [exact Hw|].
    apply IH. destruct s as [|a s]; [congruence|].
    pose proof (str_drop_shorter k a s). simpl in Hlen. lia.
Qed.

Lemma strip_front_fixed (fuel : nat) (s : string) :
  width s = 0 -> strip_front width fuel s = s.
Proof.
  intros Hw. destruct fuel; simpl; [reflexivity|now rewrite Hw].
Qed.

Lemma strip_front_idempotent (s : string) :
  strip_front width
    (String.length (strip_front width (String.length s) s))
    (strip_front width (String.length s) s)
  = strip_front width (String.length s) s.
Proof.
  apply strip_front_fixed. now apply strip_front_width.
Qed.
End Front.

Lemma lstrip_suffix (s : string) : exists p, s = (p ++ lstrip s)%string.
Proof.
  apply strip_front_suffix.
Qed.

Lemma rstrip_prefix (s : string) : exists q, s = (rstrip s ++ q)%string.
Proof.
  unfold rstrip.
  destruct (strip_front_suffix space_width_rev
              (String.length (str_rev s)) (str_rev s)) as (p & Hp).
  exists (str_rev p).
  rewrite <- str_rev_app, <- Hp. now rewrite str_rev_involutive.
Qed.

Lemma lstrip_width (s : string) : space_width (lstrip s) = 0.
Proof.
  apply strip_front_width; [reflexivity|apply Nat.le_refl].
Qed.

Lemma lstrip_fixed (s : string) : space_width s = 0 -> lstrip s = s.
Proof.
  apply strip_front_fixed.
Qed.

Lemma lstrip_idempotent (s : string) : lstrip (lstrip s) = lstrip s.
Proof.
  apply lstrip_fixed, lstrip_width.
Qed.

Lemma rstrip_idempotent (s : string) : rstrip (rstrip s) = rstrip s.
Proof.
  unfold rstrip. rewrite str_rev_involutive.
  now rewrite (strip_front_idempotent space_width_rev eq_refl).
Qed.

(** A string that starts with white space keeps doing so when it is
    extended. *)
Lemma space_width_app (t u : string) :
  space_width (t ++ u) = 0 -> space_width t = 0.
Proof.
  destruct t as [|a [|b [|c t]]]; simpl; try reflexivity.
  - destruct (is_space a); [discriminate|reflexivity].
  - destruct (is_space a); [discriminate|].
    destruct (is_space2 a b); [discriminate|reflexivity].
  - destruct (is_space a); [discriminate|].
    destruct (is_space2 a b); [discriminate|].
    destruct (is_space3 a b c); [discriminate|reflexivity].
Qed.

(** [rstrip] leaves the left end alone. *)
Lemma lstrip_rstrip (s : string) :
  lstrip s = s -> lstrip (rstrip s) = rstrip s.
Proof.
  intros Hs. apply lstrip_fixed.
  destruct (rstrip_prefix s) as (q & Hq).
  apply (space_width_app _ q). rewrite <- Hq, <- Hs. apply lstrip_width.
Qed.

Lemma strip_idempotent (s : string) : strip (strip s) = strip s.
Proof.
  unfold strip.
  rewrite (lstrip_rstrip (lstrip s) (lstrip_idempotent s)).
  apply rstrip_idempotent.
Qed.
End StripFacts.

(* ================================================================== *)
(** * Further properties: text *)
(* ================================================================== *)

Section TextFacts.
Import Py Text.

Lemma str_forallb_app (f : ascii -> bool) (s1 s2 : string) :
  str_forallb f (s1 ++ s2) = str_forallb f s1 && str_forallb f s2.
Proof.
  induction s1 as [|c s1 IH]; simpl; [reflexivity|].
  now rewrite IH, andb_assoc.
Qed.

Lemma str_forallb_impl (f g : ascii -> bool) (s : string) :
  (forall c, f c = true -> g c = true) ->
  str_forallb f s = true -> str_forallb g s = true.
Proof.
  intros Hfg. induction s as [|c s IH]; simpl; [reflexivity|].
  intros H. apply andb_true_iff in H. destruct H as [Hc Hs].
  now rewrite (Hfg c Hc), IH.
Qed.

Lemma str_forallb_list (f : ascii -> bool) (s : string) :
  str_forallb f s = forallb f (list_ascii_of_string s).
Proof.
  induction s as [|c s IH]; simpl; [reflexivity|now rewrite IH].
Qed.

Lemma forallb_rev {A : Type} (f : A -> bool) (l : list A) :
  forallb f (rev l) = forallb f l.
Proof.
  induction l as [|a l IH]; simpl; [reflexivity|].
  rewrite forallb_app, IH. simpl. rewrite andb_true_r. apply andb_comm.
Qed.

Lemma str_forallb_rev (f : ascii -> bool) (s : string) :
  str_forallb f (str_rev s) = str_forallb f s.
Proof.
  unfold str_rev.
  now rewrite !str_forallb_list, list_ascii_of_string_of_list_ascii,
    forallb_rev.
Qed.

Lemma str_forallb_filter (f : ascii -> bool) (s : string) :
  str_forallb f (str_filter f s) = true.
Proof.
  induction s as [|c s IH]; simpl; [reflexivity|].
  destruct (f c) eqn:E; simpl; [now rewrite E|exact IH].
Qed.

Lemma str_forallb_map (f g : ascii -> bool) (h : ascii -> ascii)
    (s : string) :
  (forall c, f c = true -> g (h c) = true) ->
  str_forallb f s = true -> str_forallb g (str_map h s) = true.
Proof.
  intros Hfg. induction s as [|c s IH]; simpl; [reflexivity|].
  intros H. apply andb_true_iff in H. destruct H as [Hc Hs].
  now rewrite (Hfg c Hc), IH.
Qed.

Lemma str_forallb_lstrip (f : ascii -> bool) (s : string) :
  str_forallb f s = true -> str_forallb f (lstrip s) = true.
Proof.
  destruct (lstrip_suffix s) as (p & Hp). intros H.
  rewrite Hp, str_forallb_app in H. apply andb_true_iff in H. apply H.
Qed.

Lemma str_forallb_rstrip (f : ascii -> bool) (s : string) :
  str_forallb f s = true -> str_forallb f (rstrip s) = true.
Proof.
  destruct (rstrip_prefix s) as (q & Hq). intros H.
  rewrite Hq, str_forallb_app in H. apply andb_true_iff in H. apply H.
Qed.

Lemma str_forallb_strip (f : ascii -> bool) (s : string) :
  str_forallb f s = true -> str_forallb f (strip s) = true.
Proof.
  intros H. unfold strip. now apply str_forallb_rstrip, str_forallb_lstrip.
Qed.

(** Lower-casing a character that [re.sub] let through gives a slug
    character or leaves whitespace. *)
Lemma lower_char_kept :
  forall c : ascii,
    is_word c || is_space c || Ascii.eqb c "-" = true ->
    slug_char (lower_char c) || is_space (lower_char c) = true.
Proof.
  intros c.
  destruct c as [[] [] [] [] [] [] [] []]; vm_compute; intros H;
    first [reflexivity | discriminate].
Qed.

Lemma hyphen_runs_chars (s : string) :
  forall in_run : bool,
    str_forallb (fun c => slug_char c || is_space c) s = true ->
    str_forallb slug_char (re_sub_hyphen_runs_from in_run s) = true.
Proof.
  induction s as [|c s IH]; intros in_run; simpl; [reflexivity|].
  intros H. apply andb_true_iff in H. destruct H as [Hc Hs].
  destruct (Ascii.eqb c "-" || is_space c) eqn:E.
  - destruct in_run; simpl; now apply IH.
  - simpl. rewrite IH by exact Hs. rewrite andb_true_r.
    apply orb_false_iff in E. destruct E as [_ Hsp].
    rewrite Hsp, orb_false_r in Hc. exact Hc.
Qed.

Lemma hyphen_runs_single (s : string) :
  forall in_run : bool,
    no_double_hyphen (re_sub_hyphen_runs_from in_run s) = true
    /\ (in_run = true ->
        startswith (re_sub_hyphen_runs_from in_run s) "-" = false).
Proof.
  induction s as [|c s IH]; intros in_run; simpl; [now split|].
  destruct (Ascii.eqb c "-" || is_space c) eqn:E.
  - destruct in_run.
    + apply IH.
    + destruct (IH true) as [Hnd Hst]. specialize (Hst eq_refl).
      split; [|discriminate].
      destruct (re_sub_hyphen_runs_from true s) as [|b t] eqn:Hr;
        [reflexivity|].
      simpl in Hst. rewrite andb_true_r in Hst.
      change (negb (Ascii.eqb "-" "-" && Ascii.eqb b "-")
              && no_double_hyphen (String b t) = true).
      now rewrite Hst, Hnd.
  - destruct (IH false) as [Hnd _].
    apply orb_false_iff in E. destruct E as [Hh _].
    split.
    + destruct (re_sub_hyphen_runs_from false s) as [|b t] eqn:Hr;
        [reflexivity|].
      change (negb (Ascii.eqb c "-" && Ascii.eqb b "-")
              && no_double_hyphen (String b t) = true).
      now rewrite Hh, Hnd.
    + intros _. simpl. now rewrite Hh.
Qed.
End TextFacts.

Lemma slugify_chars (lib : Extractor.Lib) (value : string) :
  Text.str_forallb Text.slug_char (Extractor.slugify lib value) = true
  /\ Text.no_double_hyphen (Extractor.slugify lib value) = true.
Proof.
  unfold Extractor.slugify, Py.re_sub_hyphen_runs. split.
  - apply hyphen_runs_chars. unfold Py.lower.
    apply (str_forallb_map
             (fun c => Py.is_word c || Py.is_space c || Ascii.eqb c "-")).
    + exact lower_char_kept.
    + apply str_forallb_strip. unfold Py.re_sub_non_word.
      apply str_forallb_filter.
  - apply hyphen_runs_single.
Qed.

(** [slugify] yields lower-case letters, digits, underscores and hyphens
    only, and never two hyphens in a row, whatever the input and whatever
    the normalisation table. *)
Theorem slugify_alphabet :
  forall (lib : Extractor.Lib) (value : string),
    Text.str_forallb Text.slug_char (Extractor.slugify lib value) = true
    /\ Text.no_double_hyphen (Extractor.slugify lib value) = true.
Proof.
  intros lib value. unfold Extractor.slugify, Py.re_sub_hyphen_runs. split.
  - apply hyphen_runs_chars. unfold Py.lower.
    apply (str_forallb_map
             (fun c => Py.is_word c || Py.is_space c || Ascii.eqb c "-")).
    + exact lower_char_kept.
    + apply str_forallb_strip. unfold Py.re_sub_non_word.
      apply str_forallb_filter.
  - apply hyphen_runs_single.
Qed.

(* ================================================================== *)
(** * Further properties: the file name of a response *)
(* ================================================================== *)

Section FilenameFacts.
Import Py Text.

Lemma index_of_app_none (c : ascii) (s1 s2 : string) :
  index_of c s1 = None -> index_of c s2 = None ->
  index_of c (s1 ++ s2) = None.
Proof.
  intros H1 H2. induction s1 as [|a s1 IH]; simpl in *; [exact H2|].
  destruct (Ascii.eqb a c); [discriminate|].
  destruct (index_of c s1); [discriminate|]. now rewrite IH.
Qed.

Lemma slug_without_slash (s : string) :
  str_forallb slug_char s = true -> no_slash s.
Proof.
  unfold no_slash. induction s as [|a s IH]; simpl; [reflexivity|].
  intros H. apply andb_true_iff in H. destruct H as [Ha Hs].
  destruct (Ascii.eqb_spec a "/") as [->|_]; [discriminate|].
  now rewrite IH.
Qed.

Lemma index_of_rindex_of (c : ascii) (s : string) :
  index_of c s = None <-> rindex_of c s = None.
Proof.
  induction s as [|a s IH]; simpl; [tauto|].
  destruct (Ascii.eqb a c).
  - split; [discriminate|].
    destruct (rindex_of c s); discriminate.
  - destruct (index_of c s), (rindex_of c s); split; try discriminate;
      try reflexivity; intros _; exfalso;
      destruct IH as [H1 H2]; first [now discriminate H1 | now discriminate H2].
Qed.
End FilenameFacts.

Lemma filename_without_slash (lib : Extractor.Lib) (req : Extractor.Response)
    (fn : string) :
  (forall t e, Extractor.guess_extension lib t = Some e -> Text.no_slash e) ->
  Extractor.get_filename_from_url lib req = Py.Return (Some fn) ->
  Text.no_slash fn.
Proof.
  intros Hext. unfold Extractor.get_filename_from_url.
  assert (Hslug : forall v, Text.no_slash (Extractor.slugify lib v)).
  { intros v. apply slug_without_slash. apply slugify_chars. }
  assert (Htail : forall result,
            (let '(f_name, f_ext) := Py.splitext result in
             if negb (Py.truthy_str f_ext) then
               match Extractor.headers_getitem (Extractor.headers req)
                       "content-type" with
               | Py.Raise e => Py.Raise e
               | Py.Return ct =>
                   Py.Return
                     (Some (Extractor.slugify lib f_name
                            ++ Extractor.format_optional
                                 (Extractor.guess_extension lib
                                    (Py.strip (Py.partition_head ct ";"))))
                        %string)
               end
             else
               Py.Return
                 (Some (Extractor.slugify lib f_name ++ "."
                        ++ Extractor.slugify lib f_ext)%string))
            = Py.Return (Some fn) -> Text.no_slash fn).
  { intros result. destruct (Py.splitext result) as [f_name f_ext].
    destruct (negb (Py.truthy_str f_ext)).
    - destruct (Extractor.headers_getitem _ _) as [ct|e]; [|discriminate].
      intros H. inv H. apply index_of_app_none; [apply Hslug|].
      destruct (Extractor.guess_extension lib _) as [e|] eqn:He;
        [exact (Hext _ _ He)|reflexivity].
    - intros H. inv H. apply index_of_app_none; [apply Hslug|].
      apply (index_of_app_none _ "."); [reflexivity|apply Hslug]. }
  destruct (Py.truthy_int _).
  - destruct (Py.list_index _ 1) as [result|e]; [|discriminate].
    apply Htail.
  - destruct (Extractor.headers_get _ _) as [cd|]; [|discriminate].
    destruct (Py.re_findall_filename_first cd) as [f0|]; [|discriminate].
    apply Htail.
Qed.

(** The file name [get_filename_from_url] derives holds no slash, provided
    no extension of the MIME table does: whatever the URL and the headers
    say, the name cannot lead out of the directory it is joined to. *)
Theorem derived_filename_has_no_slash :
  forall (lib : Extractor.Lib) (req : Extractor.Response) (fn : string),
    (forall t e, Extractor.guess_extension lib t = Some e -> Text.no_slash e) ->
    Extractor.get_filename_from_url lib req = Py.Return (Some fn) ->
    Text.no_slash fn.
Proof.
  intros lib req fn. exact (filename_without_slash lib req fn).
Qed.

(** The theorem at work on a URL whose last segment is made of dots and
    encoded slashes. *)
Lemma derived_filename_has_no_slash_witness :
  Extractor.get_filename_from_url Scenario.lib
    (Scenario.png "http://a.com/..%2F..%2Fetc%2Fpasswd.png" "picture")
  = Py.Return (Some "2f2fetc2fpasswd.png")
  /\ Text.no_slash "2f2fetc2fpasswd.png".
Proof.
  assert (H : Extractor.get_filename_from_url Scenario.lib
                (Scenario.png "http://a.com/..%2F..%2Fetc%2Fpasswd.png"
                   "picture")
              = Py.Return (Some "2f2fetc2fpasswd.png"))
    by (vm_compute; reflexivity).
  split; [exact H|].
  apply (derived_filename_has_no_slash Scenario.lib _ _ ) with (2 := H).
  intros t e. unfold Scenario.lib. simpl.
  destruct (String.eqb t "image/png"); [intros He; inv He; reflexivity|].
  destruct (String.eqb t "image/jpeg"); [intros He; inv He; reflexivity|].
  destruct (String.eqb t "image/gif"); [intros He; inv He; reflexivity|].
  discriminate.
Defined.

(** The failures of [get_filename_from_url].  It raises [IndexError]
    exactly when the URL holds no slash, and otherwise only [KeyError] for
    a missing [content-type] header; and it returns [None] only for a URL
    that starts with a slash. *)
Theorem derived_filename_failures :
  forall (lib : Extractor.Lib) (req : Extractor.Response),
    (Py.index_of "/" (Extractor.url req) = None <->
     Extractor.get_filename_from_url lib req = Py.Raise Py.IndexError)
    /\ (forall e,
          Extractor.get_filename_from_url lib req = Py.Raise e ->
          e = Py.IndexError
          \/ (e = Py.KeyError "content-type"
              /\ Extractor.headers_get (Extractor.headers req) "content-type"
                 = None))
    /\ (Extractor.get_filename_from_url lib req = Py.Return None ->
        Py.startswith (Extractor.url req) "/" = true).
Proof.
  intros lib req.
  assert (Htail : forall result e,
            (let '(f_name, f_ext) := Py.splitext result in
             if negb (Py.truthy_str f_ext) then
               match Extractor.headers_getitem (Extractor.headers req)
                       "content-type" with
               | Py.Raise e => Py.Raise e
               | Py.Return ct =>
                   Py.Return
                     (Some (Extractor.slugify lib f_name
                            ++ Extractor.format_optional
                                 (Extractor.guess_extension lib
                                    (Py.strip (Py.partition_head ct ";"))))
                        %string)
               end
             else
               Py.Return
                 (Some (Extractor.slugify lib f_name ++ "."
                        ++ Extractor.slugify lib f_ext)%string))
            = Py.Raise e ->
            e = Py.KeyError "content-type"
            /\ Extractor.headers_get (Extractor.headers req) "content-type"
               = None).
  { intros result e. destruct (Py.splitext result) as [f_name f_ext].
    destruct (negb (Py.truthy_str f_ext)); [|discriminate].
    unfold Extractor.headers_getitem.
    destruct (Extractor.headers_get _ "content-type"); [discriminate|].
    intros H. inv H. now split. }
  assert (Hnone : forall result,
            (let '(f_name, f_ext) := Py.splitext result in
             if negb (Py.truthy_str f_ext) then
               match Extractor.headers_getitem (Extractor.headers req)
                       "content-type" with
               | Py.Raise e => Py.Raise e
               | Py.Return ct =>
                   Py.Return
                     (Some (Extractor.slugify lib f_name
                            ++ Extractor.format_optional
                                 (Extractor.guess_extension lib
                                    (Py.strip (Py.partition_head ct ";"))))
                        %string)
               end
             else
               Py.Return
                 (Some (Extractor.slugify lib f_name ++ "."
                        ++ Extractor.slugify lib f_ext)%string))
            <> Py.Return None).
  { intros result. destruct (Py.splitext result) as [f_name f_ext].
    destruct (negb (Py.truthy_str f_ext)); [|discriminate].
    destruct (Extractor.headers_getitem _ _); discriminate. }
  assert (Hslash : Py.index_of "/" (Extractor.url req) <> None ->
                   forall e, Extractor.get_filename_from_url lib req
                             = Py.Raise e ->
                   e = Py.KeyError "content-type"
                   /\ Extractor.headers_get (Extractor.headers req)
                        "content-type" = None).
  { intros Hsome e. unfold Extractor.get_filename_from_url.
    destruct (Py.truthy_int _).
    - unfold Py.rsplit1.
      destruct (Py.rindex_of "/" (Extractor.url req)) as [j|] eqn:Hr.
      + simpl. apply Htail.
      + apply index_of_rindex_of in Hr. contradiction.
    - destruct (Extractor.headers_get _ "content-disposition") as [cd|];
        [|discriminate].
      destruct (Py.re_findall_filename_first cd); [|discriminate].
      apply Htail. }
  split; [split|split].
  - intros Hn. now apply filename_from_url_without_slash.
  - intros Hraise.
    destruct (Py.index_of "/" (Extractor.url req)) eqn:Hi; [|reflexivity].
    assert (Hs : Some n <> None) by discriminate.
    destruct (Hslash Hs _ Hraise) as [He _]. discriminate.
  - intros e Hraise.
    destruct (Py.index_of "/" (Extractor.url req)) eqn:Hi.
    + right. apply Hslash; [discriminate|exact Hraise].
    + left. rewrite filename_from_url_without_slash in Hraise by exact Hi.
      now inv Hraise.
  - unfold Extractor.get_filename_from_url.
    destruct (Py.truthy_int (Py.str_find (Extractor.url req) "/")) eqn:Ht.
    + destruct (Py.list_index _ 1) as [result|e]; [|discriminate].
      intros H. now apply Hnone in H.
    + intros _. unfold Py.truthy_int, Py.str_find in Ht.
      apply negb_false_iff, Z.eqb_eq in Ht.
      destruct (Extractor.url req) as [|a s]; [discriminate|].
      simpl in *. destruct (Ascii.eqb a "/"); [reflexivity|].
      destruct (Py.index_of "/" s); simpl in Ht; lia.
Qed.

(** [_download_image] hands back a response only when its status is 200.
    It calls the transport once with certificate verification, and a second
    time, without verification, exactly when the first call raised an SSL
    error; it touches neither dictionary. *)
Theorem download_image_contract :
  forall (self : Extractor.ImageDownloader) (w : Extractor.World)
         (image_url : string) (st : Extractor.state),
    (forall img_response,
        fst (Extractor._download_image self w image_url st)
        = Py.Return img_response ->
        Extractor.status_code img_response = 200%Z)
    /\ (exists retry,
          Extractor.trace (snd (Extractor._download_image self w image_url st))
          = Extractor.trace st
            ++ Extractor.EGet image_url true
                 (Extractor._downloading_timeout self) :: retry
          /\ (retry = []
              \/ retry = [Extractor.EPrint Extractor.MsgIncorrectCertificate;
                          Extractor.EGet image_url false
                            (Extractor._downloading_timeout self)])
          /\ (retry <> [] <->
              exists e,
                Extractor.requests_get w (Extractor.trace st) image_url true
                  (Extractor._downloading_timeout self) = Py.Raise e
                /\ Py.is_SSLError e = true))
    /\ Extractor.replacement_mapping
         (snd (Extractor._download_image self w image_url st))
       = Extractor.replacement_mapping st
    /\ Extractor.hash_to_path_mapping
         (snd (Extractor._download_image self w image_url st))
       = Extractor.hash_to_path_mapping st.
Proof.
  intros self w image_url st.
  assert (Hcheck : forall r s,
            snd (Extractor.check_status r s) = s
            /\ forall r', fst (Extractor.check_status r s) = Py.Return r' ->
                          Extractor.status_code r' = 200%Z).
  { intros r s. unfold Extractor.check_status.
    destruct (Z.eqb_spec (Extractor.status_code r) 200) as [H200|Hne]; simpl.
    - split; [reflexivity|]. intros r' Hr. now inv Hr.
    - split; [reflexivity|]. discriminate. }
  unfold Extractor._download_image.
  destruct (Extractor.requests_get w (Extractor.trace st) image_url true _)
    as [resp|e] eqn:Hfirst.
  - destruct (Hcheck resp
                (Extractor.emit
                   (Extractor.EGet image_url true
                      (Extractor._downloading_timeout self)) st))
      as [Hst H200].
    rewrite Hst. split; [exact H200|]. split; [|split; reflexivity].
    exists []. split; [reflexivity|]. split; [now left|].
    split; [intros H; now elim H|].
    intros (e & He & _). discriminate.
  - destruct (Py.is_SSLError e) eqn:Hssl.
    + assert (Hretry :
        forall o : Py.res Extractor.Response * Extractor.state,
          snd o
          = Extractor.emit
              (Extractor.EGet image_url false
                 (Extractor._downloading_timeout self))
              (Extractor.emit
                 (Extractor.EPrint Extractor.MsgIncorrectCertificate)
                 (Extractor.emit
                    (Extractor.EGet image_url true
                       (Extractor._downloading_timeout self)) st)) ->
          (exists retry,
             Extractor.trace (snd o)
             = Extractor.trace st
               ++ Extractor.EGet image_url true
                    (Extractor._downloading_timeout self) :: retry
             /\ (retry = []
                 \/ retry
                    = [Extractor.EPrint Extractor.MsgIncorrectCertificate;
                       Extractor.EGet image_url false
                         (Extractor._downloading_timeout self)])
             /\ (retry <> [] <->
                 exists e0,
                   @Py.Raise Extractor.Response e = Py.Raise e0
                   /\ Py.is_SSLError e0 = true))
          /\ Extractor.replacement_mapping (snd o)
             = Extractor.replacement_mapping st
          /\ Extractor.hash_to_path_mapping (snd o)
             = Extractor.hash_to_path_mapping st).
      { intros o ->. split; [|split; reflexivity].
        eexists. split; [simpl; rewrite <- !app_assoc; reflexivity|].
        split; [now right|].
        split; [intros _; now exists e|discriminate]. }
      destruct (Extractor.requests_get w _ image_url false _) as [resp|e'].
      * match goal with
        | |- context [Extractor.check_status resp ?s] =>
            destruct (Hcheck resp s) as [Hst H200]
        end.
        split; [exact H200|]. apply Hretry. exact Hst.
      * split; [discriminate|]. now apply Hretry.
    + split; [discriminate|]. split; [|split; reflexivity].
      exists []. split; [reflexivity|]. split; [now left|].
      split; [intros H; now elim H|].
      intros (e0 & He0 & Hs0). inv He0. congruence.
Qed.

(* ================================================================== *)
(** * Further properties: runs of the legacy script *)
(* ================================================================== *)

Section LoopMembership.
Import Py Loop.
Context {St : Type} (body : nat -> string -> St -> outcome St).

(** As [for_enumerate_outcome], for a body that is only known to behave on
    the elements of the list. *)
Lemma for_enumerate_outcome_in (P : St -> Prop) (R : exn -> St -> Prop)
    (xs : list string) :
  (forall n x st, In x xs -> P st ->
      match body n x st with
      | Next st' => P st'
      | Raised e st' => R e st'
      end) ->
  forall n st, P st ->
    match for_enumerate body n xs st with
    | Next st' => P st'
    | Raised e st' => R e st'
    end.
Proof.
  intros Hbody.
  assert (H : forall l, incl l xs -> forall n st, P st ->
                match for_enumerate body n l st with
                | Next st' => P st'
                | Raised e st' => R e st'
                end).
  { induction l as [|x l IH]; intros Hincl n st HP; simpl; [exact HP|].
    assert (Hx : In x xs) by (apply Hincl; now left).
    specialize (Hbody n x st Hx HP).
    destruct (body n x st) as [st'|e st']; [|exact Hbody].
    apply IH; [|exact Hbody]. intros y Hy. apply Hincl. now right. }
  apply H. apply incl_refl.
Qed.
End LoopMembership.

Section LegacyPassFacts.
Import Py Loop Extractor Legacy Text.
Variables (lib : Lib) (self : ImageDownloader) (w : World).

(** [_correct_paths] either keeps the name and the path or prefixes the
    name with the hash of the reference. *)
Lemma legacy_correct_paths_cases (m : list (string * string))
    (document_img_path img_url img_filename : string) :
  _correct_paths self m document_img_path img_url img_filename
  = (img_filename, document_img_path)
  \/ _correct_paths self m document_img_path img_url img_filename
     = ((Hashlib.md5_hexdigest img_url ++ "_" ++ img_filename)%string,
        path_join (public_or_dir self)
          (Hashlib.md5_hexdigest img_url ++ "_" ++ img_filename)).
Proof.
  unfold _correct_paths.
  induction m as [|[u p] m IH]; simpl; [now left|].
  destruct (String.eqb document_img_path p && negb (String.eqb img_url u));
    [now right|exact IH].
Qed.

(** What [store_image] leaves behind for a file name that is a string,
    whether the write succeeds or not. *)
Lemma legacy_store_image_state (img_url img_filename image_content : string)
    (st : state) :
  exists n,
    (n = img_filename
     \/ n = (Hashlib.md5_hexdigest img_url ++ "_" ++ img_filename)%string)
    /\ outcome_state
         (store_image self w img_url (Some img_filename) image_content st)
       = {| replacement_mapping :=
              dict_setdefault String.eqb (replacement_mapping st) img_url
                (path_join (public_or_dir self) n);
            hash_to_path_mapping := hash_to_path_mapping st;
            trace :=
              trace st
              ++ [EPrint (MsgWillBeWritten (path_join (_images_dir self) n));
                  EOpenWrite (path_join (_images_dir self) n)
                    image_content] |}.
Proof.
  unfold store_image.
  destruct (legacy_correct_paths_cases (replacement_mapping st)
              (path_join (public_or_dir self) img_filename) img_url
              img_filename) as [Hc|Hc]; rewrite Hc;
    [exists img_filename; split; [now left|]
    |eexists; split; [now right|]];
    unfold _write_image;
    destruct (open_write _ _ _ _);
    unfold outcome_state, emit, set_replacement_mapping;
    cbn [trace replacement_mapping hash_to_path_mapping];
    rewrite <- app_assoc; reflexivity.
Qed.

(** The events of a pass: every call of the transport is for the reference
    of the pass, which then has an allowed prefix and is outside the skip
    list, and carries the configured timeout. *)
Lemma legacy_iteration_gets (img_count img_num : nat) (img_url : string)
    (st : state) :
  exists evs,
    trace (outcome_state (iteration lib self w img_count img_num img_url st))
    = trace st ++ evs
    /\ forall u v t, In (EGet u v t) evs ->
         u = img_url /\ t = _downloading_timeout self
         /\ _is_allowed_url_prefix img_url = true
         /\ str_in img_url (_skip_list self) = false.
Proof.
  unfold iteration.
  destruct (dict_mem _ _ _).
  { exists []. simpl. rewrite app_nil_r. split; [reflexivity|]. intros ? ? ? []. }
  destruct (str_in img_url (_skip_list self)) eqn:Hskip.
  { eexists. split; [reflexivity|]. intros u v t [H|[]]. discriminate. }
  destruct (_is_allowed_url_prefix img_url) eqn:Hallowed; simpl.
  2: { eexists. split; [reflexivity|]. intros u v t [H|[]]. discriminate. }
  destruct (_download_image _ _ _ _) as [r st1] eqn:Hd.
  assert (Hst1 : exists retry,
            trace st1
            = trace st
              ++ EPrint (MsgDownloading (S img_num) img_count img_url)
                 :: EGet img_url true (_downloading_timeout self) :: retry
            /\ (retry = []
                \/ retry = [EPrint MsgIncorrectCertificate;
                            EGet img_url false (_downloading_timeout self)])).
  { revert Hd. unfold _download_image, check_status.
    destruct (requests_get w _ img_url true _) as [resp|e].
    - destruct (negb _); intros H; inv H; exists []; simpl;
        rewrite <- app_assoc; auto.
    - destruct (is_SSLError e).
      + destruct (requests_get w _ img_url false _) as [resp|e'].
        * destruct (negb _); intros H; inv H; eexists; simpl;
            rewrite <- !app_assoc; simpl; auto.
        * intros H; inv H. eexists. simpl. rewrite <- !app_assoc. simpl. auto.
      + intros H; inv H. exists []. simpl. rewrite <- app_assoc. auto. }
  destruct Hst1 as (retry & Htr1 & Hretry).
  assert (Hgets1 : forall u v t,
            In (EGet u v t)
               (EPrint (MsgDownloading (S img_num) img_count img_url)
                :: EGet img_url true (_downloading_timeout self) :: retry) ->
            u = img_url /\ t = _downloading_timeout self
            /\ true = true /\ false = false).
  { intros u v t [H|[H|H]]; [discriminate|inv H; auto|].
    destruct Hretry as [->| ->]; [destruct H|].
    destruct H as [H|[H|[]]]; [discriminate|inv H; auto]. }
  assert (Hfinish : forall o : outcome state,
            (exists more, trace (outcome_state o) = trace st1 ++ more
                          /\ forall u v t, ~ In (EGet u v t) more) ->
            exists evs,
              trace (outcome_state o) = trace st ++ evs
              /\ forall u v t, In (EGet u v t) evs ->
                   u = img_url /\ t = _downloading_timeout self
                   /\ true = true /\ false = false).
  { intros o (more & Hmore & Hnone). eexists. split.
    - rewrite Hmore, Htr1, <- app_assoc. reflexivity.
    - intros u v t Hin. apply in_app_or in Hin. destruct Hin as [Hin|Hin].
      + exact (Hgets1 u v t Hin).
      + exfalso. exact (Hnone u v t Hin). }
  destruct r as [resp|e].
  - destruct (get_filename_from_url lib resp) as [fn|e].
    + apply Hfinish.
      assert (Hstore : forall f s,
                exists more,
                  trace (outcome_state
                           (store_image self w img_url f (content resp) s))
                  = trace s ++ more
                  /\ forall u v t, ~ In (EGet u v t) more).
      { intros [f|] s.
        - destruct (legacy_store_image_state img_url f (content resp) s)
            as (n & _ & ->). simpl. eexists. split; [reflexivity|].
          intros u v t [H|[H|[]]]; discriminate.
        - exists []. simpl. rewrite app_nil_r. split; [reflexivity|].
          intros ? ? ? []. }
      unfold deduplicate_and_store.
      destruct (_deduplication self); [|apply Hstore].
      destruct (dict_get _ _ _) as [[existed|]|].
      * exists []. simpl. rewrite app_nil_r. split; [reflexivity|].
        intros ? ? ? [].
      * match goal with |- context [store_image _ _ _ ?f _ ?s] =>
          destruct (Hstore f s) as (more & Hm & Hn) end.
        exists more. split; [exact Hm|exact Hn].
      * match goal with |- context [store_image _ _ _ ?f _ ?s] =>
          destruct (Hstore f s) as (more & Hm & Hn) end.
        exists more. split; [exact Hm|exact Hn].
    + apply Hfinish. exists []. simpl. rewrite app_nil_r.
      split; [reflexivity|]. intros ? ? ? [].
  - apply Hfinish.
    destruct (is_Exception e);
      [destruct (_skip_all_errors self)|]; simpl.
    + eexists. split; [reflexivity|]. intros u v t [H|[]]. discriminate.
    + exists []. rewrite app_nil_r. split; [reflexivity|]. intros ? ? ? [].
    + exists []. rewrite app_nil_r. split; [reflexivity|]. intros ? ? ? [].
Qed.

(** The dictionary after a pass, whatever its outcome: it is the one before
    it, or has one more entry, for the reference of the pass. *)
Lemma legacy_iteration_mapping_any (img_count img_num : nat)
    (img_url : string) (st : state) :
  replacement_mapping
    (outcome_state (iteration lib self w img_count img_num img_url st))
  = replacement_mapping st
  \/ (_is_allowed_url_prefix img_url = true
      /\ str_in img_url (_skip_list self) = false
      /\ exists p,
           replacement_mapping
             (outcome_state
                (iteration lib self w img_count img_num img_url st))
           = replacement_mapping st ++ [(img_url, p)]).
Proof.
  unfold iteration.
  destruct (dict_mem _ _ _) eqn:Hmem; [now left|].
  destruct (str_in _ _) eqn:Hskip; [now left|].
  destruct (_is_allowed_url_prefix img_url) eqn:Hallowed; simpl;
    [|now left].
  destruct (_download_image _ _ _ _) as [r st1] eqn:Hd.
  apply legacy_download_image_state in Hd. destruct Hd as (Hm1 & _ & _).
  simpl in Hm1.
  destruct r as [resp|e].
  - destruct (get_filename_from_url lib resp) as [fn|e]; [|now left].
    assert (Hstore : forall f s,
              replacement_mapping s = replacement_mapping st ->
              replacement_mapping
                (outcome_state (store_image self w img_url f (content resp) s))
              = replacement_mapping st
              \/ exists p,
                   replacement_mapping
                     (outcome_state
                        (store_image self w img_url f (content resp) s))
                   = replacement_mapping st ++ [(img_url, p)]).
    { intros [f|] s Hs; [|now left].
      destruct (legacy_store_image_state img_url f (content resp) s)
        as (n & _ & ->). simpl. right.
      rewrite Hs, dict_setdefault_fresh by exact Hmem. eexists. reflexivity. }
    unfold deduplicate_and_store.
    assert (Hwrap : forall o : outcome state,
              (replacement_mapping (outcome_state o) = replacement_mapping st
               \/ exists p, replacement_mapping (outcome_state o)
                            = replacement_mapping st ++ [(img_url, p)]) ->
              replacement_mapping (outcome_state o) = replacement_mapping st
              \/ (true = true /\ false = false
                  /\ exists p, replacement_mapping (outcome_state o)
                               = replacement_mapping st ++ [(img_url, p)])).
    { intros o [H|H]; [now left|right; auto]. }
    apply Hwrap.
    destruct (_deduplication self); [|now apply Hstore].
    destruct (dict_get _ _ _) as [[existed|]|].
    + right. simpl. rewrite Hm1, dict_setdefault_fresh by exact Hmem.
      eexists. reflexivity.
    + now apply Hstore.
    + now apply Hstore.
  - left. destruct (is_Exception e); [destruct (_skip_all_errors self)|];
      simpl; exact Hm1.
Qed.
End LegacyPassFacts.

(** The skip-list law and its companions on the legacy script.  Whatever the
    outcome of a run, every key of the dictionary is a reference of the
    input list that has an allowed prefix and is outside the skip list, and
    every call of the transport was made for such a reference, with the
    configured timeout: nothing is fetched for a skipped reference. *)
Theorem legacy_only_listed_unskipped_references :
  forall (lib : Extractor.Lib) (self : Extractor.ImageDownloader)
         (w : Extractor.World) (images : list string),
    (forall k v,
        In (k, v)
           (Extractor.replacement_mapping
              (Loop.outcome_state (Extractor.download_images lib self w images))) ->
        In k images
        /\ Extractor._is_allowed_url_prefix k = true
        /\ Py.str_in k (Extractor._skip_list self) = false)
    /\ (forall u verify t,
          In (Extractor.EGet u verify t)
             (Extractor.trace
                (Loop.outcome_state
                   (Extractor.download_images lib self w images))) ->
          In u images
          /\ Extractor._is_allowed_url_prefix u = true
          /\ Py.str_in u (Extractor._skip_list self) = false
          /\ t = Extractor._downloading_timeout self).
Proof.
  intros lib self w images.
  set (P := fun st : Extractor.state =>
              (forall k v, In (k, v) (Extractor.replacement_mapping st) ->
                 In k images
                 /\ Extractor._is_allowed_url_prefix k = true
                 /\ Py.str_in k (Extractor._skip_list self) = false)
              /\ (forall u verify t, In (Extractor.EGet u verify t)
                                        (Extractor.trace st) ->
                  In u images
                  /\ Extractor._is_allowed_url_prefix u = true
                  /\ Py.str_in u (Extractor._skip_list self) = false
                  /\ t = Extractor._downloading_timeout self)).
  assert (Hinit : P (Extractor.initial_state self)).
  { split; [intros k v []|]. intros u v t [H|[]]. discriminate. }
  assert (Hrun :
    match Loop.for_enumerate
            (Extractor.iteration lib self w (List.length images)) 0 images
            (Extractor.initial_state self) with
    | Loop.Next st' => P st'
    | Loop.Raised _ st' => P st'
    end).
  { apply (for_enumerate_outcome_in _ P (fun _ => P)); [|exact Hinit].
    intros n x st Hx [Hkeys Hgets].
    assert (HP : P (Loop.outcome_state
                      (Extractor.iteration lib self w (List.length images)
                         n x st))).
    { split.
      - intros k v Hin.
        destruct (legacy_iteration_mapping_any lib self w (List.length images)
                    n x st) as [Hm|(Ha & Hs & p & Hm)];
          rewrite Hm in Hin; [now apply (Hkeys k v)|].
        apply in_app_or in Hin. destruct Hin as [Hin|[Hin|[]]];
          [now apply (Hkeys k v)|]. inv Hin. auto.
      - intros u v t Hin.
        destruct (legacy_iteration_gets lib self w (List.length images) n x st)
          as (evs & Htr & Hevs).
        rewrite Htr in Hin. apply in_app_or in Hin.
        destruct Hin as [Hin|Hin]; [now apply (Hgets u v t)|].
        destruct (Hevs u v t Hin) as (-> & -> & Ha & Hs). auto. }
    destruct (Extractor.iteration lib self w (List.length images) n x st);
      exact HP. }
  assert (Hout : P (Loop.outcome_state
                      (Extractor.download_images lib self w images))).
  { unfold Extractor.download_images.
    destruct (Extractor.os_makedirs w _) as [e|].
    - destruct (Py.is_FileExistsError e); [|exact Hinit].
      destruct (Loop.for_enumerate _ 0 images _); exact Hrun.
    - destruct (Loop.for_enumerate _ 0 images _); exact Hrun. }
  exact Hout.
Qed.

(* ================================================================== *)
(** * Further properties: what the legacy script writes, and where *)
(* ================================================================== *)

Section DigestFacts.
Import Py Text.

Lemma le_bytes_range (k : nat) (n : Z) :
  Forall (fun b => (0 <= b < 256)%Z) (Hashlib.le_bytes k n).
Proof.
  revert n. induction k as [|k IH]; intros n; simpl; constructor; [|apply IH].
  change 255%Z with (Z.ones 8). rewrite Z.land_ones by lia.
  apply Z.mod_pos_bound. reflexivity.
Qed.

Lemma hex_digit_not_slash (n : Z) :
  (0 <= n < 16)%Z -> Ascii.eqb (Hashlib.hex_digit n) "/" = false.
Proof.
  intros Hn.
  assert (Hall : forallb
                   (fun k => negb (Ascii.eqb
                                     (Hashlib.hex_digit (Z.of_nat k)) "/"))
                   (seq 0 16) = true) by reflexivity.
  rewrite forallb_forall in Hall.
  specialize (Hall (Z.to_nat n)). rewrite Z2Nat.id in Hall by lia.
  apply negb_true_iff, Hall, in_seq. lia.
Qed.

Lemma hex_of_bytes_no_slash (bs : list Z) :
  Forall (fun b => (0 <= b < 256)%Z) bs ->
  no_slash (Hashlib.hex_of_bytes bs).
Proof.
  unfold no_slash. induction 1 as [|b bs Hb _ IH]; simpl; [reflexivity|].
  rewrite !hex_digit_not_slash, IH; [reflexivity| |].
  - change 15%Z with (Z.ones 4). rewrite Z.land_ones by lia.
    apply Z.mod_pos_bound. reflexivity.
  - rewrite Z.shiftr_div_pow2 by lia. change (2 ^ 4)%Z with 16%Z.
    split; [apply Z.div_pos; lia|apply Z.div_lt_upper_bound; lia].
Qed.

Lemma md5_hexdigest_no_slash (s : string) :
  no_slash (Hashlib.md5_hexdigest s).
Proof.
  unfold Hashlib.md5_hexdigest, Hashlib.md5_digest_bytes.
  destruct (fold_left Hashlib.md5_block _ Hashlib.md5_init) as [[[a b] c] d].
  apply hex_of_bytes_no_slash.
  repeat (apply Forall_app; split); apply le_bytes_range.
Qed.

Lemma no_slash_not_absolute (n : string) :
  no_slash n -> startswith n "/" = false.
Proof.
  unfold no_slash. destruct n as [|a n]; simpl; [reflexivity|].
  rewrite andb_true_r. destruct (Ascii.eqb a "/"); [discriminate|reflexivity].
Qed.
End DigestFacts.

Section LegacyStoreFacts.
Import Py Loop Extractor Legacy LegacyStore Text.
Variables (lib : Lib) (self : ImageDownloader) (w : World).

Lemma in_writes (tr : list event) (p d : string) :
  In (p, d) (writes tr) <-> In (EOpenWrite p d) tr.
Proof.
  unfold writes. rewrite in_flat_map. split.
  - intros (ev & Hev & Hin). destruct ev; simpl in Hin; try contradiction.
    destruct Hin as [Hin|[]]. now inv Hin.
  - intros Hin. exists (EOpenWrite p d). split; [exact Hin|now left].
Qed.

Lemma writes_of_others (rest : list event) :
  Forall (fun ev => is_write ev = false) rest -> writes rest = [].
Proof.
  induction 1 as [|ev rest Hev _ IH]; [reflexivity|].
  unfold writes in *. simpl. rewrite IH.
  destruct ev; simpl in *; try reflexivity. discriminate.
Qed.

Lemma legacy_download_image_writes (image_url : string) (st : state) :
  forall r st', _download_image self w image_url st = (r, st') ->
    replacement_mapping st' = replacement_mapping st
    /\ hash_to_path_mapping st' = hash_to_path_mapping st
    /\ writes (trace st') = writes (trace st).
Proof.
  intros r st' Hd. apply legacy_download_image_state in Hd.
  destruct Hd as (Hm & Hh & rest & Htr & Hrest).
  repeat split; [exact Hm|exact Hh|].
  rewrite Htr. unfold writes at 1. rewrite flat_map_app. simpl.
  fold (writes rest). fold (writes (trace st)).
  now rewrite (writes_of_others _ Hrest), app_nil_r.
Qed.

(** The three ways through [deduplicate_and_store]: the content is known
    and nothing is written; the file name is [None] and the join raises;
    the file is stored. *)
Lemma legacy_deduplicate_and_store_cases (img_url : string)
    (img_filename : option string) (image_content : string) (st : state) :
  let st' :=
    outcome_state
      (deduplicate_and_store self w img_url img_filename image_content st) in
  let h := Hashlib.sha256_digest image_content in
  (exists existed,
     _deduplication self = true
     /\ dict_get String.eqb (hash_to_path_mapping st) h = Some (Some existed)
     /\ replacement_mapping st'
        = dict_setdefault String.eqb (replacement_mapping st) img_url
            (path_join (public_or_dir self) existed)
     /\ hash_to_path_mapping st' = hash_to_path_mapping st
     /\ writes (trace st') = writes (trace st))
  \/ ((_deduplication self = true ->
       forall existed,
         dict_get String.eqb (hash_to_path_mapping st) h
         <> Some (Some existed))
      /\ hash_to_path_mapping st' = table_after self h img_filename st
      /\ ((img_filename = None
           /\ replacement_mapping st' = replacement_mapping st
           /\ writes (trace st') = writes (trace st))
          \/ exists fn n,
               img_filename = Some fn
               /\ (n = fn
                   \/ n = (Hashlib.md5_hexdigest img_url ++ "_" ++ fn)%string)
               /\ replacement_mapping st'
                  = dict_setdefault String.eqb (replacement_mapping st)
                      img_url (path_join (public_or_dir self) n)
               /\ writes (trace st')
                  = writes (trace st)
                    ++ [(path_join (_images_dir self) n, image_content)])).
Proof.
  intros st' h.
  assert (Hstore : forall s,
            replacement_mapping s = replacement_mapping st ->
            trace s = trace st ->
            let s' :=
              outcome_state
                (store_image self w img_url img_filename image_content s) in
            hash_to_path_mapping s' = hash_to_path_mapping s
            /\ ((img_filename = None
                 /\ replacement_mapping s' = replacement_mapping st
                 /\ writes (trace s') = writes (trace st))
                \/ exists fn n,
                     img_filename = Some fn
                     /\ (n = fn
                         \/ n = (Hashlib.md5_hexdigest img_url ++ "_" ++ fn)
                                  %string)
                     /\ replacement_mapping s'
                        = dict_setdefault String.eqb (replacement_mapping st)
                            img_url (path_join (public_or_dir self) n)
                     /\ writes (trace s')
                        = writes (trace st)
                          ++ [(path_join (_images_dir self) n,
                               image_content)])).
  { intros s Hm Ht s'. subst s'. destruct img_filename as [fn|].
    - destruct (legacy_store_image_state self w img_url fn image_content s)
        as (n & Hn & ->). cbn [hash_to_path_mapping replacement_mapping trace].
      split; [reflexivity|]. right. exists fn, n.
      split; [reflexivity|]. split; [exact Hn|]. rewrite Hm, Ht.
      split; [reflexivity|].
      unfold writes. rewrite flat_map_app. reflexivity.
    - simpl. split; [reflexivity|]. left. rewrite Hm, Ht. auto. }
  subst st'. unfold deduplicate_and_store, table_after.
  destruct (_deduplication self).
  - fold h. destruct (dict_get String.eqb (hash_to_path_mapping st) h)
      as [[existed|]|] eqn:Hget.
    + left. exists existed. simpl. auto.
    + right. split; [intros _ existed; discriminate|].
      match goal with |- context [store_image _ _ _ _ _ ?s] =>
        destruct (Hstore s eq_refl eq_refl) as [Hh Hrest] end.
      split; [exact Hh|exact Hrest].
    + right. split; [intros _ existed; discriminate|].
      match goal with |- context [store_image _ _ _ _ _ ?s] =>
        destruct (Hstore s eq_refl eq_refl) as [Hh Hrest] end.
      split; [exact Hh|exact Hrest].
  - right. split; [discriminate|].
    destruct (Hstore st eq_refl eq_refl) as [Hh Hrest].
    split; [exact Hh|exact Hrest].
Qed.

(** A pass of the loop either leaves the dictionaries and the writes as
    they were, or ends in [deduplicate_and_store], on a response of the
    transport and the file name derived from it. *)
Lemma legacy_iteration_cases (img_count img_num : nat) (img_url : string)
    (st : state) :
  let st' :=
    outcome_state (iteration lib self w img_count img_num img_url st) in
  (replacement_mapping st' = replacement_mapping st
   /\ hash_to_path_mapping st' = hash_to_path_mapping st
   /\ writes (trace st') = writes (trace st))
  \/ exists resp fn st1,
       get_filename_from_url lib resp = Return fn
       /\ dict_mem String.eqb (replacement_mapping st) img_url = false
       /\ replacement_mapping st1 = replacement_mapping st
       /\ hash_to_path_mapping st1 = hash_to_path_mapping st
       /\ writes (trace st1) = writes (trace st)
       /\ st' = outcome_state
                  (deduplicate_and_store self w img_url fn (content resp)
                     st1).
Proof.
  intros st'. subst st'. unfold iteration.
  destruct (dict_mem _ _ _) eqn:Hmem; [left; auto|].
  assert (Hprint : forall m,
            writes (trace (emit (EPrint m) st)) = writes (trace st)).
  { intros m. simpl. unfold writes. rewrite flat_map_app. simpl.
    now rewrite app_nil_r. }
  destruct (str_in _ _); [left; cbn [outcome_state]; rewrite Hprint; auto|].
  destruct (negb _); [left; cbn [outcome_state]; rewrite Hprint; auto|].
  destruct (_download_image _ _ _ _) as [r st1] eqn:Hd.
  apply legacy_download_image_writes in Hd.
  destruct Hd as (Hm1 & Hh1 & Hw1). rewrite Hprint in Hw1. simpl in Hm1, Hh1.
  destruct r as [resp|e].
  - destruct (get_filename_from_url lib resp) as [fn|e] eqn:Hfn.
    + right. exists resp, fn, st1. auto 10.
    + left. simpl. auto.
  - left. destruct (is_Exception e); [destruct (_skip_all_errors self)|];
      simpl; auto.
    split; [exact Hm1|]. split; [exact Hh1|].
    unfold writes in *. rewrite flat_map_app. simpl. now rewrite app_nil_r.
Qed.

(** A property of the state that every pass preserves holds when
    [download_images] is over, however it ends. *)
Lemma legacy_download_images_invariant (P : state -> Prop)
    (images : list string) :
  P (initial_state self) ->
  (forall n x st, In x images -> P st ->
     P (outcome_state (iteration lib self w (List.length images) n x st))) ->
  P (outcome_state (download_images lib self w images)).
Proof.
  intros Hinit Hstep.
  assert (Hrun :
    match for_enumerate (iteration lib self w (List.length images)) 0 images
            (initial_state self) with
    | Next st' => P st'
    | Raised _ st' => P st'
    end).
  { apply (for_enumerate_outcome_in _ P (fun _ => P)); [|exact Hinit].
    intros n x st Hx HP. specialize (Hstep n x st Hx HP).
    destruct (iteration lib self w (List.length images) n x st); exact Hstep. }
  unfold download_images.
  destruct (os_makedirs w _) as [e|].
  - destruct (is_FileExistsError e); [|exact Hinit].
    destruct (for_enumerate _ 0 images _); exact Hrun.
  - destruct (for_enumerate _ 0 images _); exact Hrun.
Qed.

Lemma in_dict_setdefault (m : list (string * string)) (k v k' v' : string) :
  In (k', v') (dict_setdefault String.eqb m k v) ->
  In (k', v') m \/ v' = v.
Proof.
  unfold dict_setdefault. destruct (dict_mem _ _ _); [now left|].
  intros Hin. apply in_app_or in Hin. destruct Hin as [Hin|[Hin|[]]];
    [now left|right; now inv Hin].
Qed.

Lemma in_dict_set {V : Type} (t : list (string * V)) (k : string) (v : V)
    (k' : string) (v' : V) :
  In (k', v') (dict_set String.eqb t k v) -> In (k', v') t \/ v' = v.
Proof.
  induction t as [|[a b] t IH]; simpl.
  - intros [H|[]]. right. now inv H.
  - destruct (String.eqb a k); simpl.
    + intros [H|H]; [right; now inv H|left; now right].
    + intros [H|H]; [left; now left|].
      destruct (IH H) as [H'|H']; [left; now right|now right].
Qed.

Lemma dict_get_in {V : Type} (t : list (string * V)) (k : string) (v : V) :
  dict_get String.eqb t k = Some v -> exists k', In (k', v) t.
Proof.
  induction t as [|[a b] t IH]; simpl; [discriminate|].
  destruct (String.eqb a k).
  - intros H. inv H. exists a. now left.
  - intros H. destruct (IH H) as (k' & Hk'). exists k'. now right.
Qed.

Lemma dict_get_set {V : Type} (t : list (string * V)) (k : string) (v : V)
    (k' : string) :
  dict_get String.eqb (dict_set String.eqb t k v) k'
  = if String.eqb k k' then Some v else dict_get String.eqb t k'.
Proof.
  induction t as [|[a b] t IH]; simpl.
  - reflexivity.
  - destruct (String.eqb_spec a k) as [->|Hak]; simpl.
    + destruct (String.eqb k k'); reflexivity.
    + destruct (String.eqb_spec a k') as [->|Hak'].
      * destruct (String.eqb_spec k k') as [->|_]; [congruence|reflexivity].
      * exact IH.
Qed.
End LegacyStoreFacts.

Section ContainmentFacts.
Import Py Text.

Lemma startswith_app (a b : string) : startswith (a ++ b) a = true.
Proof.
  induction a as [|c a IH]; simpl; [reflexivity|].
  now rewrite Ascii.eqb_refl, IH.
Qed.

(** Joining a name without a slash to a directory gives a path below the
    directory. *)
Lemma path_join_below (dir n : string) :
  no_slash n -> startswith (path_join dir n) dir = true.
Proof.
  intros Hn. unfold path_join. rewrite (no_slash_not_absolute _ Hn).
  destruct (negb (truthy_str dir) || endswith_slash dir);
    apply startswith_app.
Qed.

Lemma prefixed_name_no_slash (h n : string) :
  no_slash h -> no_slash n -> no_slash (h ++ "_" ++ n).
Proof.
  intros Hh Hn. apply index_of_app_none; [exact Hh|].
  apply (index_of_app_none _ "_"); [reflexivity|exact Hn].
Qed.

Lemma NoDup_snoc {A : Type} (l : list A) (x : A) :
  NoDup l -> ~ In x l -> NoDup (l ++ [x]).
Proof.
  induction 1 as [|a l Ha Hl IH]; intros Hx; simpl.
  - constructor; [intros []|constructor].
  - constructor.
    + intros Hin. apply in_app_or in Hin. destruct Hin as [Hin|[Hin|[]]].
      * now apply Ha.
      * apply Hx. now left.
    + apply IH. intros Hin. apply Hx. now right.
Qed.
End ContainmentFacts.

(** The legacy script writes below the images directory only.  Provided no
    extension of the MIME table holds a slash, every file the run opens for
    writing is the images directory joined with a name without a slash, and
    every document path of the dictionary is the public path (or the
    directory name) joined with such a name: no URL, header or content can
    lead a write elsewhere. *)
Theorem legacy_writes_stay_below_images_dir :
  forall (lib : Extractor.Lib) (self : Extractor.ImageDownloader)
         (w : Extractor.World) (images : list string),
    (forall t e, Extractor.guess_extension lib t = Some e -> Text.no_slash e) ->
    (forall p d,
        In (Extractor.EOpenWrite p d)
           (Extractor.trace
              (Loop.outcome_state
                 (Extractor.download_images lib self w images))) ->
        exists n,
          Text.no_slash n
          /\ p = Py.path_join (Extractor._images_dir self) n
          /\ Py.startswith p (Extractor._images_dir self) = true)
    /\ (forall k v,
          In (k, v)
             (Extractor.replacement_mapping
                (Loop.outcome_state
                   (Extractor.download_images lib self w images))) ->
          exists n,
            Text.no_slash n
            /\ v = Py.path_join (Extractor.public_or_dir self) n).
Proof.
  intros lib self w images Hext.
  set (P := fun st : Extractor.state =>
              (forall p d, In (p, d) (Legacy.writes (Extractor.trace st)) ->
                 exists n, Text.no_slash n
                           /\ p = Py.path_join (Extractor._images_dir self) n)
              /\ (forall k v, In (k, v) (Extractor.replacement_mapping st) ->
                    exists n, Text.no_slash n
                              /\ v = Py.path_join
                                       (Extractor.public_or_dir self) n)
              /\ (forall h n,
                    In (h, Some n) (Extractor.hash_to_path_mapping st) ->
                    Text.no_slash n)).
  assert (HP : P (Loop.outcome_state
                    (Extractor.download_images lib self w images))).
  { apply legacy_download_images_invariant.
    - repeat split; intros ? ? [].
    - intros i x st _ (Hw & Hm & Ht).
      destruct (legacy_iteration_cases lib self w (List.length images) i x st)
        as [(Em & Eh & Ew)|(resp & fn & st1 & Hfn & _ & Em & Eh & Ew & ->)].
      + unfold P. rewrite Em, Eh, Ew. auto.
      + assert (Hname : forall n, fn = Some n -> Text.no_slash n).
        { intros n ->. exact (filename_without_slash lib resp n Hext Hfn). }
        destruct (legacy_deduplicate_and_store_cases self w x fn
                    (Extractor.content resp) st1)
          as [(existed & _ & Hget & Em' & Eh' & Ew')
             |(_ & Eh' & Hrest)].
        * unfold P. rewrite Em', Eh', Ew', Em, Eh, Ew.
          split; [exact Hw|]. split; [|exact Ht].
          intros k v Hin. apply in_dict_setdefault in Hin.
          destruct Hin as [Hin| ->]; [now apply (Hm k v)|].
          rewrite Eh in Hget. apply dict_get_in in Hget.
          destruct Hget as (h & Hh). exists existed. split; [|reflexivity].
          exact (Ht h existed Hh).
        * assert (Htable : forall h n,
                    In (h, Some n)
                       (LegacyStore.table_after self
                          (Hashlib.sha256_digest (Extractor.content resp))
                          fn st1) ->
                    Text.no_slash n).
          { intros h n. unfold LegacyStore.table_after.
            destruct (Extractor._deduplication self); rewrite Eh.
            - intros Hin. apply in_dict_set in Hin.
              destruct Hin as [Hin|Hin]; [exact (Ht h n Hin)|].
              apply Hname. now symmetry.
            - apply Ht. }
          unfold P. rewrite Eh'.
          destruct Hrest as [(_ & Em' & Ew')
                            |(f & n & -> & Hn & Em' & Ew')];
            rewrite Em', Ew', Em, Ew.
          -- auto.
          -- assert (Hns : Text.no_slash n).
             { destruct Hn as [-> | ->]; [now apply Hname|].
               apply prefixed_name_no_slash;
                 [apply md5_hexdigest_no_slash|now apply Hname]. }
             split; [|split; [|exact Htable]].
             ++ intros p d Hin. apply in_app_or in Hin.
                destruct Hin as [Hin|[Hin|[]]]; [now apply (Hw p d)|].
                inv Hin. exists n. auto.
             ++ intros k v Hin. apply in_dict_setdefault in Hin.
                destruct Hin as [Hin| ->]; [now apply (Hm k v)|].
                exists n. auto. }
  destruct HP as (Hw & Hm & _). split; [|exact Hm].
  intros p d Hin. apply in_writes in Hin.
  destruct (Hw p d Hin) as (n & Hn & ->). exists n.
  split; [exact Hn|]. split; [reflexivity|]. now apply path_join_below.
Qed.

Lemma scenario_extensions_without_slash :
  forall t e,
    Extractor.guess_extension Scenario.lib t = Some e -> Text.no_slash e.
Proof.
  intros t e. unfold Scenario.lib. simpl.
  destruct (String.eqb t "image/png"); [intros He; inv He; reflexivity|].
  destruct (String.eqb t "image/jpeg"); [intros He; inv He; reflexivity|].
  destruct (String.eqb t "image/gif"); [intros He; inv He; reflexivity|].
  discriminate.
Qed.

(** The theorem at work on two pictures of the same file name: the second
    one is written under its prefixed name, below the same directory. *)
Lemma legacy_writes_stay_below_images_dir_witness :
  In (Extractor.EOpenWrite
        "images/5ed3e12035efe5c75f34f7c17a21bb14_x.png" "picture B")
     (Extractor.trace
        (Loop.outcome_state
           (Extractor.download_images Scenario.lib
              (Scenario.legacy_downloader false false) Scenario.legacy_world
              ["http://a.com/x.png"; "http://b.com/x.png"])))
  /\ exists n,
       Text.no_slash n
       /\ "images/5ed3e12035efe5c75f34f7c17a21bb14_x.png"
          = Py.path_join
              (Extractor._images_dir (Scenario.legacy_downloader false false))
              n
       /\ Py.startswith "images/5ed3e12035efe5c75f34f7c17a21bb14_x.png"
            (Extractor._images_dir (Scenario.legacy_downloader false false))
          = true.
Proof.
  assert (Hin : In (Extractor.EOpenWrite
                      "images/5ed3e12035efe5c75f34f7c17a21bb14_x.png"
                      "picture B")
                   (Extractor.trace
                      (Loop.outcome_state
                         (Extractor.download_images Scenario.lib
                            (Scenario.legacy_downloader false false)
                            Scenario.legacy_world
                            ["http://a.com/x.png"; "http://b.com/x.png"])))).
  { vm_compute. auto 10. }
  split; [exact Hin|].
  exact (proj1 (legacy_writes_stay_below_images_dir Scenario.lib
                  (Scenario.legacy_downloader false false)
                  Scenario.legacy_world
                  ["http://a.com/x.png"; "http://b.com/x.png"]
                  scenario_extensions_without_slash) _ _ Hin).
Defined.

(** With deduplication on, the legacy script never opens two files for the
    same content: the contents of the writes of a run are pairwise
    distinct, however the run ends. *)
Theorem legacy_deduplication_writes_each_content_once :
  forall (lib : Extractor.Lib) (self : Extractor.ImageDownloader)
         (w : Extractor.World) (images : list string),
    Extractor._deduplication self = true ->
    NoDup (map snd
             (Legacy.writes
                (Extractor.trace
                   (Loop.outcome_state
                      (Extractor.download_images lib self w images))))).
Proof.
  intros lib self w images Hdedup.
  set (sha := fun pd : string * string => Hashlib.sha256_digest (snd pd)).
  set (P := fun st : Extractor.state =>
              (forall pd, In pd (Legacy.writes (Extractor.trace st)) ->
                 exists n,
                   Py.dict_get String.eqb (Extractor.hash_to_path_mapping st)
                     (sha pd) = Some (Some n))
              /\ NoDup (map sha (Legacy.writes (Extractor.trace st)))).
  assert (HP : P (Loop.outcome_state
                    (Extractor.download_images lib self w images))).
  { apply legacy_download_images_invariant.
    - split; [intros ? []|constructor].
    - intros i x st _ (Hknown & Hnodup).
      destruct (legacy_iteration_cases lib self w (List.length images) i x st)
        as [(Em & Eh & Ew)|(resp & fn & st1 & Hfn & _ & Em & Eh & Ew & ->)].
      + unfold P. rewrite Eh, Ew. auto.
      + destruct (legacy_deduplicate_and_store_cases self w x fn
                    (Extractor.content resp) st1)
          as [(existed & _ & Hget & Em' & Eh' & Ew')
             |(Hmiss & Eh' & Hrest)].
        * unfold P. rewrite Eh', Ew', Eh, Ew. auto.
        * specialize (Hmiss Hdedup). rewrite Eh in Hmiss.
          unfold LegacyStore.table_after in Eh'.
          rewrite Hdedup, Eh in Eh'.
          assert (Hold : forall pd,
                    In pd (Legacy.writes (Extractor.trace st)) ->
                    sha pd <> Hashlib.sha256_digest (Extractor.content resp)).
          { intros pd Hin Heq. destruct (Hknown pd Hin) as (n & Hn).
            rewrite Heq in Hn. exact (Hmiss n Hn). }
          assert (Hkept : forall pd,
                    In pd (Legacy.writes (Extractor.trace st)) ->
                    exists n,
                      Py.dict_get String.eqb
                        (Py.dict_set String.eqb
                           (Extractor.hash_to_path_mapping st)
                           (Hashlib.sha256_digest (Extractor.content resp))
                           fn)
                        (sha pd) = Some (Some n)).
          { intros pd Hin. rewrite dict_get_set.
            destruct (String.eqb_spec
                        (Hashlib.sha256_digest (Extractor.content resp))
                        (sha pd)) as [Heq|_].
            - exfalso. exact (Hold pd Hin (eq_sym Heq)).
            - exact (Hknown pd Hin). }
          unfold P. rewrite Eh'.
          destruct Hrest as [(_ & _ & Ew')|(f & n & -> & _ & _ & Ew')];
            rewrite Ew', Ew.
          -- split; [exact Hkept|exact Hnodup].
          -- split.
             ++ intros pd Hin. apply in_app_or in Hin.
                destruct Hin as [Hin|[<-|[]]]; [now apply Hkept|].
                exists f. rewrite dict_get_set. unfold sha. simpl.
                now rewrite String.eqb_refl.
             ++ rewrite map_app. simpl. apply NoDup_snoc; [exact Hnodup|].
                intros Hin. apply in_map_iff in Hin.
                destruct Hin as (pd & Heq & Hin).
                exact (Hold pd Hin Heq). }
  destruct HP as (_ & Hnodup).
  apply (NoDup_map_inv Hashlib.sha256_digest).
  rewrite map_map. exact Hnodup.
Qed.

(** The theorem at work: a mirror serves the content of the second picture
    again, and two files are written for three references. *)
Lemma legacy_deduplication_writes_each_content_once_witness :
  map snd
    (Legacy.writes
       (Extractor.trace
          (Loop.outcome_state
             (Extractor.download_images Scenario.lib
                (Scenario.legacy_downloader false true) Scenario.legacy_world
                ["http://a.com/x.png"; "http://b.com/x.png";
                 "http://mirror.org/copy.png"]))))
  = ["picture A"; "picture B"]
  /\ NoDup
       (map snd
          (Legacy.writes
             (Extractor.trace
                (Loop.outcome_state
                   (Extractor.download_images Scenario.lib
                      (Scenario.legacy_downloader false true)
                      Scenario.legacy_world
                      ["http://a.com/x.png"; "http://b.com/x.png";
                       "http://mirror.org/copy.png"]))))).
Proof.
  split; [vm_compute; reflexivity|].
  apply (legacy_deduplication_writes_each_content_once Scenario.lib
           (Scenario.legacy_downloader false true) Scenario.legacy_world).
  reflexivity.
Defined.

(* ================================================================== *)
(** * The laws of the two variants at work *)
(* ================================================================== *)

(** The collision law at work: the second of two pictures named [x.png]. *)
Lemma legacy_collision_law_witness :
  Extractor.replacement_mapping
    (Loop.outcome_state
       (Extractor.store_image (Scenario.legacy_downloader false false)
          Scenario.legacy_world "http://b.com/x.png" (Some "x.png")
          "picture B"
          {| Extractor.replacement_mapping :=
               [("http://a.com/x.png", "images/x.png")];
             Extractor.hash_to_path_mapping := [];
             Extractor.trace := [] |}))
  = [("http://a.com/x.png", "images/x.png")]
    ++ [("http://b.com/x.png",
         Py.path_join
           (Extractor.public_or_dir (Scenario.legacy_downloader false false))
           (Hashlib.md5_hexdigest "http://b.com/x.png" ++ "_" ++ "x.png"))].
Proof.
  destruct (legacy_collision_law (Scenario.legacy_downloader false false)
              Scenario.legacy_world "http://b.com/x.png" "http://a.com/x.png"
              "x.png" "picture B"
              {| Extractor.replacement_mapping :=
                   [("http://a.com/x.png", "images/x.png")];
                 Extractor.hash_to_path_mapping := [];
                 Extractor.trace := [] |})
    as (Hm & _ & _).
  - left. reflexivity.
  - discriminate.
  - reflexivity.
  - exact Hm.
Defined.

(** The failure policy at work: an address that answers 404 between two
    pictures, with and without [skip_all_errors]. *)
Lemma legacy_fetch_failure_policy_witness :
  Extractor.returned
    (Extractor.download_images Scenario.lib
       (Scenario.legacy_downloader true false) Scenario.legacy_world
       ["http://a.com/x.png"; "http://a.com/gone.png";
        "http://mirror.org/copy.png"])
  = Some [("http://a.com/x.png", "images/x.png");
          ("http://mirror.org/copy.png", "images/copy.png")]
  /\ Extractor.returned
       (Extractor.download_images Scenario.lib
          (Scenario.legacy_downloader false false) Scenario.legacy_world
          ["http://a.com/x.png"; "http://a.com/gone.png";
           "http://mirror.org/copy.png"])
     = None.
Proof.
  split.
  - edestruct (legacy_fetch_failure_policy Scenario.lib
                 (Scenario.legacy_downloader true false)
                 Scenario.legacy_world
                 ["http://a.com/x.png"] ["http://mirror.org/copy.png"]
                 "http://a.com/gone.png") as [Hskip _];
      [ reflexivity | vm_compute; reflexivity | vm_compute; reflexivity
      | vm_compute; reflexivity | reflexivity | vm_compute; reflexivity
      | reflexivity | ].
    destruct (Hskip eq_refl) as [_ Hrun].
    simpl app in Hrun. rewrite Hrun. vm_compute. reflexivity.
  - edestruct (legacy_fetch_failure_policy Scenario.lib
                 (Scenario.legacy_downloader false false)
                 Scenario.legacy_world
                 ["http://a.com/x.png"] ["http://mirror.org/copy.png"]
                 "http://a.com/gone.png") as [_ Hraise];
      [ reflexivity | vm_compute; reflexivity | vm_compute; reflexivity
      | vm_compute; reflexivity | reflexivity | vm_compute; reflexivity
      | reflexivity | ].
    simpl app in Hraise. now rewrite (Hraise eq_refl).
Defined.

(** A refused write at work: the disk is full when the first picture
    arrives, and [skip_all_errors] does not help. *)
Lemma legacy_write_failure_aborts_witness :
  exists st,
    Extractor.download_images Scenario.lib
      (Scenario.legacy_downloader true false)
      Scenario.legacy_world_full_disk ["http://a.com/x.png"]
    = Loop.Raised (Py.OSError "No space left on device") st.
Proof.
  destruct (legacy_write_failure_aborts Scenario.lib
              (Scenario.legacy_downloader true false)
              Scenario.legacy_world_full_disk ["http://a.com/x.png"]
              [Extractor.EMakedirs "images";
               Extractor.EPrint
                 (Extractor.MsgDownloading 1 1 "http://a.com/x.png");
               Extractor.EGet "http://a.com/x.png" true
                 Extractor.default_downloading_timeout;
               Extractor.EPrint (Extractor.MsgWillBeWritten "images/x.png")]
              [] "images/x.png" "picture A"
              (Py.OSError "No space left on device"))
    as (_ & Hraised).
  - vm_compute. reflexivity.
  - reflexivity.
  - exact Hraised.
Defined.

(** The assertion of the packaged class at work: a reference that comes
    back after it has been recorded. *)
Lemma packaged_recorded_reference_aborts_witness :
  exists st,
    Toolset.download_images Scenario.tools
      (Scenario.toolset_downloader EmptyString true false) None
      Scenario.toolset_world
      ["http://a.com/x.png"; "http://mirror.org/copy.png";
       "http://a.com/x.png"]
    = Loop.Raised
        (Py.AssertionError (Toolset.assertion_message "http://a.com/x.png"))
        st.
Proof.
  eexists.
  eapply (packaged_recorded_reference_aborts Scenario.tools
            (Scenario.toolset_downloader EmptyString true false)
            Scenario.toolset_world None
            ["http://a.com/x.png"; "http://mirror.org/copy.png"] []
            "http://a.com/x.png").
  - reflexivity.
  - vm_compute. reflexivity.
  - reflexivity.
Defined.

(* ================================================================== *)
(** * Further properties: what a returned dictionary covers *)
(* ================================================================== *)

Section LoopPrefix.
Import Py Loop.
Context {St : Type} (body : nat -> string -> St -> outcome St).

(** An invariant that follows the part of the list already walked
    through. *)
Lemma for_enumerate_prefix (P : list string -> St -> Prop)
    (xs : list string) :
  (forall pre x post st st',
      xs = pre ++ x :: post -> P pre st ->
      body (List.length pre) x st = Next st' -> P (pre ++ [x]) st') ->
  forall st st',
    P [] st -> for_enumerate body 0 xs st = Next st' -> P xs st'.
Proof.
  intros Hbody.
  assert (H : forall l pre st st',
            xs = pre ++ l -> P pre st ->
            for_enumerate body (List.length pre) l st = Next st' ->
            P xs st').
  { induction l as [|x l IH]; intros pre st st' Hxs HP Hrun; simpl in Hrun.
    - inv Hrun. now rewrite app_nil_r.
    - destruct (body (List.length pre) x st) as [st1|e st1] eqn:Hb;
        [|discriminate].
      apply (IH (pre ++ [x]) st1 st').
      + now rewrite <- app_assoc.
      + eapply Hbody; eauto.
      + rewrite length_app, Nat.add_1_r. exact Hrun. }
  intros st st' HP Hrun. exact (H xs [] st st' eq_refl HP Hrun).
Qed.
End LoopPrefix.

Section LegacyCoverage.
Import Py Loop Extractor Legacy.
Variables (lib : Lib) (self : ImageDownloader) (w : World).

Lemma dict_mem_setdefault (m : list (string * string)) (k v : string) :
  dict_mem String.eqb (dict_setdefault String.eqb m k v) k = true.
Proof.
  unfold dict_setdefault. destruct (dict_mem String.eqb m k) eqn:E; [exact E|].
  now rewrite dict_mem_app_one, String.eqb_refl, orb_true_r.
Qed.

Lemma legacy_store_image_Next (img_url : string)
    (img_filename : option string) (image_content : string)
    (st st' : state) :
  store_image self w img_url img_filename image_content st = Next st' ->
  dict_mem String.eqb (replacement_mapping st') img_url = true.
Proof.
  destruct img_filename as [fn|]; [|discriminate].
  intros H.
  destruct (legacy_store_image_state self w img_url fn image_content st)
    as (n & _ & Hst).
  rewrite H in Hst. simpl in Hst. rewrite Hst. simpl.
  apply dict_mem_setdefault.
Qed.

(** A pass that ends normally on a reference with an allowed prefix and
    outside the skip list has recorded it, or has reported a failed
    download under [skip_all_errors]. *)
Lemma legacy_iteration_Next_cases (img_count img_num : nat)
    (img_url : string) (st st' : state) :
  iteration lib self w img_count img_num img_url st = Next st' ->
  str_in img_url (_skip_list self) = false ->
  _is_allowed_url_prefix img_url = true ->
  dict_mem String.eqb (replacement_mapping st') img_url = true
  \/ (_skip_all_errors self = true
      /\ exists e,
           is_Exception e = true
           /\ In (EPrint (MsgCantDownload (S img_num) e)) (trace st')).
Proof.
  intros H Hskip Hallowed. revert H. unfold iteration.
  rewrite Hskip, Hallowed. cbn [negb].
  destruct (dict_mem _ _ _); [discriminate|].
  destruct (_download_image _ _ _ _) as [r st1].
  destruct r as [resp|e].
  - destruct (get_filename_from_url lib resp) as [fn|e]; [|discriminate].
    intros H. left. revert H. unfold deduplicate_and_store.
    destruct (_deduplication self); [|apply legacy_store_image_Next].
    destruct (dict_get _ _ _) as [[existed|]|];
      [|apply legacy_store_image_Next|apply legacy_store_image_Next].
    intros H. inv H. simpl. apply dict_mem_setdefault.
  - destruct (is_Exception e) eqn:He; [|discriminate].
    destruct (_skip_all_errors self); [|discriminate].
    intros H. inv H. right. split; [reflexivity|]. exists e.
    split; [exact He|]. simpl. apply in_or_app. right. now left.
Qed.
End LegacyCoverage.

(** What a returned dictionary covers.  When the legacy [download_images]
    returns, every reference of the input list that has an allowed prefix
    and is outside the skip list is a key of the dictionary, unless
    [skip_all_errors] is set and its download was reported as failed, under
    its number in the list. *)
Theorem legacy_returned_dictionary_is_complete :
  forall (lib : Extractor.Lib) (self : Extractor.ImageDownloader)
         (w : Extractor.World) (images : list string) (st : Extractor.state),
    Extractor.download_images lib self w images = Loop.Next st ->
    forall (i : nat) (x : string),
      nth_error images i = Some x ->
      Py.str_in x (Extractor._skip_list self) = false ->
      Extractor._is_allowed_url_prefix x = true ->
      Py.dict_mem String.eqb (Extractor.replacement_mapping st) x = true
      \/ (Extractor._skip_all_errors self = true
          /\ exists e,
               Py.is_Exception e = true
               /\ In (Extractor.EPrint (Extractor.MsgCantDownload (S i) e))
                     (Extractor.trace st)).
Proof.
  intros lib self w images st Hrun.
  apply legacy_download_images_Next in Hrun. unfold Legacy.run in Hrun.
  set (P := fun (pre : list string) (s : Extractor.state) =>
              forall i x,
                nth_error pre i = Some x ->
                Py.str_in x (Extractor._skip_list self) = false ->
                Extractor._is_allowed_url_prefix x = true ->
                Py.dict_mem String.eqb (Extractor.replacement_mapping s) x
                = true
                \/ (Extractor._skip_all_errors self = true
                    /\ exists e,
                         Py.is_Exception e = true
                         /\ In (Extractor.EPrint
                                  (Extractor.MsgCantDownload (S i) e))
                               (Extractor.trace s))).
  apply (for_enumerate_prefix
           (Extractor.iteration lib self w (List.length images)) P images)
    with (st := Extractor.initial_state self); [| |exact Hrun].
  - intros pre x post s s' _ HP Hit i y Hnth Hskip Hallowed.
    destruct (Nat.lt_ge_cases i (List.length pre)) as [Hlt|Hge].
    + rewrite nth_error_app1 in Hnth by exact Hlt.
      destruct (HP i y Hnth Hskip Hallowed) as [Hkey|(Hall & e & He & Hin)].
      * left. eapply legacy_iteration_keeps_keys; eauto.
      * right. split; [exact Hall|]. exists e. split; [exact He|].
        destruct (legacy_iteration_gets lib self w (List.length images)
                    (List.length pre) x s) as (evs & Htr & _).
        rewrite Hit in Htr. simpl in Htr. rewrite Htr.
        apply in_or_app. now left.
    + rewrite nth_error_app2 in Hnth by exact Hge.
      destruct (i - List.length pre) as [|k] eqn:Hk;
        [|destruct k; discriminate].
      simpl in Hnth. inv Hnth.
      assert (Hi : i = List.length pre) by lia. subst i.
      eapply legacy_iteration_Next_cases; eauto.
  - intros i x Hnth. destruct i; discriminate.
Qed.

(** The theorem at work: the second of three references answers 404 and
    [skip_all_errors] is set. *)
Lemma legacy_returned_dictionary_is_complete_witness :
  exists st,
    Extractor.download_images Scenario.lib
      (Scenario.legacy_downloader true false) Scenario.legacy_world
      ["http://a.com/x.png"; "http://a.com/gone.png";
       "http://mirror.org/copy.png"]
    = Loop.Next st
    /\ Py.dict_mem String.eqb (Extractor.replacement_mapping st)
         "http://mirror.org/copy.png" = true
    /\ (Py.dict_mem String.eqb (Extractor.replacement_mapping st)
          "http://a.com/gone.png" = true
        \/ (Extractor._skip_all_errors (Scenario.legacy_downloader true false)
            = true
            /\ exists e,
                 Py.is_Exception e = true
                 /\ In (Extractor.EPrint (Extractor.MsgCantDownload 2 e))
                       (Extractor.trace st))).
Proof.
  eexists. split; [vm_compute; reflexivity|].
  split; [reflexivity|].
  apply (legacy_returned_dictionary_is_complete Scenario.lib
           (Scenario.legacy_downloader true false) Scenario.legacy_world
           ["http://a.com/x.png"; "http://a.com/gone.png";
            "http://mirror.org/copy.png"] _ eq_refl 1 "http://a.com/gone.png");
    reflexivity.
Defined.

(* ================================================================== *)
(** * Further properties: runs of the packaged class *)
(* ================================================================== *)

Section PackagedPassFacts.
Import Py Loop Toolset Packaged Text.
Variables (tools : WwwTools) (self : ImageDownloader) (w : World).

(** [_correct_paths] either keeps the name and the path or prefixes the
    name with the hash of the reference. *)
Lemma packaged_correct_paths_cases (m : list (string * value))
    (document_img_path : PurePath) (img_url image_filename : string) :
  _correct_paths self m document_img_path img_url image_filename
  = (image_filename, document_img_path)
  \/ _correct_paths self m document_img_path img_url image_filename
     = ((Hashlib.md5_hexdigest img_url ++ "_" ++ image_filename)%string,
        _get_document_img_path self
          (Hashlib.md5_hexdigest img_url ++ "_" ++ image_filename)).
Proof.
  unfold _correct_paths.
  induction m as [|[u p] m IH]; cbn [_correct_paths_items]; [now left|].
  destruct (py_eq (VPath document_img_path) p && negb (String.eqb img_url u));
    [right; reflexivity|exact IH].
Qed.

(** What [store_image] leaves behind for a file name that is a string,
    whether the write succeeds or not. *)
Lemma packaged_store_image_state (image_url image_filename : string)
    (image_content : string) (st : state) :
  exists n,
    (n = image_filename
     \/ n = (Hashlib.md5_hexdigest image_url ++ "_" ++ image_filename)%string)
    /\ outcome_state
         (store_image self w image_url (Some image_filename) image_content st)
       = {| replacement_mapping :=
              dict_setdefault String.eqb (replacement_mapping st) image_url
                (VStr (join "/" (parts (_get_document_img_path self n))));
            _deduplicator := _deduplicator st;
            trace :=
              trace st
              ++ [ELog INFO (MsgWillBeWritten (truediv (_images_dir self) n));
                  EOpenWrite (truediv (_images_dir self) n) image_content] |}.
Proof.
  unfold store_image.
  destruct (packaged_correct_paths_cases (replacement_mapping st)
              (_get_document_img_path self image_filename) image_url
              image_filename) as [Hc|Hc]; rewrite Hc;
    [exists image_filename; split; [now left|]
    |eexists; split; [now right|]];
    unfold _write_image;
    destruct (open_write _ _ _ _);
    unfold outcome_state, emit, set_replacement_mapping;
    cbn [trace replacement_mapping _deduplicator];
    rewrite <- app_assoc; reflexivity.
Qed.

(** After the [try] statement a pass only logs and writes. *)
Lemma packaged_deduplicate_and_store_events (image_url : string)
    (image_filename : option string) (image_content : string) (st : state) :
  exists evs,
    trace (outcome_state
             (deduplicate_and_store self w image_url image_filename
                image_content st)) = trace st ++ evs
    /\ (forall u t, ~ In (EDownloadFromUrl u t) evs)
    /\ (forall p, ~ In (EOpenRead p) evs).
Proof.
  assert (Hnil : forall s : state,
            exists evs,
              trace s = trace s ++ evs
              /\ (forall u t, ~ In (EDownloadFromUrl u t) evs)
              /\ (forall p, ~ In (EOpenRead p) evs)).
  { intros s. exists []. rewrite app_nil_r.
    split; [reflexivity|split; [intros ? ? []|intros ? []]]. }
  assert (Hstore : forall fn s,
            exists evs,
              trace (outcome_state
                       (store_image self w image_url fn image_content s))
              = trace s ++ evs
              /\ (forall u t, ~ In (EDownloadFromUrl u t) evs)
              /\ (forall p, ~ In (EOpenRead p) evs)).
  { intros [fn|] s; [|apply Hnil].
    destruct (packaged_store_image_state image_url fn image_content s)
      as (n & _ & ->). cbn [trace]. eexists. split; [reflexivity|].
    split; [intros u t [H|[H|[]]]|intros p [H|[H|[]]]]; discriminate. }
  unfold deduplicate_and_store.
  destruct (_deduplicator st) as [dd|]; [|apply Hstore].
  destruct (call_deduplicate _ _ _ _ _) as [[[[result fn] dd'] m']|e].
  - destruct (negb result).
    + apply (Hnil (set_deduplicator dd' (set_replacement_mapping m' st))).
    + match goal with |- context [store_image _ _ _ ?f _ ?s] =>
        destruct (Hstore f s) as [evs Hevs] end.
      exists evs. exact Hevs.
  - apply Hnil.
Qed.

(** The events of [get_and_store]: those of the guarded expression, then
    logs and writes. *)
Lemma packaged_get_and_store_events (images_count image_num : nat)
    (image_path_is_url : bool) (image_url : string) (st : state) :
  exists evs,
    trace (outcome_state
             (get_and_store tools self w images_count image_num
                image_path_is_url image_url st))
    = trace st
      ++ get_image_events self images_count image_num image_path_is_url
           image_url
      ++ evs
    /\ (forall u t, ~ In (EDownloadFromUrl u t) evs)
    /\ (forall p, ~ In (EOpenRead p) evs).
Proof.
  unfold get_and_store.
  destruct (get_image _ _ _ _ _ _ _ _) as [r st1] eqn:Hg.
  apply packaged_get_image_state in Hg. destruct Hg as (_ & _ & Htr).
  destruct r as [[fn c]|e].
  - destruct (packaged_deduplicate_and_store_events image_url fn c st1)
      as (evs & Hevs & Hnone).
    exists evs. split; [|exact Hnone].
    now rewrite Hevs, Htr, <- app_assoc.
  - destruct (is_Exception e); [destruct (_skip_all_errors self)|].
    + exists [ELog WARNING (MsgCantGetImage (S image_num) e)].
      cbn [outcome_state emit trace]. rewrite Htr, <- app_assoc.
      split; [reflexivity|].
      split; [intros u t [H|[]]|intros p [H|[]]]; discriminate.
    + exists []. cbn [outcome_state]. rewrite Htr, app_nil_r.
      split; [reflexivity|split; [intros ? ? []|intros ? []]].
    + exists []. cbn [outcome_state]. rewrite Htr, app_nil_r.
      split; [reflexivity|split; [intros ? ? []|intros ? []]].
Qed.

(** The downloads and the reads of a pass. *)
Lemma packaged_iteration_accesses (images_count image_num : nat)
    (image_url : string) (st : state) :
  exists evs,
    trace (outcome_state
             (iteration tools self w images_count image_num image_url st))
    = trace st ++ evs
    /\ (forall u t, In (EDownloadFromUrl u t) evs ->
          u = image_url /\ t = _downloading_timeout self
          /\ is_url tools image_url = true
          /\ str_in image_url (_skip_list self) = false)
    /\ (forall p, In (EOpenRead p) evs ->
          is_url tools image_url = false
          /\ str_in image_url (_skip_list self) = false
          /\ ((_process_local_images self = true /\ p = Path image_url)
              \/ (_process_local_images self = false
                  /\ truthy_str (_article_base_url self) = true
                  /\ p = Path (_article_base_url self ++ "/" ++ image_url)))).
Proof.
  unfold iteration.
  destruct (dict_mem _ _ _).
  { exists []. cbn [outcome_state]. rewrite app_nil_r.
    split; [reflexivity|split; [intros ? ? []|intros ? []]]. }
  destruct (str_in image_url (_skip_list self)) eqn:Hskip.
  { eexists. cbn [outcome_state emit trace]. split; [reflexivity|].
    split; [intros u t [H|[]]|intros p [H|[]]]; discriminate. }
  destruct (is_url tools image_url) eqn:Hurl; cbn [negb andb].
  - destruct (packaged_get_and_store_events images_count image_num true
                image_url st) as (evs & Htr & Hnd & Hnr).
    eexists. split; [exact Htr|].
    unfold get_image_events. cbn [app]. split.
    + intros u t [H|[H|H]]; [discriminate|inv H; auto|].
      exfalso. exact (Hnd u t H).
    + intros p [H|[H|H]]; [discriminate|discriminate|].
      exfalso. exact (Hnr p H).
  - destruct (_process_local_images self) eqn:Hlocal; cbn [negb].
    + destruct (packaged_get_and_store_events images_count image_num false
                  image_url st) as (evs & Htr & Hnd & Hnr).
      eexists. split; [exact Htr|].
      unfold get_image_events. cbn [app]. split.
      * intros u t [H|H]; [discriminate|]. exfalso. exact (Hnd u t H).
      * intros p [H|H]; [inv H; auto|]. exfalso. exact (Hnr p H).
    + destruct (truthy_str (_article_base_url self)) eqn:Hbase.
      * match goal with |- context [get_and_store _ _ _ _ _ _ ?u ?s] =>
          destruct (packaged_get_and_store_events images_count image_num
                      false u s) as (evs & Htr & Hnd & Hnr) end.
        eexists. split.
        { rewrite Htr. cbn [emit trace]. rewrite <- !app_assoc.
          reflexivity. }
        unfold get_image_events. cbn [app]. split.
        -- intros u t [H|[H|[H|H]]]; [discriminate|discriminate|discriminate|].
           exfalso. exact (Hnd u t H).
        -- intros p [H|[H|[H|H]]]; [discriminate|discriminate|inv H; auto 10|].
           exfalso. exact (Hnr p H).
      * eexists. cbn [outcome_state emit trace]. rewrite <- app_assoc.
        split; [reflexivity|].
        split; [intros u t [H|[H|[]]]|intros p [H|[H|[]]]]; discriminate.
Qed.

(** A property of the state that every pass preserves holds when
    [download_images] is over, however it ends. *)
Lemma packaged_download_images_invariant (P : state -> Prop)
    (deduplicator : option Deduplicator) (images : list string) :
  P (initial_state self deduplicator) ->
  (forall n x st, In x images -> P st ->
     P (outcome_state
          (iteration tools self w (List.length images) n x st))) ->
  P (outcome_state (download_images tools self deduplicator w images)).
Proof.
  intros Hinit Hstep.
  assert (Hrun :
    match for_enumerate (iteration tools self w (List.length images)) 0
            images (initial_state self deduplicator) with
    | Next st' => P st'
    | Raised _ st' => P st'
    end).
  { apply (for_enumerate_outcome_in _ P (fun _ => P)); [|exact Hinit].
    intros n x st Hx HP. specialize (Hstep n x st Hx HP).
    destruct (iteration tools self w (List.length images) n x st);
      exact Hstep. }
  unfold download_images.
  destruct (mkdir w _) as [e|].
  - destruct (is_FileExistsError e); [|exact Hinit].
    destruct (for_enumerate _ 0 images _); exact Hrun.
  - destruct (for_enumerate _ 0 images _); exact Hrun.
Qed.
End PackagedPassFacts.

(** What a run of the packaged class fetches and reads, however it ends and
    whatever the deduplicator does.  Every download is for a reference of
    the input list that [is_url] accepts and that is outside the skip list,
    with the timeout of the instance.  Every file opened for reading is
    named by a reference of the list that [is_url] rejects and that is
    outside the skip list: the reference itself when [process_local_images]
    is set, and otherwise the base URL, a slash and the reference, which
    takes a base URL that is not empty.  So with neither the flag nor a
    base URL nothing is read. *)
Theorem packaged_downloads_and_reads :
  forall (tools : Toolset.WwwTools) (self : Toolset.ImageDownloader)
         (w : Toolset.World) (deduplicator : option Toolset.Deduplicator)
         (images : list string),
    (forall u t,
        In (Toolset.EDownloadFromUrl u t)
           (Toolset.trace
              (Loop.outcome_state
                 (Toolset.download_images tools self deduplicator w images))) ->
        In u images
        /\ Toolset.is_url tools u = true
        /\ Py.str_in u (Toolset._skip_list self) = false
        /\ t = Toolset._downloading_timeout self)
    /\ (forall p,
          In (Toolset.EOpenRead p)
             (Toolset.trace
                (Loop.outcome_state
                   (Toolset.download_images tools self deduplicator w
                      images))) ->
          exists x,
            In x images
            /\ Toolset.is_url tools x = false
            /\ Py.str_in x (Toolset._skip_list self) = false
            /\ ((Toolset._process_local_images self = true /\ p = Py.Path x)
                \/ (Toolset._process_local_images self = false
                    /\ Py.truthy_str (Toolset._article_base_url self) = true
                    /\ p = Py.Path
                             (Toolset._article_base_url self ++ "/" ++ x)))).
Proof.
  intros tools self w deduplicator images.
  set (P := fun st : Toolset.state =>
              (forall u t,
                  In (Toolset.EDownloadFromUrl u t) (Toolset.trace st) ->
                  In u images
                  /\ Toolset.is_url tools u = true
                  /\ Py.str_in u (Toolset._skip_list self) = false
                  /\ t = Toolset._downloading_timeout self)
              /\ (forall p,
                    In (Toolset.EOpenRead p) (Toolset.trace st) ->
                    exists x,
                      In x images
                      /\ Toolset.is_url tools x = false
                      /\ Py.str_in x (Toolset._skip_list self) = false
                      /\ ((Toolset._process_local_images self = true
                           /\ p = Py.Path x)
                          \/ (Toolset._process_local_images self = false
                              /\ Py.truthy_str (Toolset._article_base_url self)
                                 = true
                              /\ p = Py.Path
                                       (Toolset._article_base_url self ++ "/"
                                        ++ x))))).
  apply (packaged_download_images_invariant tools self w P).
  - split; [intros u t [H|[]]|intros p [H|[]]]; discriminate.
  - intros n x st Hx [Hd Hr].
    destruct (packaged_iteration_accesses tools self w (List.length images)
                n x st) as (evs & Htr & Hde & Hre).
    split.
    + intros u t Hin. rewrite Htr in Hin. apply in_app_or in Hin.
      destruct Hin as [Hin|Hin]; [exact (Hd u t Hin)|].
      destruct (Hde u t Hin) as (-> & -> & Hu & Hs). auto.
    + intros p Hin. rewrite Htr in Hin. apply in_app_or in Hin.
      destruct Hin as [Hin|Hin]; [exact (Hr p Hin)|].
      destruct (Hre p Hin) as (Hu & Hs & Hp). exists x. auto.
Qed.

Section PathFacts.
Import Py Text.

Lemma split_single (c : ascii) (s : string) :
  index_of c s = None -> split c s = [s].
Proof.
  induction s as [|a s IH]; simpl; [reflexivity|].
  destruct (Ascii.eqb a c); [discriminate|].
  destruct (index_of c s); [discriminate|].
  intros _. now rewrite IH.
Qed.

Lemma split_pieces (c : ascii) (s : string) :
  Forall (fun piece => index_of c piece = None) (split c s).
Proof.
  induction s as [|a s IH]; simpl; [now repeat constructor|].
  destruct (Ascii.eqb a c) eqn:Ha; [now constructor|].
  destruct (split c s) as [|x xs].
  - repeat constructor. simpl. now rewrite Ha.
  - inversion IH as [|? ? Hx Hxs]; subst. constructor; [|exact Hxs].
    simpl. now rewrite Ha, Hx.
Qed.

Lemma last_Forall {A : Type} (P : A -> Prop) (l : list A) (d : A) :
  Forall P l -> P d -> P (last l d).
Proof.
  intros Hl Hd. induction Hl as [|x l Hx Hl IH]; simpl; [exact Hd|].
  destruct l; [exact Hx|exact IH].
Qed.

(** The last component of a path holds no slash. *)
Lemma name_no_slash (q : string) : no_slash (name (Path q)).
Proof.
  unfold name, Path. destruct (splitroot q) as [r rel]. cbn [names].
  apply (last_Forall (fun x => no_slash x)); [|reflexivity].
  apply Forall_forall. intros x Hx. apply filter_In in Hx.
  destruct Hx as [Hx _].
  exact (proj1 (Forall_forall _ _) (split_pieces "/" rel) x Hx).
Qed.

Lemma path_of_no_slash (n : string) :
  no_slash n -> Path n = mkPath EmptyString (filter is_component [n]).
Proof.
  intros Hn. unfold Path, splitroot.
  rewrite (no_slash_not_absolute _ Hn). now rewrite (split_single _ _ Hn).
Qed.

(** A name without a slash adds at most itself to a directory. *)
Lemma truediv_no_slash (dir : PurePath) (n : string) :
  no_slash n ->
  truediv dir n = mkPath (root dir) (names dir ++ filter is_component [n]).
Proof.
  intros Hn. unfold truediv. rewrite (path_of_no_slash _ Hn). reflexivity.
Qed.

Lemma join_two_slashes (x : string) (xs : list string) :
  startswith (join "/" ("/" :: x :: xs)) "//" = true.
Proof.
  reflexivity.
Qed.
End PathFacts.

Section PackagedStoreFacts.
Import Py Loop Toolset Packaged Text.
Variables (tools : WwwTools) (self : ImageDownloader) (w : World).

Lemma packaged_in_writes (tr : list event) (p : PurePath) (d : string) :
  In (p, d) (writes tr) <-> In (EOpenWrite p d) tr.
Proof.
  unfold writes. rewrite in_flat_map. split.
  - intros (ev & Hev & Hin). destruct ev; simpl in Hin; try contradiction.
    destruct Hin as [Hin|[]]. now inv Hin.
  - intros Hin. exists (EOpenWrite p d). split; [exact Hin|now left].
Qed.

Lemma packaged_writes_snoc_log (tr : list event) (lvl : level) (m : message) :
  writes (tr ++ [ELog lvl m]) = writes tr.
Proof.
  unfold writes. rewrite flat_map_app. simpl. now rewrite app_nil_r.
Qed.

(** Where a file name handed over by [get_image] comes from: the file name
    of a response, or the last component of the path of a local file. *)
Lemma packaged_get_image_name (images_count image_num : nat)
    (image_path_is_url : bool) (image_url : string) (st st1 : state)
    (fn c : string) :
  get_image tools self w images_count image_num image_path_is_url image_url
    st = (Return (Some fn, c), st1) ->
  (exists resp, get_filename_from_url tools resp = Return (Some fn))
  \/ (exists q, fn = name (Path q)).
Proof.
  unfold get_image. destruct image_path_is_url.
  - unfold _get_remote_image.
    destruct (download_from_url _ _ _ _) as [resp|e]; [|discriminate].
    destruct (get_filename_from_url tools resp) as [f|e] eqn:Hf;
      [|discriminate].
    intros H. inv H. left. now exists resp.
  - unfold _get_local_image.
    destruct (open_read _ _ _) as [content|e]; [|discriminate].
    intros H. inv H. right. now exists image_url.
Qed.

(** Without a deduplicator, [get_and_store] either leaves the dictionary
    and the writes as they were or records and writes one file. *)
Lemma packaged_get_and_store_cases (images_count image_num : nat)
    (image_path_is_url : bool) (image_url : string) (st : state) :
  _deduplicator st = None ->
  let st' :=
    outcome_state
      (get_and_store tools self w images_count image_num image_path_is_url
         image_url st) in
  _deduplicator st' = None
  /\ ((replacement_mapping st' = replacement_mapping st
       /\ writes (trace st') = writes (trace st))
      \/ exists fn n c,
           ((exists resp, get_filename_from_url tools resp = Return (Some fn))
            \/ (exists q, fn = name (Path q)))
           /\ (n = fn
               \/ n = (Hashlib.md5_hexdigest image_url ++ "_" ++ fn)%string)
           /\ replacement_mapping st'
              = dict_setdefault String.eqb (replacement_mapping st) image_url
                  (VStr (join "/" (parts (_get_document_img_path self n))))
           /\ writes (trace st')
              = writes (trace st) ++ [(truediv (_images_dir self) n, c)]).
Proof.
  intros Hdd st'. subst st'. unfold get_and_store.
  destruct (get_image _ _ _ _ _ _ _ _) as [r st1] eqn:Hg.
  pose proof (packaged_get_image_state tools self w _ _ _ _ _ _ _ Hg)
    as (Hm1 & Hd1 & Htr1).
  assert (Hw1 : writes (trace st1) = writes (trace st)).
  { rewrite Htr1. unfold writes, get_image_events. rewrite flat_map_app.
    destruct image_path_is_url; simpl; now rewrite app_nil_r. }
  destruct r as [[fn c]|e].
  - unfold deduplicate_and_store. rewrite Hd1, Hdd.
    destruct fn as [fn|].
    + destruct (packaged_store_image_state self w image_url fn c st1)
        as (n & Hn & ->). cbn [_deduplicator replacement_mapping trace].
      split; [now rewrite Hd1|]. right. exists fn, n, c.
      split; [exact (packaged_get_image_name _ _ _ _ _ _ _ _ Hg)|].
      split; [exact Hn|]. rewrite Hm1. split; [reflexivity|].
      unfold writes in *. rewrite flat_map_app, Hw1. reflexivity.
    + cbn [store_image outcome_state]. split; [now rewrite Hd1|].
      left. auto.
  - destruct (is_Exception e); [destruct (_skip_all_errors self)|];
      cbn [outcome_state emit _deduplicator replacement_mapping trace];
      (split; [now rewrite Hd1|]); left;
      rewrite ?packaged_writes_snoc_log; auto.
Qed.

(** The same for a pass of the loop; the key is the reference at the [try]
    statement. *)
Lemma packaged_iteration_cases (images_count image_num : nat)
    (image_url : string) (st : state) :
  _deduplicator st = None ->
  let st' :=
    outcome_state
      (iteration tools self w images_count image_num image_url st) in
  _deduplicator st' = None
  /\ ((replacement_mapping st' = replacement_mapping st
       /\ writes (trace st') = writes (trace st))
      \/ exists key fn n c,
           ((exists resp, get_filename_from_url tools resp = Return (Some fn))
            \/ (exists q, fn = name (Path q)))
           /\ (n = fn
               \/ n = (Hashlib.md5_hexdigest key ++ "_" ++ fn)%string)
           /\ replacement_mapping st'
              = dict_setdefault String.eqb (replacement_mapping st) key
                  (VStr (join "/" (parts (_get_document_img_path self n))))
           /\ writes (trace st')
              = writes (trace st) ++ [(truediv (_images_dir self) n, c)]).
Proof.
  intros Hdd st'. subst st'.
  assert (Hgs : forall flag key s,
            _deduplicator s = None ->
            replacement_mapping s = replacement_mapping st ->
            writes (trace s) = writes (trace st) ->
            let s' :=
              outcome_state
                (get_and_store tools self w images_count image_num flag key
                   s) in
            _deduplicator s' = None
            /\ ((replacement_mapping s' = replacement_mapping st
                 /\ writes (trace s') = writes (trace st))
                \/ exists key fn n c,
                     ((exists resp,
                          get_filename_from_url tools resp = Return (Some fn))
                      \/ (exists q, fn = name (Path q)))
                     /\ (n = fn
                         \/ n = (Hashlib.md5_hexdigest key ++ "_" ++ fn)
                                  %string)
                     /\ replacement_mapping s'
                        = dict_setdefault String.eqb (replacement_mapping st)
                            key
                            (VStr (join "/"
                                     (parts (_get_document_img_path self n))))
                     /\ writes (trace s')
                        = writes (trace st)
                          ++ [(truediv (_images_dir self) n, c)])).
  { intros flag key s Hd Hm Hw s'. subst s'.
    destruct (packaged_get_and_store_cases images_count image_num flag key s
                Hd) as (Hd' & [(Hm' & Hw')|(fn & n & c & Hsrc & Hn & Hm' & Hw')]).
    - split; [exact Hd'|]. left. rewrite Hm', Hw'. auto.
    - split; [exact Hd'|]. right. exists key, fn, n, c.
      rewrite Hm', Hw', Hm, Hw. auto. }
  unfold iteration.
  destruct (dict_mem _ _ _); [cbn [outcome_state]; auto|].
  destruct (str_in _ _).
  { cbn [outcome_state emit _deduplicator replacement_mapping trace].
    rewrite packaged_writes_snoc_log. auto. }
  destruct (negb (is_url tools image_url) && negb (_process_local_images self)).
  - destruct (truthy_str (_article_base_url self)).
    + apply Hgs; [exact Hdd|reflexivity|].
      cbn [emit trace]. now rewrite !packaged_writes_snoc_log.
    + cbn [outcome_state emit _deduplicator replacement_mapping trace].
      rewrite !packaged_writes_snoc_log. auto.
  - now apply Hgs.
Qed.

Lemma packaged_in_setdefault (m : list (string * value)) (k : string)
    (v : value) (k' : string) (v' : value) :
  In (k', v') (dict_setdefault String.eqb m k v) ->
  In (k', v') m \/ v' = v.
Proof.
  unfold dict_setdefault. destruct (dict_mem _ _ _); [now left|].
  intros Hin. apply in_app_or in Hin. destruct Hin as [Hin|[Hin|[]]];
    [now left|right; now inv Hin].
Qed.
End PackagedStoreFacts.

(** The packaged class without a deduplicator writes below the images
    directory only.  Provided the file names derived from responses hold no
    slash, every file a run opens for writing is the images directory
    itself or a direct child of it, named by a file name without a slash:
    the name of a response, the last component of a local path, or one of
    them behind the hash of the reference. *)
Theorem packaged_writes_stay_below_images_dir :
  forall (tools : Toolset.WwwTools) (self : Toolset.ImageDownloader)
         (w : Toolset.World) (images : list string),
    (forall resp fn,
        Toolset.get_filename_from_url tools resp = Py.Return (Some fn) ->
        Text.no_slash fn) ->
    forall p d,
      In (Toolset.EOpenWrite p d)
         (Toolset.trace
            (Loop.outcome_state
               (Toolset.download_images tools self None w images))) ->
      exists n,
        Text.no_slash n
        /\ p = Py.truediv (Toolset._images_dir self) n
        /\ Py.root p = Py.root (Toolset._images_dir self)
        /\ (Py.names p = Py.names (Toolset._images_dir self)
            \/ Py.names p = Py.names (Toolset._images_dir self) ++ [n]).
Proof.
  intros tools self w images Hfn.
  set (P := fun st : Toolset.state =>
              Toolset._deduplicator st = None
              /\ forall p d, In (p, d) (Packaged.writes (Toolset.trace st)) ->
                   exists n, Text.no_slash n
                             /\ p = Py.truediv (Toolset._images_dir self) n).
  assert (HP : P (Loop.outcome_state
                    (Toolset.download_images tools self None w images))).
  { apply (packaged_download_images_invariant tools self w P).
    - split; [reflexivity|intros ? ? []].
    - intros i x st _ (Hdd & Hw).
      destruct (packaged_iteration_cases tools self w (List.length images)
                  i x st Hdd)
        as (Hdd' & [(_ & Ew)|(key & fn & n & c & Hsrc & Hn & _ & Ew)]);
        (split; [exact Hdd'|]); rewrite Ew; [exact Hw|].
      intros p d Hin. apply in_app_or in Hin.
      destruct Hin as [Hin|[Hin|[]]]; [exact (Hw p d Hin)|].
      inv Hin. exists n. split; [|reflexivity].
      assert (Hf : Text.no_slash fn).
      { destruct Hsrc as [(resp & Hresp)|(q & ->)];
          [exact (Hfn resp fn Hresp)|apply name_no_slash]. }
      destruct Hn as [-> | ->]; [exact Hf|].
      apply prefixed_name_no_slash; [apply md5_hexdigest_no_slash|exact Hf]. }
  destruct HP as (_ & Hw). intros p d Hin.
  apply packaged_in_writes in Hin.
  destruct (Hw p d Hin) as (n & Hn & ->). exists n.
  split; [exact Hn|]. split; [reflexivity|].
  rewrite (truediv_no_slash _ _ Hn). cbn [Py.root Py.names filter].
  split; [reflexivity|].
  destruct (Py.is_component n); [now right|left; now rewrite app_nil_r].
Qed.

Lemma scenario_tools_names_without_slash :
  forall resp fn,
    Toolset.get_filename_from_url Scenario.tools resp = Py.Return (Some fn) ->
    Text.no_slash fn.
Proof.
  intros resp fn H.
  exact (filename_without_slash Scenario.lib resp fn
           scenario_extensions_without_slash H).
Qed.

(** The theorem at work on a local picture kept in a directory of its
    own. *)
Lemma packaged_writes_stay_below_images_dir_witness :
  In (Toolset.EOpenWrite (Py.Path "images/cat.png") "picture of a cat")
     (Toolset.trace
        (Loop.outcome_state
           (Toolset.download_images Scenario.tools
              (Scenario.toolset_downloader EmptyString false true) None
              Cases.world_with_local_picture ["pictures/cat.png"])))
  /\ exists n,
       Text.no_slash n
       /\ Py.Path "images/cat.png"
          = Py.truediv
              (Toolset._images_dir
                 (Scenario.toolset_downloader EmptyString false true)) n
       /\ Py.root (Py.Path "images/cat.png")
          = Py.root
              (Toolset._images_dir
                 (Scenario.toolset_downloader EmptyString false true))
       /\ (Py.names (Py.Path "images/cat.png")
           = Py.names
               (Toolset._images_dir
                  (Scenario.toolset_downloader EmptyString false true))
           \/ Py.names (Py.Path "images/cat.png")
              = Py.names
                  (Toolset._images_dir
                     (Scenario.toolset_downloader EmptyString false true))
                ++ [n]).
Proof.
  assert (Hin : In (Toolset.EOpenWrite (Py.Path "images/cat.png")
                      "picture of a cat")
                   (Toolset.trace
                      (Loop.outcome_state
                         (Toolset.download_images Scenario.tools
                            (Scenario.toolset_downloader EmptyString false
                               true) None
                            Cases.world_with_local_picture
                            ["pictures/cat.png"])))).
  { vm_compute. auto 10. }
  split; [exact Hin|].
  exact (packaged_writes_stay_below_images_dir Scenario.tools
           (Scenario.toolset_downloader EmptyString false true)
           Cases.world_with_local_picture ["pictures/cat.png"]
           scenario_tools_names_without_slash _ _ Hin).
Defined.

(** An absolute public path is recorded with two leading slashes.  The
    packaged class records [join] of the parts of the document path with a
    slash, and the first part of an absolute path is the slash itself: for
    a public path rooted at [/] with at least one component, and file names
    without a slash, every document path a run without a deduplicator
    records is a string that starts with [//]. *)
Theorem packaged_absolute_public_path_doubles_slash :
  forall (tools : Toolset.WwwTools) (self : Toolset.ImageDownloader)
         (w : Toolset.World) (images : list string) (public : Py.PurePath),
    (forall resp fn,
        Toolset.get_filename_from_url tools resp = Py.Return (Some fn) ->
        Text.no_slash fn) ->
    Toolset._img_public_path self = Some public ->
    Py.root public = "/"%string ->
    Py.names public <> [] ->
    forall k v,
      In (k, v)
         (Toolset.replacement_mapping
            (Loop.outcome_state
               (Toolset.download_images tools self None w images))) ->
      exists s, v = Py.VStr s /\ Py.startswith s "//" = true.
Proof.
  intros tools self w images public Hfn Hpub Hroot Hnames.
  set (P := fun st : Toolset.state =>
              Toolset._deduplicator st = None
              /\ forall k v, In (k, v) (Toolset.replacement_mapping st) ->
                   exists s, v = Py.VStr s /\ Py.startswith s "//" = true).
  assert (HP : P (Loop.outcome_state
                    (Toolset.download_images tools self None w images))).
  { apply (packaged_download_images_invariant tools self w P).
    - split; [reflexivity|intros ? ? []].
    - intros i x st _ (Hdd & Hm).
      destruct (packaged_iteration_cases tools self w (List.length images)
                  i x st Hdd)
        as (Hdd' & [(Em & _)|(key & fn & n & c & Hsrc & Hn & Em & _)]);
        (split; [exact Hdd'|]); rewrite Em; [exact Hm|].
      intros k v Hin. apply packaged_in_setdefault in Hin.
      destruct Hin as [Hin| ->]; [exact (Hm k v Hin)|].
      eexists. split; [reflexivity|].
      assert (Hf : Text.no_slash fn).
      { destruct Hsrc as [(resp & Hresp)|(q & ->)];
          [exact (Hfn resp fn Hresp)|apply name_no_slash]. }
      assert (Hns : Text.no_slash n).
      { destruct Hn as [-> | ->]; [exact Hf|].
        apply prefixed_name_no_slash;
          [apply md5_hexdigest_no_slash|exact Hf]. }
      unfold Toolset._get_document_img_path. rewrite Hpub.
      rewrite (truediv_no_slash _ _ Hns), Hroot.
      unfold Py.parts. cbn [Py.root Py.names Py.truthy_str].
      destruct (Py.names public) as [|a rest]; [contradiction|].
      apply join_two_slashes. }
  exact (proj2 HP).
Qed.

(** The theorem at work: the public path [/static/img]. *)
Lemma packaged_absolute_public_path_doubles_slash_witness :
  Toolset.returned
    (Toolset.download_images Scenario.tools
       (Toolset.init (Py.Path "article.md") EmptyString None false
          Toolset.default_img_dir_name (Some (Py.Path "/static/img"))
          Toolset.default_downloading_timeout false)
       None Scenario.toolset_world ["http://a.com/x.png"])
  = Some [("http://a.com/x.png", Py.VStr "//static/img/x.png")]
  /\ exists s,
       Py.VStr "//static/img/x.png" = Py.VStr s
       /\ Py.startswith s "//" = true.
Proof.
  split; [vm_compute; reflexivity|].
  apply (packaged_absolute_public_path_doubles_slash Scenario.tools
           (Toolset.init (Py.Path "article.md") EmptyString None false
              Toolset.default_img_dir_name (Some (Py.Path "/static/img"))
              Toolset.default_downloading_timeout false)
           Scenario.toolset_world ["http://a.com/x.png"]
           (Py.Path "/static/img") scenario_tools_names_without_slash
           eq_refl eq_refl)
    with (k := "http://a.com/x.png"%string).
  - vm_compute. discriminate.
  - vm_compute. auto.
Defined.

(* ================================================================== *)
(** * Further properties: the skip list of the command line *)
(* ================================================================== *)

Section StripFacts.
Import Py Text.

Lemma index_of_none_forallb (c : ascii) (s : string) :
  index_of c s = None
  <-> str_forallb (fun a => negb (Ascii.eqb a c)) s = true.
Proof.
  induction s as [|a s IH]; simpl; [tauto|].
  destruct (Ascii.eqb a c); simpl.
  - split; discriminate.
  - rewrite <- IH. destruct (index_of c s); split; congruence.
Qed.

Lemma strip_keeps_absence (c : ascii) (s : string) :
  index_of c s = None -> index_of c (strip s) = None.
Proof.
  rewrite !index_of_none_forallb. apply str_forallb_strip.
Qed.

Lemma split_app_sep (c : ascii) (x t : string) :
  index_of c x = None ->
  split c (x ++ String c t) = x :: split c t.
Proof.
  induction x as [|a x IH]; simpl.
  - intros _. now rewrite Ascii.eqb_refl.
  - destruct (Ascii.eqb a c); [discriminate|].
    destruct (index_of c x); [discriminate|].
    intros _. now rewrite IH.
Qed.

(** Splitting undoes joining, for pieces that do not hold the
    separator. *)
Lemma split_join (c : ascii) (pieces : list string) :
  pieces <> [] ->
  Forall (fun piece => index_of c piece = None) pieces ->
  split c (join (String c EmptyString) pieces) = pieces.
Proof.
  intros Hne HF. induction HF as [|x rest Hx HF IH]; [contradiction|].
  destruct rest as [|y rest].
  - simpl. now apply split_single.
  - change (join (String c EmptyString) (x :: y :: rest))
      with (x ++ String c (join (String c EmptyString) (y :: rest)))%string.
    rewrite (split_app_sep _ _ _ Hx). f_equal. apply IH. discriminate.
Qed.

Lemma str_in_In (x : string) (l : list string) :
  str_in x l = true -> In x l.
Proof.
  unfold str_in. intros H. apply existsb_exists in H.
  destruct H as (y & Hy & Heq). apply String.eqb_eq in Heq. now subst.
Qed.
End StripFacts.

(** The skip list that [main] hands to the downloader.  Whenever the
    [isinstance] block of [main] yields a list, a reference can only match
    an element of it if it neither starts nor ends with whitespace; and for
    a list given on the command line, only if it holds no comma. *)
Theorem main_skip_list_elements :
  forall (env : Entrypoint.Env) (arguments : Entrypoint.Arguments)
         (l : list string) (printed : list Entrypoint.message),
    Entrypoint.read_skip_list env (Entrypoint.skip_list arguments)
    = (Py.Return (Some l), printed) ->
    forall r,
      Py.str_in r
        (Extractor._skip_list (Entrypoint.downloader env arguments (Some l)))
      = true ->
      Py.strip r = r
      /\ (forall s,
            Entrypoint.skip_list arguments = Some s ->
            Py.startswith s "@" = false ->
            Py.index_of "," r = None /\ printed = []).
Proof.
  intros env arguments l printed Hread r Hin.
  apply str_in_In in Hin. cbn in Hin.
  unfold Entrypoint.read_skip_list in Hread.
  destruct (Entrypoint.skip_list arguments) as [s|]; [|discriminate].
  destruct (Py.startswith s "@") eqn:Hat.
  - destruct (Entrypoint.readlines env _) as [lines|e]; [|discriminate].
    inv Hread. apply in_map_iff in Hin. destruct Hin as (x & <- & _).
    split; [apply strip_idempotent|]. intros s' Hs'. inv Hs'. congruence.
  - inv Hread. apply in_map_iff in Hin. destruct Hin as (x & <- & Hx).
    split; [apply strip_idempotent|]. intros _ _ _.
    split; [|reflexivity]. apply strip_keeps_absence.
    exact (proj1 (Forall_forall _ _) (split_pieces "," s) x Hx).
Qed.

(** The theorem at work on a list of two references given with blanks
    around the comma. *)
Lemma main_skip_list_elements_witness :
  Entrypoint.read_skip_list Cases.env
    (Some "http://a.com/x.png , http://b.com/x.png")
  = (Py.Return (Some ["http://a.com/x.png"; "http://b.com/x.png"]), [])
  /\ Py.strip "http://b.com/x.png" = "http://b.com/x.png"%string
  /\ Py.index_of "," "http://b.com/x.png" = None.
Proof.
  assert (Hread : Entrypoint.read_skip_list Cases.env
                    (Some "http://a.com/x.png , http://b.com/x.png")
                  = (Py.Return
                       (Some ["http://a.com/x.png"; "http://b.com/x.png"]),
                     [])) by (vm_compute; reflexivity).
  split; [exact Hread|].
  destruct (main_skip_list_elements Cases.env
              {| Entrypoint.article_file_path := "article.md";
                 Entrypoint.skip_list :=
                   Some "http://a.com/x.png , http://b.com/x.png";
                 Entrypoint.skip_all_incorrect := false;
                 Entrypoint.images_dirname := "images";
                 Entrypoint.images_publicpath := EmptyString;
                 Entrypoint.downloading_timeout :=
                   Extractor.default_downloading_timeout;
                 Entrypoint.dedup_with_hash := false |}
              _ _ Hread "http://b.com/x.png" eq_refl) as [Hstrip Hcomma].
  split; [exact Hstrip|].
  exact (proj1 (Hcomma _ eq_refl eq_refl)).
Defined.

(** A comma-separated list on the command line is read back element by
    element: for pieces without a comma, of which the first does not start
    with an at sign, [main] gets the stripped pieces, in order, without
    reading any file. *)
Theorem main_skip_list_round_trip :
  forall (env : Entrypoint.Env) (pieces : list string),
    pieces <> [] ->
    Forall (fun piece => Py.index_of "," piece = None) pieces ->
    Py.startswith (Py.join "," pieces) "@" = false ->
    Entrypoint.read_skip_list env (Some (Py.join "," pieces))
    = (Py.Return (Some (map Py.strip pieces)), []).
Proof.
  intros env pieces Hne Hpieces Hat. unfold Entrypoint.read_skip_list.
  rewrite Hat. now rewrite (split_join "," pieces Hne Hpieces).
Qed.

(** The theorem at work: the first piece ends with a no-break space, the
    second one starts with a blank. *)
Lemma main_skip_list_round_trip_witness :
  Entrypoint.read_skip_list Cases.env
    (Some
       (Py.join ","
          [("http://a.com/x.png" ++ Cases.no_break_space)%string;
           " http://b.com/x.png"]))
  = (Py.Return (Some ["http://a.com/x.png"; "http://b.com/x.png"]), []).
Proof.
  apply (main_skip_list_round_trip Cases.env
           [("http://a.com/x.png" ++ Cases.no_break_space)%string;
            " http://b.com/x.png"]).
  - discriminate.
  - repeat constructor.
  - reflexivity.
Defined.

(* ================================================================== *)
(** * Further properties: the bytes written and the timeout used *)
(* ================================================================== *)

Section LegacyContentFacts.
Import Py Loop Extractor Legacy LegacyStore.
Variables (lib : Lib) (self : ImageDownloader) (w : World).

(** A response that [_download_image] returns is an answer of the
    transport for the reference, with status 200. *)
Lemma legacy_download_image_response (image_url : string) (st st1 : state)
    (resp : Response) :
  _download_image self w image_url st = (Return resp, st1) ->
  status_code resp = 200%Z
  /\ exists tr verify,
       requests_get w tr image_url verify (_downloading_timeout self)
       = Return resp.
Proof.
  unfold _download_image, check_status.
  destruct (requests_get w (trace st) image_url true _) as [r|e] eqn:H1.
  - destruct (Z.eqb_spec (status_code r) 200) as [Hs|Hs]; cbn [negb];
      [|discriminate].
    intros H. inv H. split; [exact Hs|]. now exists (trace st), true.
  - destruct (is_SSLError e); [|discriminate].
    destruct (requests_get w _ image_url false _) as [r|e'] eqn:H2;
      [|discriminate].
    destruct (Z.eqb_spec (status_code r) 200) as [Hs|Hs]; cbn [negb];
      [|discriminate].
    intros H. inv H. split; [exact Hs|]. eexists _, false. exact H2.
Qed.

(** The writes a pass adds carry the content of such a response. *)
Lemma legacy_iteration_written_content (img_count img_num : nat)
    (img_url : string) (st : state) (p d : string) :
  In (p, d)
     (writes
        (trace
           (outcome_state
              (iteration lib self w img_count img_num img_url st)))) ->
  In (p, d) (writes (trace st))
  \/ exists tr verify resp,
       requests_get w tr img_url verify (_downloading_timeout self)
       = Return resp
       /\ status_code resp = 200%Z
       /\ d = content resp.
Proof.
  unfold iteration.
  destruct (dict_mem _ _ _); [now left|].
  assert (Hprint : forall m s,
            writes (trace (emit (EPrint m) s)) = writes (trace s)).
  { intros m s. simpl. unfold writes. rewrite flat_map_app. simpl.
    now rewrite app_nil_r. }
  destruct (str_in _ _); [cbn [outcome_state]; rewrite Hprint; now left|].
  destruct (negb _); [cbn [outcome_state]; rewrite Hprint; now left|].
  destruct (_download_image _ _ _ _) as [r st1] eqn:Hd.
  pose proof (legacy_download_image_writes self w _ _ _ _ Hd)
    as (_ & _ & Hw1).
  rewrite Hprint in Hw1.
  destruct r as [resp|e].
  - apply legacy_download_image_response in Hd.
    destruct Hd as (Hs & tr & verify & Hget).
    destruct (get_filename_from_url lib resp) as [fn|e];
      [|cbn [outcome_state]; rewrite Hw1; now left].
    destruct (legacy_deduplicate_and_store_cases self w img_url fn
                (content resp) st1)
      as [(existed & _ & _ & _ & _ & Ew)
         |(_ & _ & [(_ & _ & Ew)|(f & n & _ & _ & _ & Ew)])];
      rewrite Ew, Hw1; [now left|now left|].
    intros Hin. apply in_app_or in Hin.
    destruct Hin as [Hin|[Hin|[]]]; [now left|].
    inv Hin. right. now exists tr, verify, resp.
  - destruct (is_Exception e); [destruct (_skip_all_errors self)|];
      cbn [outcome_state]; rewrite ?Hprint, Hw1; now left.
Qed.
End LegacyContentFacts.

(** The legacy script writes what it received.  However a run ends, the
    data of every file it opened for writing is the content of a response
    that the transport returned with status 200 for a reference of the
    input list, asked with the configured timeout. *)
Theorem legacy_writes_what_it_received :
  forall (lib : Extractor.Lib) (self : Extractor.ImageDownloader)
         (w : Extractor.World) (images : list string) (p d : string),
    In (Extractor.EOpenWrite p d)
       (Extractor.trace
          (Loop.outcome_state (Extractor.download_images lib self w images))) ->
    exists u tr verify resp,
      In u images
      /\ Extractor.requests_get w tr u verify
           (Extractor._downloading_timeout self) = Py.Return resp
      /\ Extractor.status_code resp = 200%Z
      /\ d = Extractor.content resp.
Proof.
  intros lib self w images p d Hin. apply in_writes in Hin. revert p d Hin.
  apply (legacy_download_images_invariant lib self w
           (fun st =>
              forall p d,
                In (p, d) (Legacy.writes (Extractor.trace st)) ->
                exists u tr verify resp,
                  In u images
                  /\ Extractor.requests_get w tr u verify
                       (Extractor._downloading_timeout self) = Py.Return resp
                  /\ Extractor.status_code resp = 200%Z
                  /\ d = Extractor.content resp)).
  - intros p d [].
  - intros n x st Hx Hst p d Hin.
    apply legacy_iteration_written_content in Hin.
    destruct Hin as [Hin|(tr & verify & resp & Hget & Hs & ->)];
      [exact (Hst p d Hin)|].
    now exists x, tr, verify, resp.
Qed.

(** The timeout of every download of the packaged class.  For an instance
    built by [__init__], every download of a run carries the timeout given
    to the constructor when it is positive, and [None], the unbounded wait,
    when it is not: a timeout that is zero or negative never reaches
    [download_from_url]. *)
Theorem packaged_timeout_of_every_download :
  forall (tools : Toolset.WwwTools) (w : Toolset.World)
         (deduplicator : option Toolset.Deduplicator)
         (article_path : Py.PurePath) (article_base_url : string)
         (skip_list : option (list string)) (skip_all_errors : bool)
         (img_dir_name : Py.PurePath) (img_public_path : option Py.PurePath)
         (downloading_timeout : Q) (process_local_images : bool)
         (images : list string) (u : string) (t : option Q),
    In (Toolset.EDownloadFromUrl u t)
       (Toolset.trace
          (Loop.outcome_state
             (Toolset.download_images tools
                (Toolset.init article_path article_base_url skip_list
                   skip_all_errors img_dir_name img_public_path
                   downloading_timeout process_local_images)
                deduplicator w images))) ->
    ((0 < downloading_timeout)%Q -> t = Some downloading_timeout)
    /\ ((downloading_timeout <= 0)%Q -> t = None).
Proof.
  intros tools w deduplicator article_path article_base_url skip_list
    skip_all_errors img_dir_name img_public_path downloading_timeout
    process_local_images images u t.
  set (self := Toolset.init article_path article_base_url skip_list
                 skip_all_errors img_dir_name img_public_path
                 downloading_timeout process_local_images).
  intros Hin.
  assert (Ht : t = Toolset._downloading_timeout self).
  { revert u t Hin.
    apply (packaged_download_images_invariant tools self w
             (fun st =>
                forall u t,
                  In (Toolset.EDownloadFromUrl u t) (Toolset.trace st) ->
                  t = Toolset._downloading_timeout self)).
    - intros u t [H|[]]. discriminate.
    - intros n x st _ Hst u t Hin.
      destruct (packaged_iteration_accesses tools self w (List.length images)
                  n x st) as (evs & Htr & Hde & _).
      rewrite Htr in Hin. apply in_app_or in Hin.
      destruct Hin as [Hin|Hin]; [exact (Hst u t Hin)|].
      exact (proj1 (proj2 (Hde u t Hin))). }
  subst t. unfold self.
  exact (packaged_timeout_normalised article_path article_base_url skip_list
           skip_all_errors img_dir_name img_public_path downloading_timeout
           process_local_images).
Qed.

(** The theorem at work: the default of the signature is [-1], and the
    download carries [None]. *)
Lemma packaged_timeout_of_every_download_witness :
  exists t,
    In (Toolset.EDownloadFromUrl "http://a.com/x.png" t)
       (Toolset.trace
          (Loop.outcome_state
             (Toolset.download_images Scenario.tools
                (Toolset.init (Py.Path "article.md") EmptyString None false
                   Toolset.default_img_dir_name None
                   Toolset.default_downloading_timeout false)
                None Scenario.toolset_world ["http://a.com/x.png"])))
    /\ t = None.
Proof.
  assert (Hin : In (Toolset.EDownloadFromUrl "http://a.com/x.png" None)
                   (Toolset.trace
                      (Loop.outcome_state
                         (Toolset.download_images Scenario.tools
                            (Toolset.init (Py.Path "article.md") EmptyString
                               None false Toolset.default_img_dir_name None
                               Toolset.default_downloading_timeout false)
                            None Scenario.toolset_world
                            ["http://a.com/x.png"])))).
  { vm_compute. auto 10. }
  exists None. split; [exact Hin|].
  apply (proj2 (packaged_timeout_of_every_download Scenario.tools
                  Scenario.toolset_world None (Py.Path "article.md")
                  EmptyString None false Toolset.default_img_dir_name None
                  Toolset.default_downloading_timeout false
                  ["http://a.com/x.png"] "http://a.com/x.png" None Hin)).
  unfold Toolset.default_downloading_timeout, Qle. simpl. lia.
Defined.

(** The theorem at work on the two pictures named [x.png]. *)
Lemma legacy_writes_what_it_received_witness :
  exists u tr verify resp,
    In u ["http://a.com/x.png"; "http://b.com/x.png"]
    /\ Extractor.requests_get Scenario.legacy_world tr u verify
         (Extractor._downloading_timeout
            (Scenario.legacy_downloader false false)) = Py.Return resp
    /\ Extractor.status_code resp = 200%Z
    /\ "picture B"%string = Extractor.content resp.
Proof.
  apply (legacy_writes_what_it_received Scenario.lib
           (Scenario.legacy_downloader false false) Scenario.legacy_world
           ["http://a.com/x.png"; "http://b.com/x.png"]
           "images/5ed3e12035efe5c75f34f7c17a21bb14_x.png" "picture B").
  vm_compute. auto 10.
Defined.

Section PackagedContentFacts.
Import Py Loop Toolset Packaged.
Variables (tools : WwwTools) (self : ImageDownloader) (w : World).

(** A write found in a trace that was extended by events other than writes
    was there before. *)
Lemma write_in_extension (tr more tr1 tr2 : list event) (p : PurePath)
    (d : string) :
  Forall (fun ev => is_write ev = false) more ->
  tr ++ more = tr1 ++ EOpenWrite p d :: tr2 ->
  exists tr2', tr = tr1 ++ EOpenWrite p d :: tr2'.
Proof.
  revert tr2. induction more as [|e more IH] using rev_ind; intros tr2 Hm H.
  - rewrite app_nil_r in H. now exists tr2.
  - apply Forall_app in Hm. destruct Hm as [Hm He].
    rewrite app_assoc in H. apply snoc_eq_middle in H.
    destruct H as [(_ & _ & ->)|(tr2' & _ & H)].
    + inversion He as [|? ? Hw _]. discriminate.
    + exact (IH tr2' Hm H).
Qed.

(** A write found in a trace that ends with a write, after events other
    than writes, was there before or is the last one. *)
Lemma write_at_end (tr more tr1 tr2 : list event) (p q : PurePath)
    (c d : string) :
  Forall (fun ev => is_write ev = false) more ->
  (tr ++ more) ++ [EOpenWrite q c] = tr1 ++ EOpenWrite p d :: tr2 ->
  (exists tr2', tr = tr1 ++ EOpenWrite p d :: tr2')
  \/ (tr1 = tr ++ more /\ d = c).
Proof.
  intros Hm H. apply snoc_eq_middle in H.
  destruct H as [(_ & H1 & H2)|(tr2' & _ & H)].
  - right. inv H2. auto.
  - left. exact (write_in_extension _ _ _ _ _ _ Hm H).
Qed.

(** After the [try] statement a pass adds nothing to the trace, or the
    record and the write of the content it was given. *)
Lemma packaged_deduplicate_and_store_shape (image_url : string)
    (image_filename : option string) (image_content : string) (st : state) :
  trace
    (outcome_state
       (deduplicate_and_store self w image_url image_filename image_content
          st))
  = trace st
  \/ exists n,
       trace
         (outcome_state
            (deduplicate_and_store self w image_url image_filename
               image_content st))
       = (trace st ++ [ELog INFO (MsgWillBeWritten (truediv (_images_dir self) n))])
         ++ [EOpenWrite (truediv (_images_dir self) n) image_content].
Proof.
  assert (Hstore : forall fn s,
            trace s = trace st ->
            trace
              (outcome_state
                 (store_image self w image_url fn image_content s))
            = trace st
            \/ exists n,
                 trace
                   (outcome_state
                      (store_image self w image_url fn image_content s))
                 = (trace st
                    ++ [ELog INFO
                          (MsgWillBeWritten (truediv (_images_dir self) n))])
                   ++ [EOpenWrite (truediv (_images_dir self) n)
                         image_content]).
  { intros [fn|] s Hs; [|left; exact Hs].
    destruct (packaged_store_image_state self w image_url fn image_content s)
      as (n & _ & ->). cbn [trace]. right. exists n.
    rewrite Hs, <- app_assoc. reflexivity. }
  unfold deduplicate_and_store.
  destruct (_deduplicator st) as [dd|]; [|now apply Hstore].
  destruct (call_deduplicate _ _ _ _ _) as [[[[result fn] dd'] m']|e];
    [|now left].
  destruct (negb result); [now left|]. now apply Hstore.
Qed.

(** What [get_image] hands over was returned by [download_from_url] or by
    the read, called on the trace of that moment. *)
Lemma packaged_get_image_obtained (images_count image_num : nat)
    (image_path_is_url : bool) (image_url : string) (st st1 : state)
    (fn : option string) (c : string) :
  get_image tools self w images_count image_num image_path_is_url image_url
    st = (Return (fn, c), st1) ->
  if image_path_is_url then
    exists resp,
      download_from_url tools
        (trace st
         ++ [ELog INFO (MsgDownloading (S image_num) images_count image_url)])
        image_url (_downloading_timeout self) = Return resp
      /\ c = Extractor.content resp
  else open_read w (trace st) (Path image_url) = Return c.
Proof.
  unfold get_image. destruct image_path_is_url.
  - unfold _get_remote_image. cbn [emit trace].
    destruct (download_from_url _ _ _ _) as [resp|e] eqn:Hd; [|discriminate].
    destruct (get_filename_from_url tools resp) as [f|e]; [|discriminate].
    intros H. inv H. now exists resp.
  - unfold _get_local_image.
    destruct (open_read _ _ _) as [content|e] eqn:Hr; [|discriminate].
    intros H. now inv H.
Qed.

Lemma packaged_get_image_events_no_write (images_count image_num : nat)
    (image_path_is_url : bool) (image_url : string) :
  Forall (fun ev => is_write ev = false)
    (get_image_events self images_count image_num image_path_is_url
       image_url).
Proof.
  unfold get_image_events. destruct image_path_is_url; repeat constructor.
Qed.

(** A write in the trace that [get_and_store] leaves was there before, or
    follows the download or the read that gave its data. *)
Lemma packaged_get_and_store_write_origin (images_count image_num : nat)
    (image_path_is_url : bool) (image_url : string) (st : state)
    (tr1 tr2 : list event) (p : PurePath) (d : string) :
  trace
    (outcome_state
       (get_and_store tools self w images_count image_num image_path_is_url
          image_url st))
  = tr1 ++ EOpenWrite p d :: tr2 ->
  (exists tr2', trace st = tr1 ++ EOpenWrite p d :: tr2')
  \/ (exists rest,
        tr1
        = trace st
          ++ get_image_events self images_count image_num image_path_is_url
               image_url
          ++ rest
        /\ if image_path_is_url then
             exists resp,
               download_from_url tools
                 (trace st
                  ++ [ELog INFO
                        (MsgDownloading (S image_num) images_count
                           image_url)])
                 image_url (_downloading_timeout self) = Return resp
               /\ d = Extractor.content resp
           else open_read w (trace st) (Path image_url) = Return d).
Proof.
  unfold get_and_store.
  destruct (get_image _ _ _ _ _ _ _ _) as [r st1] eqn:Hg.
  pose proof (packaged_get_image_state tools self w _ _ _ _ _ _ _ Hg)
    as (_ & _ & Htr1).
  pose proof (packaged_get_image_events_no_write images_count image_num
                image_path_is_url image_url) as Hnw.
  destruct r as [[fn c]|e].
  - destruct (packaged_deduplicate_and_store_shape image_url fn c st1)
      as [-> |(n & ->)]; rewrite Htr1; intros H.
    + left. exact (write_in_extension _ _ _ _ _ _ Hnw H).
    + rewrite <- (app_assoc (trace st) _ [ELog _ _]) in H.
      apply write_at_end in H;
        [|apply Forall_app; split; [exact Hnw|repeat constructor]].
      destruct H as [H|[-> ->]]; [now left|].
      right. eexists. split; [reflexivity|].
      exact (packaged_get_image_obtained _ _ _ _ _ _ _ _ Hg).
  - assert (Hlog : forall st2 : state,
              trace st2 = trace st1
              \/ (exists lvl m, trace st2 = trace st1 ++ [ELog lvl m]) ->
              trace st2 = tr1 ++ EOpenWrite p d :: tr2 ->
              exists tr2', trace st = tr1 ++ EOpenWrite p d :: tr2').
    { intros st2 [->|(lvl & m & ->)]; rewrite Htr1; intros H.
      - exact (write_in_extension _ _ _ _ _ _ Hnw H).
      - rewrite <- app_assoc in H.
        refine (write_in_extension _ _ _ _ _ _ _ H).
        apply Forall_app. split; [exact Hnw|repeat constructor]. }
    intros H. left. revert H.
    destruct (is_Exception e); [destruct (_skip_all_errors self)|];
      cbn [outcome_state]; apply Hlog; [right|left|left]; try reflexivity.
    cbn [emit trace]. eauto.
Qed.

(** The same for a pass of the loop, in terms of the reference it was
    given. *)
Lemma packaged_iteration_write_origin (images_count image_num : nat)
    (image_url : string) (st : state) (tr1 tr2 : list event) (p : PurePath)
    (d : string) :
  trace
    (outcome_state
       (iteration tools self w images_count image_num image_url st))
  = tr1 ++ EOpenWrite p d :: tr2 ->
  (exists tr2', trace st = tr1 ++ EOpenWrite p d :: tr2')
  \/ (is_url tools image_url = true
      /\ Provenance.downloaded tools self tr1 image_url d)
  \/ (is_url tools image_url = false
      /\ Provenance.read_for w self tr1 image_url d).
Proof.
  unfold iteration.
  destruct (dict_mem _ _ _); [intros H; left; now exists tr2|].
  destruct (str_in _ _).
  { cbn [outcome_state emit trace]. intros H. left.
    refine (write_in_extension _ _ _ _ _ _ _ H). repeat constructor. }
  destruct (is_url tools image_url) eqn:Hurl; cbn [negb andb].
  - intros H. apply packaged_get_and_store_write_origin in H.
    destruct H as [H|(rest & -> & resp & Hd & ->)]; [now left|].
    right. left. split; [reflexivity|].
    unfold get_image_events. cbn [app].
    exists (trace st
            ++ [ELog INFO (MsgDownloading (S image_num) images_count
                             image_url)]), rest, resp.
    split; [now rewrite <- app_assoc|]. auto.
  - destruct (_process_local_images self) eqn:Hlocal; cbn [negb].
    + intros H. apply packaged_get_and_store_write_origin in H.
      destruct H as [H|(rest & -> & Hr)]; [now left|].
      right. right. split; [reflexivity|].
      unfold get_image_events. cbn [app].
      exists (trace st), rest, (Path image_url). auto.
    + destruct (truthy_str (_article_base_url self)) eqn:Hbase.
      * intros H. apply packaged_get_and_store_write_origin in H.
        cbn [emit trace] in H.
        destruct H as [(tr2' & H)|(rest & -> & Hr)].
        -- left. rewrite <- app_assoc in H.
           refine (write_in_extension _ _ _ _ _ _ _ H). repeat constructor.
        -- right. right. split; [reflexivity|].
           unfold get_image_events. cbn [app].
           eexists _, rest, _. split; [reflexivity|].
           split; [exact Hr|]. right. auto.
      * cbn [outcome_state emit trace]. intros H. left.
        rewrite <- app_assoc in H.
        refine (write_in_extension _ _ _ _ _ _ _ H). repeat constructor.
Qed.
End PackagedContentFacts.

(** The packaged class writes what it got, whatever the deduplicator does.
    However a run ends, every file it opened for writing received data
    that the run had obtained before, for a reference of the input list:
    the content of a response that [download_from_url] returned for a
    reference that [is_url] accepts, at a download recorded before the
    write and made with the timeout of the instance; or what a read
    recorded before the write returned for the file that a reference
    rejected by [is_url] names. *)
Theorem packaged_writes_what_it_got :
  forall (tools : Toolset.WwwTools) (self : Toolset.ImageDownloader)
         (w : Toolset.World) (deduplicator : option Toolset.Deduplicator)
         (images : list string) (tr1 tr2 : list Toolset.event)
         (p : Py.PurePath) (d : string),
    Toolset.trace
      (Loop.outcome_state
         (Toolset.download_images tools self deduplicator w images))
    = tr1 ++ Toolset.EOpenWrite p d :: tr2 ->
    exists x,
      In x images
      /\ ((Toolset.is_url tools x = true
           /\ Provenance.downloaded tools self tr1 x d)
          \/ (Toolset.is_url tools x = false
              /\ Provenance.read_for w self tr1 x d)).
Proof.
  intros tools self w deduplicator images tr1 tr2 p d.
  revert tr1 tr2 p d.
  apply (packaged_download_images_invariant tools self w
           (fun st =>
              forall tr1 tr2 p d,
                Toolset.trace st = tr1 ++ Toolset.EOpenWrite p d :: tr2 ->
                exists x,
                  In x images
                  /\ ((Toolset.is_url tools x = true
                       /\ Provenance.downloaded tools self tr1 x d)
                      \/ (Toolset.is_url tools x = false
                          /\ Provenance.read_for w self tr1 x d)))).
  - intros tr1 tr2 p d H. simpl in H.
    destruct tr1 as [|? [|? ?]]; discriminate.
  - intros n x st Hx Hst tr1 tr2 p d H.
    apply packaged_iteration_write_origin in H.
    destruct H as [(tr2' & H)|H]; [exact (Hst tr1 tr2' p d H)|].
    exists x. split; [exact Hx|exact H].
Qed.

(** The theorem at work on a local picture: the write follows the read of
    the file the reference names. *)
Lemma packaged_writes_what_it_got_witness :
  exists x,
    In x ["pictures/cat.png"]
    /\ ((Toolset.is_url Scenario.tools x = true
         /\ Provenance.downloaded Scenario.tools
              (Scenario.toolset_downloader EmptyString false true)
              [Toolset.EMkdir (Py.Path "images");
               Toolset.EOpenRead (Py.Path "pictures/cat.png");
               Toolset.ELog Toolset.INFO
                 (Toolset.MsgWillBeWritten (Py.Path "images/cat.png"))]
              x "picture of a cat")
        \/ (Toolset.is_url Scenario.tools x = false
            /\ Provenance.read_for Cases.world_with_local_picture
                 (Scenario.toolset_downloader EmptyString false true)
                 [Toolset.EMkdir (Py.Path "images");
                  Toolset.EOpenRead (Py.Path "pictures/cat.png");
                  Toolset.ELog Toolset.INFO
                    (Toolset.MsgWillBeWritten (Py.Path "images/cat.png"))]
                 x "picture of a cat")).
Proof.
  apply (packaged_writes_what_it_got Scenario.tools
           (Scenario.toolset_downloader EmptyString false true)
           Cases.world_with_local_picture None ["pictures/cat.png"]
           [Toolset.EMkdir (Py.Path "images");
            Toolset.EOpenRead (Py.Path "pictures/cat.png");
            Toolset.ELog Toolset.INFO
              (Toolset.MsgWillBeWritten (Py.Path "images/cat.png"))]
           [] (Py.Path "images/cat.png") "picture of a cat").
  vm_compute. reflexivity.
Defined.

(** What [skip_all_errors] does not cover in the legacy script.  The file
    name is derived outside the [try] statement: when the download of a
    reference succeeds and [get_filename_from_url] raises on the response,
    the run ends with that exception, whatever [skip_all_errors] says; and
    when it returns [None], without deduplication the run ends with the
    [TypeError] of the path join. *)
Theorem legacy_filename_failure_aborts :
  forall (lib : Extractor.Lib) (self : Extractor.ImageDownloader)
         (w : Extractor.World) (pre post : list string) (img_url : string)
         (st st1 : Extractor.state) (resp : Extractor.Response),
    Legacy.makedirs_ok w self = true ->
    Legacy.run lib self w (List.length (pre ++ img_url :: post)) 0 pre
      (Extractor.initial_state self) = Loop.Next st ->
    Py.dict_mem String.eqb (Extractor.replacement_mapping st) img_url = false ->
    Py.str_in img_url (Extractor._skip_list self) = false ->
    Extractor._is_allowed_url_prefix img_url = true ->
    Extractor._download_image self w img_url
      (Extractor.emit
         (Extractor.EPrint
            (Extractor.MsgDownloading (S (List.length pre))
               (List.length (pre ++ img_url :: post)) img_url)) st)
    = (Py.Return resp, st1) ->
    (forall e,
        Extractor.get_filename_from_url lib resp = Py.Raise e ->
        Extractor.download_images lib self w (pre ++ img_url :: post)
        = Loop.Raised e st1)
    /\ (Extractor.get_filename_from_url lib resp = Py.Return None ->
        Extractor._deduplication self = false ->
        Extractor.download_images lib self w (pre ++ img_url :: post)
        = Loop.Raised Py.TypeError st1).
Proof.
  intros lib self w pre post img_url st st1 resp
    Hdir Hpre Hmem Hskip Hallowed Hget.
  rewrite legacy_download_images_run by exact Hdir.
  unfold Legacy.run in *.
  rewrite (for_enumerate_middle _ pre post img_url _ st Hpre).
  unfold Extractor.iteration. rewrite Hmem, Hskip, Hallowed. cbn [negb].
  rewrite Hget. split.
  - intros e He. now rewrite He.
  - intros Hnone Hdedup. rewrite Hnone.
    unfold Extractor.deduplicate_and_store. now rewrite Hdedup.
Qed.

(** The theorem at work: a picture served without extension and without
    headers, with [skip_all_errors] set. *)
Lemma legacy_filename_failure_aborts_witness :
  exists st,
    Extractor.download_images Scenario.lib
      (Scenario.legacy_downloader true false) Cases.world_without_headers
      ["http://a.com/picture"; "http://a.com/x.png"]
    = Loop.Raised (Py.KeyError "content-type") st.
Proof.
  eexists.
  eapply (proj1 (legacy_filename_failure_aborts Scenario.lib
                   (Scenario.legacy_downloader true false)
                   Cases.world_without_headers [] ["http://a.com/x.png"]
                   "http://a.com/picture" _ _ _
                   eq_refl eq_refl eq_refl eq_refl eq_refl eq_refl)).
  vm_compute. reflexivity.
Defined.
